(** * MeetMesh: the Room Authority (src/server.ts) and the Peer Session
    Negotiator (src/hooks/useWebRTC.ts), embedded and verified.

    The server keeps six JavaScript [Map]s and drives socket.io; both are
    modelled with their insertion order, because the code iterates them
    ([Array.from(socketToUser.entries()).find], [roomUsers.values().next()],
    [for ... of waitingRooms.entries()]). Of socket.io the registry of
    connected sockets with the rooms each has joined is kept, and every
    emission is recorded with the sockets it is handed to. Of the browser
    the hook's connections are kept with what decides whether its calls are
    accepted: the remote description and a pending local offer. *)

From Stdlib Require Import List String Bool Arith Lia ZArith QArith Lqa Permutation.
Import ListNotations.
Local Close Scope Q_scope.
Local Open Scope nat_scope.
Local Open Scope string_scope.
Local Open Scope list_scope.

(** ** JavaScript values *)

(** [if (x)] on a string: the empty string is falsy. *)
Definition truthy (x : string) : bool := negb (x =? "").

(** [if (x)] on [string | undefined]. *)
Definition truthy_opt (x : option string) : bool :=
  match x with Some v => truthy v | None => false end.

(** [a === b] on [string | undefined]. *)
Definition opt_eqb (a b : option string) : bool :=
  match a, b with
  | Some x, Some y => x =? y
  | None, None => true
  | _, _ => false
  end.

Definition isSome {A} (o : option A) : bool :=
  match o with Some _ => true | None => false end.

(** ** [Map<string, V>]: entries in insertion order *)
Module JMap.
Section Ops.
Context {V : Type}.

Definition t := list (string * V).

Fixpoint get (k : string) (m : list (string * V)) : option V :=
  match m with
  | [] => None
  | (k', v) :: m' => if k =? k' then Some v else get k m'
  end.

Definition has (k : string) (m : list (string * V)) : bool := isSome (get k m).

(** [m.set(k, v)]: an existing key keeps its place, a new one goes last. *)
Fixpoint set (k : string) (v : V) (m : list (string * V)) : list (string * V) :=
  match m with
  | [] => [(k, v)]
  | (k', v') :: m' => if k =? k' then (k, v) :: m' else (k', v') :: set k v m'
  end.

Definition del (k : string) (m : list (string * V)) : list (string * V) :=
  filter (fun p => negb (fst p =? k)) m.

Definition keys (m : list (string * V)) : list string := map fst m.
Definition values (m : list (string * V)) : list V := map snd m.
Definition size (m : list (string * V)) : nat := List.length m.
End Ops.
Arguments t : clear implicits.
End JMap.

(** ** [Set<string>]: elements in insertion order *)
Module JSet.
Definition t := list string.
Definition has (x : string) (s : t) : bool := existsb (String.eqb x) s.
Definition add (x : string) (s : t) : t := if has x s then s else s ++ [x].
Definition del (x : string) (s : t) : t := filter (fun y => negb (y =? x)) s.
Definition size (s : t) : nat := List.length s.
(** [s.values().next().value] *)
Definition first (s : t) : option string := hd_error s.
End JSet.

(** ** Data of src/server.ts *)

Record RoomMeta := mkRoomMeta {
  isPublic : bool;
  name : option string;
  hostId : option string;
  isLocked : bool;
  waitingRoom : bool
}.

Record WaitingUser := mkWaitingUser {
  odId : string;
  socketId : string;
  userName : string
}.

(** The optional third argument of [join-room]. *)
Record RoomConfig := mkRoomConfig {
  cfg_isPublic : bool;
  cfg_name : string;
  cfg_waitingRoom : option bool
}.

(** What [getRoomSettings] returns. *)
Record RoomSettings := mkRoomSettings {
  rs_isLocked : bool;
  rs_waitingRoom : bool;
  rs_hostId : option string
}.

(** An element of the [rooms-update] directory. *)
Record RoomInfo := mkRoomInfo {
  ri_roomId : string;
  ri_name : option string;
  ri_count : nat;
  ri_isPublic : bool;
  ri_isLocked : bool;
  ri_waitingRoom : bool
}.

(** Messages the authority sends. *)
Inductive ServerMsg :=
| RoomsUpdate (publicRooms : list RoomInfo)
| PingAck
| RoomLocked (roomId : string)
| WaitingRoom (roomId : string) (position : nat)
| WaitingRoomUpdate (roomId : string) (waitingUsers : list (string * string))
| RoomJoined (roomId : string) (isHost : bool) (settings : RoomSettings)
| AdmittedMsg (roomId : string) (isHost : bool) (settings : RoomSettings)
| Denied (roomId : string)
| RoomSettingsUpdate (settings : RoomSettings)
| HostChanged (isHost : bool)
| RoomClosed (roomId : string)
| UserConnected (userId : string)
| UserDisconnected (userId : string)
| OfferMsg (callerId : option string) (userName : string) (isScreenShare : bool)
           (offer : string) (targetUserId : string)
| AnswerMsg (callerId : option string) (userName : string) (isScreenShare : bool)
            (answer : string) (targetUserId : string)
| IceCandidateMsg (callerId : option string) (candidate : string) (targetUserId : string)
| ChatMessageMsg (message : string)
| ReactionMsg (reaction : string)
| CaptionMsg (caption : string)
| WhiteboardDrawMsg (data : string)
| WhiteboardClearMsg.

(** How an emission is addressed in the source. *)
Inductive Target :=
| ToSocket (sid : string)                  (* socket.emit / targetSocket.emit *)
| ToRoom (room : string)                   (* io.to(room).emit *)
| ToRoomExcept (room : string) (sid : string)   (* socket.to(room).emit *)
| ToAll.                                   (* io.emit *)

(** One emission: its address, its message, and the sockets socket.io hands
    it to at the moment of the call. *)
Record Emission := mkEmission {
  target : Target;
  msg : ServerMsg;
  recipients : list string
}.

(** The module-level state of src/server.ts, the part of socket.io it relies
    on ([sio]: every connected socket with the rooms it has joined; a socket
    is always in the room named by its own id), and the messages emitted
    while the current event is handled. *)
Record State := mkState {
  rooms : JMap.t JSet.t;
  roomMetadata : JMap.t RoomMeta;
  waitingRooms : JMap.t (JMap.t WaitingUser);
  socketToUser : JMap.t string;
  userToRoom : JMap.t string;
  userNames : JMap.t string;
  sio : JMap.t JSet.t;
  outbox : list Emission
}.

Definition initial : State := mkState [] [] [] [] [] [] [] [].

Definition with_rooms v s :=
  mkState v (roomMetadata s) (waitingRooms s) (socketToUser s) (userToRoom s)
          (userNames s) (sio s) (outbox s).
Definition with_roomMetadata v s :=
  mkState (rooms s) v (waitingRooms s) (socketToUser s) (userToRoom s)
          (userNames s) (sio s) (outbox s).
Definition with_waitingRooms v s :=
  mkState (rooms s) (roomMetadata s) v (socketToUser s) (userToRoom s)
          (userNames s) (sio s) (outbox s).
Definition with_socketToUser v s :=
  mkState (rooms s) (roomMetadata s) (waitingRooms s) v (userToRoom s)
          (userNames s) (sio s) (outbox s).
Definition with_userToRoom v s :=
  mkState (rooms s) (roomMetadata s) (waitingRooms s) (socketToUser s) v
          (userNames s) (sio s) (outbox s).
Definition with_userNames v s :=
  mkState (rooms s) (roomMetadata s) (waitingRooms s) (socketToUser s) (userToRoom s)
          v (sio s) (outbox s).
Definition with_sio v s :=
  mkState (rooms s) (roomMetadata s) (waitingRooms s) (socketToUser s) (userToRoom s)
          (userNames s) v (outbox s).
Definition with_outbox v s :=
  mkState (rooms s) (roomMetadata s) (waitingRooms s) (socketToUser s) (userToRoom s)
          (userNames s) (sio s) v.

(** ** socket.io as the server uses it *)

(** [io.sockets.sockets.get(sid)] is defined. *)
Definition connected (sid : string) (s : State) : bool := JMap.has sid (sio s).

(** The sockets currently in a socket.io room. *)
Definition room_sockets (room : string) (s : State) : list string :=
  JMap.keys (filter (fun p => JSet.has room (snd p)) (sio s)).

Definition socket_join (sid room : string) (s : State) : State :=
  match JMap.get sid (sio s) with
  | Some joined => with_sio (JMap.set sid (JSet.add room joined) (sio s)) s
  | None => s
  end.

Definition socket_leave (sid room : string) (s : State) : State :=
  match JMap.get sid (sio s) with
  | Some joined => with_sio (JMap.set sid (JSet.del room joined) (sio s)) s
  | None => s
  end.

Definition push (e : Emission) (s : State) : State :=
  with_outbox (outbox s ++ [e]) s.

(** [socket.emit(m)] for the socket [sid]. *)
Definition socket_emit (sid : string) (m : ServerMsg) (s : State) : State :=
  push (mkEmission (ToSocket sid) m [sid]) s.

(** [io.to(room).emit(m)] *)
Definition io_to (room : string) (m : ServerMsg) (s : State) : State :=
  push (mkEmission (ToRoom room) m (room_sockets room s)) s.

(** The sockets in [room] that are not in the room [except]. *)
Definition room_sockets_except (room except : string) (s : State) : list string :=
  JMap.keys (filter (fun p => JSet.has room (snd p) && negb (JSet.has except (snd p)))
                    (sio s)).

(** [socket.to(room).emit(m)]: the broadcast operator of a socket carries
    the socket's id as an excepted room, so the message goes to the sockets
    of [room] that are not in the room named [sid]. The sender is left out
    as long as it is in the room of its own id. *)
Definition socket_to (sid room : string) (m : ServerMsg) (s : State) : State :=
  push (mkEmission (ToRoomExcept room sid) m (room_sockets_except room sid s)) s.

(** [io.emit(m)] *)
Definition io_emit (m : ServerMsg) (s : State) : State :=
  push (mkEmission ToAll m (JMap.keys (sio s))) s.

(** ** Helpers of src/server.ts *)

(** [meta?.f] used as a condition, for a boolean field [f]. *)
Definition opt_flag (f : RoomMeta -> bool) (meta : option RoomMeta) : bool :=
  match meta with Some m => f m | None => false end.

(** [meta?.hostId] *)
Definition meta_hostId (meta : option RoomMeta) : option string :=
  match meta with Some m => hostId m | None => None end.

Definition member_count (roomId : string) (s : State) : nat :=
  match JMap.get roomId (rooms s) with
  | Some members => JSet.size members
  | None => 0
  end.

Definition getPublicRooms (s : State) : list RoomInfo :=
  flat_map
    (fun entry =>
       let roomId := fst entry in
       let metadata := snd entry in
       if isPublic metadata then
         let count := member_count roomId s in
         if Nat.ltb 0 count then
           [mkRoomInfo roomId (name metadata) count true
                       (isLocked metadata) (waitingRoom metadata)]
         else []
       else [])
    (roomMetadata s).

Definition broadcastPublicRooms (s : State) : State :=
  io_emit (RoomsUpdate (getPublicRooms s)) s.

Definition getRoomSettings (roomId : string) (s : State) : RoomSettings :=
  let meta := JMap.get roomId (roomMetadata s) in
  mkRoomSettings (opt_flag isLocked meta) (opt_flag waitingRoom meta) (meta_hostId meta).

(** [Array.from(socketToUser.entries()).find(([_, id]) => id === u)?.[0]] *)
Definition socket_of_user (u : option string) (bindings : JMap.t string) : option string :=
  option_map fst (find (fun p => opt_eqb (Some (snd p)) u) bindings).

(** [Array.from(waiting.values()).map(u => ({ odId: u.odId, userName: u.userName }))] *)
Definition waiting_list (waiting : JMap.t WaitingUser) : list (string * string) :=
  map (fun u => (odId u, userName u)) (JMap.values waiting).

Definition set_hostId (h : option string) (m : RoomMeta) : RoomMeta :=
  mkRoomMeta (isPublic m) (name m) h (isLocked m) (waitingRoom m).
Definition set_isLocked (b : bool) (m : RoomMeta) : RoomMeta :=
  mkRoomMeta (isPublic m) (name m) (hostId m) b (waitingRoom m).
Definition set_waitingRoom (b : bool) (m : RoomMeta) : RoomMeta :=
  mkRoomMeta (isPublic m) (name m) (hostId m) (isLocked m) b.

(** ** join-room *)

(** The metadata literal of a new room (server.ts, lines 149-155). *)
Definition new_meta (roomId odId : string) (config : option RoomConfig) : RoomMeta :=
  mkRoomMeta
    (match config with Some c => cfg_isPublic c | None => false end)
    (Some (match config with
           | Some c => if truthy (cfg_name c) then cfg_name c else String.append "Room " roomId
           | None => String.append "Room " roomId
           end))
    (Some odId)
    false
    (match config with
     | Some c => match cfg_waitingRoom c with Some b => b | None => false end
     | None => false
     end).

Definition create_room (roomId odId : string) (config : option RoomConfig)
    (s : State) : State :=
  let s := with_rooms (JMap.set roomId [] (rooms s)) s in
  let s := with_roomMetadata (JMap.set roomId (new_meta roomId odId config) (roomMetadata s)) s in
  with_waitingRooms (JMap.set roomId [] (waitingRooms s)) s.

(** [userName || odId] *)
Definition shown_name (userName : option string) (odId : string) : string :=
  match userName with
  | Some n => if truthy n then n else odId
  | None => odId
  end.

(** The waiting-room branch (lines 109-137). *)
Definition join_waiting (sid roomId odId : string) (userName : option string)
    (host : option string) (s : State) : State :=
  let s := if JMap.has roomId (waitingRooms s) then s
           else with_waitingRooms (JMap.set roomId [] (waitingRooms s)) s in
  let waiting := match JMap.get roomId (waitingRooms s) with
                 | Some w => w
                 | None => []
                 end in
  let waiting := JMap.set odId (mkWaitingUser odId sid (shown_name userName odId)) waiting in
  let s := with_waitingRooms (JMap.set roomId waiting (waitingRooms s)) s in
  let s := with_socketToUser (JMap.set sid odId (socketToUser s)) s in
  let s := socket_emit sid (WaitingRoom roomId (JMap.size waiting)) s in
  match socket_of_user host (socketToUser s) with
  | Some hostSocketId =>
      if truthy hostSocketId then
        io_to hostSocketId (WaitingRoomUpdate roomId (waiting_list waiting)) s
      else s
  | None => s
  end.

(** The direct join (lines 139-177). *)
Definition join_direct (sid roomId odId : string) (config : option RoomConfig)
    (isNewRoom : bool) (s : State) : State :=
  let s := socket_join sid roomId s in
  let s := with_socketToUser (JMap.set sid odId (socketToUser s)) s in
  let s := with_userToRoom (JMap.set odId roomId (userToRoom s)) s in
  let s := if isNewRoom then create_room roomId odId config s else s in
  let s := match JMap.get roomId (rooms s) with
           | Some roomUsers =>
               let s := socket_to sid roomId (UserConnected odId) s in
               with_rooms (JMap.set roomId (JSet.add odId roomUsers) (rooms s)) s
           | None => s
           end in
  let meta := JMap.get roomId (roomMetadata s) in
  let s := socket_emit sid
             (RoomJoined roomId (opt_eqb (meta_hostId meta) (Some odId))
                         (getRoomSettings roomId s)) s in
  broadcastPublicRooms s.

Definition on_join_room (sid roomId odId : string) (config : option RoomConfig)
    (userName : option string) (s : State) : State :=
  let s := if truthy_opt userName then
             match userName with
             | Some n => with_userNames (JMap.set odId n (userNames s)) s
             | None => s
             end
           else s in
  let existingMeta := JMap.get roomId (roomMetadata s) in
  let isNewRoom := negb (isSome existingMeta) in
  if opt_flag isLocked existingMeta then
    socket_emit sid (RoomLocked roomId) s
  else if opt_flag waitingRoom existingMeta
          && negb (opt_eqb (meta_hostId existingMeta) (Some odId)) then
    join_waiting sid roomId odId userName (meta_hostId existingMeta) s
  else
    join_direct sid roomId odId config isNewRoom s.

(** ** admit-user and deny-user *)

Definition on_admit_user (sid roomId odId : string) (s : State) : State :=
  let hostUserId := JMap.get sid (socketToUser s) in
  let meta := JMap.get roomId (roomMetadata s) in
  if negb (opt_eqb (meta_hostId meta) hostUserId) then s
  else
    match JMap.get roomId (waitingRooms s) with
    | Some waiting =>
        match JMap.get odId waiting with
        | Some waitingUser =>
            let waiting := JMap.del odId waiting in
            let s := with_waitingRooms (JMap.set roomId waiting (waitingRooms s)) s in
            let target := socketId waitingUser in
            let s :=
              if connected target s then
                let s := socket_join target roomId s in
                let s := with_userToRoom (JMap.set odId roomId (userToRoom s)) s in
                let s := match JMap.get roomId (rooms s) with
                         | Some roomUsers =>
                             let s := socket_to target roomId (UserConnected odId) s in
                             with_rooms (JMap.set roomId (JSet.add odId roomUsers) (rooms s)) s
                         | None => s
                         end in
                socket_emit target (AdmittedMsg roomId false (getRoomSettings roomId s)) s
              else s in
            let s := socket_emit sid (WaitingRoomUpdate roomId (waiting_list waiting)) s in
            broadcastPublicRooms s
        | None => s
        end
    | None => s
    end.

Definition on_deny_user (sid roomId odId : string) (s : State) : State :=
  let hostUserId := JMap.get sid (socketToUser s) in
  let meta := JMap.get roomId (roomMetadata s) in
  if negb (opt_eqb (meta_hostId meta) hostUserId) then s
  else
    match JMap.get roomId (waitingRooms s) with
    | Some waiting =>
        match JMap.get odId waiting with
        | Some waitingUser =>
            let waiting := JMap.del odId waiting in
            let s := with_waitingRooms (JMap.set roomId waiting (waitingRooms s)) s in
            let target := socketId waitingUser in
            let s :=
              if connected target s then
                let s := socket_emit target (Denied roomId) s in
                with_socketToUser (JMap.del target (socketToUser s)) s
              else s in
            socket_emit sid (WaitingRoomUpdate roomId (waiting_list waiting)) s
        | None => s
        end
    | None => s
    end.

(** ** toggle-lock and toggle-waiting-room

    A handler either returns or throws; an exception thrown by a socket.io
    listener is not caught by the server. *)
Inductive Outcome :=
| Done (s : State)
| Throws (error : string).

Definition on_toggle_lock (sid roomId : string) (s : State) : Outcome :=
  let hostUserId := JMap.get sid (socketToUser s) in
  let meta := JMap.get roomId (roomMetadata s) in
  if negb (opt_eqb (meta_hostId meta) hostUserId) then Done s
  else
    match meta with
    | None => Throws "TypeError: Cannot read properties of undefined (reading 'isLocked')"
    | Some m =>
        let s := with_roomMetadata
                   (JMap.set roomId (set_isLocked (negb (isLocked m)) m) (roomMetadata s)) s in
        let s := io_to roomId (RoomSettingsUpdate (getRoomSettings roomId s)) s in
        Done (broadcastPublicRooms s)
    end.

Definition on_toggle_waiting_room (sid roomId : string) (s : State) : Outcome :=
  let hostUserId := JMap.get sid (socketToUser s) in
  let meta := JMap.get roomId (roomMetadata s) in
  if negb (opt_eqb (meta_hostId meta) hostUserId) then Done s
  else
    match meta with
    | None => Throws "TypeError: Cannot read properties of undefined (reading 'waitingRoom')"
    | Some m =>
        let s := with_roomMetadata
                   (JMap.set roomId (set_waitingRoom (negb (waitingRoom m)) m) (roomMetadata s)) s in
        let s := io_to roomId (RoomSettingsUpdate (getRoomSettings roomId s)) s in
        Done (broadcastPublicRooms s)
    end.

(** ** Relays *)

(** [userToRoom.get(socketToUser.get(socket.id) || '')] *)
Definition sender_room (sid : string) (s : State) : option string :=
  let user := match JMap.get sid (socketToUser s) with
              | Some u => if truthy u then u else ""
              | None => ""
              end in
  JMap.get user (userToRoom s).

(** offer, answer and ice-candidate: to the sender's room, tagged with the
    sender. *)
Definition relay_to_own_room (sid : string) (m : ServerMsg) (s : State) : State :=
  match sender_room sid s with
  | Some roomId => if truthy roomId then socket_to sid roomId m s else s
  | None => s
  end.

(** ** leave-room and disconnect

    Both handlers carry the same code for taking a user out of a room, with
    host transfer and the cleanup of an empty room; it is written once
    here. *)

(** Lines 379-398 and 468-485. *)
Definition transfer_host (roomId : string) (roomUsers : JSet.t) (s : State) : State :=
  match JSet.first roomUsers, JMap.get roomId (roomMetadata s) with
  | Some newHostId, Some meta =>
      let s := with_roomMetadata
                 (JMap.set roomId (set_hostId (Some newHostId) meta) (roomMetadata s)) s in
      match socket_of_user (Some newHostId) (socketToUser s) with
      | Some newHostSocketId =>
          if truthy newHostSocketId then
            let s := io_to newHostSocketId (HostChanged true) s in
            let s := io_to newHostSocketId
                       (RoomSettingsUpdate (getRoomSettings roomId s)) s in
            match JMap.get roomId (waitingRooms s) with
            | Some waiting =>
                if Nat.ltb 0 (JMap.size waiting) then
                  io_to newHostSocketId
                        (WaitingRoomUpdate roomId (waiting_list waiting)) s
                else s
            | None => s
            end
          else s
      | None => s
      end
  | _, _ => s
  end.

(** One turn of the loop over [waiting.values()] (lines 409-415, 495-501). *)
Definition close_one (roomId : string) (s : State) (user : WaitingUser) : State :=
  if connected (socketId user) s then
    let s := socket_emit (socketId user) (RoomClosed roomId) s in
    with_socketToUser (JMap.del (socketId user) (socketToUser s)) s
  else s.

(** Lines 403-417 and 490-503. *)
Definition close_room (roomId : string) (s : State) : State :=
  let s := with_rooms (JMap.del roomId (rooms s)) s in
  let s := with_roomMetadata (JMap.del roomId (roomMetadata s)) s in
  match JMap.get roomId (waitingRooms s) with
  | Some waiting =>
      let s := fold_left (close_one roomId) (JMap.values waiting) s in
      with_waitingRooms (JMap.del roomId (waitingRooms s)) s
  | None => s
  end.

(** Lines 374-421 and 461-506: the user leaves the member set, then the
    host role moves on or the empty room is cleaned up. *)
Definition remove_member (roomId userId : string) (s : State) : State :=
  let meta := JMap.get roomId (roomMetadata s) in
  match JMap.get roomId (rooms s) with
  | Some roomUsers =>
      let roomUsers := JSet.del userId roomUsers in
      let s := with_rooms (JMap.set roomId roomUsers (rooms s)) s in
      let s := if opt_eqb (meta_hostId meta) (Some userId)
                  && Nat.ltb 0 (JSet.size roomUsers)
               then transfer_host roomId roomUsers s else s in
      if Nat.eqb (JSet.size roomUsers) 0 then close_room roomId s else s
  | None => s
  end.

Definition on_leave_room (sid roomId userId : string) (s : State) : State :=
  let s := socket_leave sid roomId s in
  let s := remove_member roomId userId s in
  let s := socket_to sid roomId (UserDisconnected userId) s in
  let s := with_userToRoom (JMap.del userId (userToRoom s)) s in
  let s := with_userNames (JMap.del userId (userNames s)) s in
  broadcastPublicRooms s.

(** [waiting.delete(odId)] on the first waiting room that holds the user
    (lines 440-442 with the [break] of line 456). *)
Fixpoint drop_waiting (odId : string) (W : JMap.t (JMap.t WaitingUser))
    : JMap.t (JMap.t WaitingUser) :=
  match W with
  | [] => []
  | (rid, waiting) :: W' =>
      if JMap.has odId waiting then (rid, JMap.del odId waiting) :: W'
      else (rid, waiting) :: drop_waiting odId W'
  end.

(** The loop of lines 440-458. *)
Definition leave_waiting (odId : string) (s : State) : State :=
  match find (fun p => JMap.has odId (snd p)) (waitingRooms s) with
  | Some (rid, waiting) =>
      let waiting := JMap.del odId waiting in
      let s := with_waitingRooms (drop_waiting odId (waitingRooms s)) s in
      let meta := JMap.get rid (roomMetadata s) in
      if truthy_opt (meta_hostId meta) then
        match socket_of_user (meta_hostId meta) (socketToUser s) with
        | Some hostSocketId =>
            if truthy hostSocketId then
              io_to hostSocketId (WaitingRoomUpdate rid (waiting_list waiting)) s
            else s
        | None => s
        end
      else s
  | None => s
  end.

(** Lines 460-510. *)
Definition disconnect_room (sid roomId odId : string) (s : State) : State :=
  let s := remove_member roomId odId s in
  let s := socket_to sid roomId (UserDisconnected odId) s in
  broadcastPublicRooms s.

(** socket.io takes the socket out of its registry and of every room before
    it runs the [disconnect] listener. *)
Definition on_disconnect (sid : string) (s : State) : State :=
  let s := with_sio (JMap.del sid (sio s)) s in
  match JMap.get sid (socketToUser s) with
  | Some odId =>
      if truthy odId then
        let roomId := JMap.get odId (userToRoom s) in
        let s := leave_waiting odId s in
        let s := match roomId with
                 | Some r => if truthy r then disconnect_room sid r odId s else s
                 | None => s
                 end in
        let s := with_socketToUser (JMap.del sid (socketToUser s)) s in
        let s := with_userToRoom (JMap.del odId (userToRoom s)) s in
        with_userNames (JMap.del odId (userNames s)) s
      else s
  | None => s
  end.

(** ** The event loop *)

Inductive ClientEvent :=
| Connection
| GetRooms
| Ping (hasCallback : bool)
| JoinRoom (roomId odId : string) (config : option RoomConfig) (userName : option string)
| AdmitUser (roomId odId : string)
| DenyUser (roomId odId : string)
| ToggleLock (roomId : string)
| ToggleWaitingRoom (roomId : string)
| Offer (targetUserId userName : string) (isScreenShare : bool) (offer : string)
| Answer (targetUserId userName : string) (isScreenShare : bool) (answer : string)
| IceCandidate (targetUserId candidate : string)
| ChatMessage (roomId message : string)
| Reaction (roomId reaction : string)
| Caption (roomId caption : string)
| WhiteboardDraw (roomId data : string)
| WhiteboardClear (roomId : string)
| LeaveRoom (roomId userId : string)
| Disconnect.

(** An event together with the socket it arrives on. *)
Definition Event : Type := string * ClientEvent.

Definition handle (sid : string) (ev : ClientEvent) (s : State) : Outcome :=
  match ev with
  | Connection => Done (with_sio (JMap.set sid [sid] (sio s)) s)
  | GetRooms => Done (socket_emit sid (RoomsUpdate (getPublicRooms s)) s)
  | Ping hasCallback => Done (if hasCallback then socket_emit sid PingAck s else s)
  | JoinRoom roomId odId config userName =>
      Done (on_join_room sid roomId odId config userName s)
  | AdmitUser roomId odId => Done (on_admit_user sid roomId odId s)
  | DenyUser roomId odId => Done (on_deny_user sid roomId odId s)
  | ToggleLock roomId => on_toggle_lock sid roomId s
  | ToggleWaitingRoom roomId => on_toggle_waiting_room sid roomId s
  | Offer targetUserId userName isScreenShare offer =>
      Done (relay_to_own_room sid
              (OfferMsg (JMap.get sid (socketToUser s)) userName isScreenShare offer
                        targetUserId) s)
  | Answer targetUserId userName isScreenShare answer =>
      Done (relay_to_own_room sid
              (AnswerMsg (JMap.get sid (socketToUser s)) userName isScreenShare answer
                         targetUserId) s)
  | IceCandidate targetUserId candidate =>
      Done (relay_to_own_room sid
              (IceCandidateMsg (JMap.get sid (socketToUser s)) candidate targetUserId) s)
  | ChatMessage roomId message => Done (socket_to sid roomId (ChatMessageMsg message) s)
  | Reaction roomId reaction => Done (socket_to sid roomId (ReactionMsg reaction) s)
  | Caption roomId caption => Done (socket_to sid roomId (CaptionMsg caption) s)
  | WhiteboardDraw roomId data => Done (socket_to sid roomId (WhiteboardDrawMsg data) s)
  | WhiteboardClear roomId => Done (socket_to sid roomId WhiteboardClearMsg s)
  | LeaveRoom roomId userId => Done (on_leave_room sid roomId userId s)
  | Disconnect => Done (on_disconnect sid s)
  end.

(** One event: the outbox starts empty and ends with what the event emitted. *)
Definition step (s : State) (e : Event) : Outcome :=
  handle (fst e) (snd e) (with_outbox [] s).

(** A sequence of events, in arrival order; a throw ends the run. *)
Fixpoint run (s : State) (events : list Event) : Outcome :=
  match events with
  | [] => Done s
  | e :: rest =>
      match step s e with
      | Done s' => run s' rest
      | Throws err => Throws err
      end
  end.

Definition reachable (s : State) : Prop :=
  exists events, run initial events = Done s.

(** * The Peer Session Negotiator (src/hooks/useWebRTC.ts) *)

(** ** The browser's RTCPeerConnection

    The connection object belongs to the browser. What the hook relies on is
    kept: the two descriptions, the remote candidates the connection has
    accepted, oldest first, and the part of the signalling state that
    decides whether a call of the hook is accepted: whether a local offer is
    pending ([signalingState] is [have-local-offer]). Between two handlers
    a connection is stable or has a pending local offer; [have-remote-offer]
    lasts from [setRemoteDescription(offer)] to
    [setLocalDescription(answer)] inside [handleOffer] only. *)

Inductive Description :=
| Received (sdp : string)     (* new RTCSessionDescription(offer | answer) *)
| CreatedOffer                (* await pc.createOffer() *)
| CreatedAnswer.              (* await pc.createAnswer() *)

(** The [type] of a session description. *)
Inductive SdpType :=
| SdpOffer
| SdpAnswer.

Record PeerConnection := mkPeerConnection {
  remoteDescription : option Description;
  localDescription : option Description;
  appliedCandidates : list string;
  pendingLocalOffer : bool
}.

(** [new RTCPeerConnection(STUN_SERVERS)] *)
Definition newPeerConnection : PeerConnection := mkPeerConnection None None [] false.

(** [pc.setRemoteDescription(new RTCSessionDescription(d))]; [None] when the
    promise is rejected (InvalidStateError). An answer is accepted only
    while a local offer is pending, and completes the exchange. An offer is
    accepted on a stable connection; on a pending local offer (both sides
    have offered) an implementation with implicit rollback, as WebRTC 1.0
    specifies, discards the pending offer and accepts, and one without
    rejects. The local description a rollback falls back to is not tracked:
    [handleOffer] replaces it by its answer in the next call. *)
Definition setRemoteDescription (implicitRollback : bool) (type : SdpType)
    (sdp : string) (pc : PeerConnection) : option PeerConnection :=
  match type with
  | SdpAnswer =>
      if pendingLocalOffer pc then
        Some (mkPeerConnection (Some (Received sdp)) (localDescription pc)
                               (appliedCandidates pc) false)
      else None
  | SdpOffer =>
      if pendingLocalOffer pc then
        if implicitRollback then
          Some (mkPeerConnection (Some (Received sdp)) None (appliedCandidates pc) false)
        else None
      else
        Some (mkPeerConnection (Some (Received sdp)) (localDescription pc)
                               (appliedCandidates pc) false)
  end.

(** [pc.setLocalDescription(d)] as the hook calls it: with a created offer,
    which becomes pending (accepted on a stable connection and on one whose
    local offer is pending already), or with the answer created for the
    remote offer just set, which completes the exchange. *)
Definition setLocalDescription (d : Description) (pc : PeerConnection) : PeerConnection :=
  mkPeerConnection (remoteDescription pc) (Some d) (appliedCandidates pc)
                   (match d with CreatedOffer => true | _ => false end).

(** [pc.addIceCandidate(c)], for a well-formed candidate: the promise is
    rejected (InvalidStateError) while the connection has no remote
    description. *)
Definition addIceCandidate (c : string) (pc : PeerConnection) : option PeerConnection :=
  match remoteDescription pc with
  | Some _ =>
      Some (mkPeerConnection (remoteDescription pc) (localDescription pc)
                             (appliedCandidates pc ++ [c]) (pendingLocalOffer pc))
  | None => None
  end.

(** ** The hook *)

(** What the hook sends through [signaling.emit]. *)
Inductive Signal :=
| SendOffer (targetUserId userName : string) (isScreenShare : bool) (offer : Description)
| SendAnswer (targetUserId userName : string) (isScreenShare : bool) (answer : Description).

(** [peersRef.current], the two name maps, what the hook has sent, the
    errors it has caught and logged, and the rejections nobody catches: the
    listeners call the async handlers without awaiting them, so a rejected
    [await] outside a [try] ends the handler there and surfaces as an
    unhandled promise rejection. The hook has no other store for
    candidates. *)
Record Hook := mkHook {
  peers : JMap.t PeerConnection;
  peerNames : JMap.t string;
  peerScreenShares : JMap.t bool;
  sent : list Signal;
  errors : list string;
  rejections : list string
}.

Definition emptyHook : Hook := mkHook [] [] [] [] [] [].

Definition with_peers v h :=
  mkHook v (peerNames h) (peerScreenShares h) (sent h) (errors h) (rejections h).

(** The handler ends on a rejected [await]. *)
Definition reject (reason : string) (h : Hook) : Hook :=
  mkHook (peers h) (peerNames h) (peerScreenShares h) (sent h) (errors h)
         (rejections h ++ [reason]).

(** [createPeerConnection]: the existing connection if there is one. *)
Definition createPeerConnection (targetUserId : string) (h : Hook)
    : PeerConnection * Hook :=
  match JMap.get targetUserId (peers h) with
  | Some pc => (pc, h)
  | None =>
      (newPeerConnection, with_peers (JMap.set targetUserId newPeerConnection (peers h)) h)
  end.

Definition handleUserConnected (userName : string) (isScreenShare : bool)
    (newUserId : string) (h : Hook) : Hook :=
  let (pc, h) := createPeerConnection newUserId h in
  let pc := setLocalDescription CreatedOffer pc in
  mkHook (JMap.set newUserId pc (peers h)) (peerNames h) (peerScreenShares h)
         (sent h ++ [SendOffer newUserId userName isScreenShare CreatedOffer])
         (errors h) (rejections h).

Definition handleOffer (implicitRollback : bool) (userName : string)
    (isScreenShare : bool) (callerId callerName : string) (isScreenShareRemote : bool)
    (offer : string) (h : Hook) : Hook :=
  let h := mkHook (peers h) (JMap.set callerId callerName (peerNames h))
                  (JMap.set callerId isScreenShareRemote (peerScreenShares h))
                  (sent h) (errors h) (rejections h) in
  let (pc, h) := createPeerConnection callerId h in
  match setRemoteDescription implicitRollback SdpOffer offer pc with
  | Some pc =>
      let pc := setLocalDescription CreatedAnswer pc in
      mkHook (JMap.set callerId pc (peers h)) (peerNames h) (peerScreenShares h)
             (sent h ++ [SendAnswer callerId userName isScreenShare CreatedAnswer])
             (errors h) (rejections h)
  | None => reject "InvalidStateError: setRemoteDescription(offer)" h
  end.

Definition handleAnswer (implicitRollback : bool) (callerId callerName : string)
    (isScreenShareRemote : bool) (answer : string) (h : Hook) : Hook :=
  let h := mkHook (peers h) (JMap.set callerId callerName (peerNames h))
                  (JMap.set callerId isScreenShareRemote (peerScreenShares h))
                  (sent h) (errors h) (rejections h) in
  match JMap.get callerId (peers h) with
  | Some pc =>
      match setRemoteDescription implicitRollback SdpAnswer answer pc with
      | Some pc => with_peers (JMap.set callerId pc (peers h)) h
      | None => reject "InvalidStateError: setRemoteDescription(answer)" h
      end
  | None => h
  end.

Definition handleIceCandidate (callerId candidate : string) (h : Hook) : Hook :=
  match JMap.get callerId (peers h) with
  | Some pc =>
      match addIceCandidate candidate pc with
      | Some pc' => with_peers (JMap.set callerId pc' (peers h)) h
      | None =>
          mkHook (peers h) (peerNames h) (peerScreenShares h) (sent h)
                 (errors h ++ ["Error adding received ice candidate"])
                 (rejections h)
      end
  | None => h
  end.

(** ICE candidates from one caller, handled in arrival order. *)
Definition handleIceCandidates (callerId : string) (candidates : list string)
    (h : Hook) : Hook :=
  fold_left (fun h c => handleIceCandidate callerId c h) candidates h.

(** ** The statistics sample (lines 120-133)

    Packet counters are integers; the percentage is kept as an exact
    rational. *)

Record PacketCounts := mkPacketCounts {
  packetsLost : Z;
  packetsReceived : Z
}.

Definition lossPercentage (prev : PacketCounts) (cumulativeLoss cumulativeReceived : Z) : Q :=
  let deltaLost := (cumulativeLoss - packetsLost prev)%Z in
  let deltaReceived := (cumulativeReceived - packetsReceived prev)%Z in
  let totalPackets := (deltaLost + deltaReceived)%Z in
  if (0 <? totalPackets)%Z then
    (inject_Z deltaLost / inject_Z totalPackets * inject_Z 100)%Q
  else 0%Q.

(** One peer's turn in the sampling loop: the percentage reported, and
    [prevStatsRef.current] afterwards. *)
Definition sampleLoss (peerId : string) (cumulativeLoss cumulativeReceived : Z)
    (prevStats : JMap.t PacketCounts) : Q * JMap.t PacketCounts :=
  let prev := match JMap.get peerId prevStats with
              | Some p => p
              | None => mkPacketCounts 0 0
              end in
  (lossPercentage prev cumulativeLoss cumulativeReceived,
   JMap.set peerId (mkPacketCounts cumulativeLoss cumulativeReceived) prevStats).

(** The turns of other peers in the sampling loop, in order: each gives
    the peer and the cumulative lost and received counts read for it. *)
Definition sampleOthers (samples : list (string * (Z * Z)))
    (prevStats : JMap.t PacketCounts) : JMap.t PacketCounts :=
  fold_left (fun stats x => snd (sampleLoss (fst x) (fst (snd x)) (snd (snd x)) stats))
            samples prevStats.

(** * Vocabulary of the properties *)

(** The room a host-only event names. *)
Definition host_only_room (ev : ClientEvent) : option string :=
  match ev with
  | AdmitUser roomId _ => Some roomId
  | DenyUser roomId _ => Some roomId
  | ToggleLock roomId => Some roomId
  | ToggleWaitingRoom roomId => Some roomId
  | _ => None
  end.

(** The sender is the host of the room: its socket is bound to a user
    identifier and the room's host field holds that identifier. *)
Definition sender_is_host (sid roomId : string) (s : State) : Prop :=
  exists u,
    JMap.get sid (socketToUser s) = Some u
    /\ meta_hostId (JMap.get roomId (roomMetadata s)) = Some u.

(** toggle-lock and toggle-waiting-room. *)
Definition is_toggle (ev : ClientEvent) : bool :=
  match ev with
  | ToggleLock _ | ToggleWaitingRoom _ => true
  | _ => false
  end.

(** The socket has no session binding and the room has no metadata. *)
Definition unbound_on_unknown_room (sid roomId : string) (s : State) : bool :=
  negb (isSome (JMap.get sid (socketToUser s)))
  && negb (isSome (JMap.get roomId (roomMetadata s))).

(** The room is listed and locked. *)
Definition locked (roomId : string) (s : State) : bool :=
  opt_flag isLocked (JMap.get roomId (roomMetadata s)).

(** The room is in none of the three room maps. *)
Definition absent (roomId : string) (s : State) : Prop :=
  JMap.get roomId (rooms s) = None
  /\ JMap.get roomId (roomMetadata s) = None
  /\ JMap.get roomId (waitingRooms s) = None.

(** The room is in one of the three room maps. *)
Definition listed (roomId : string) (s : State) : Prop :=
  JMap.has roomId (rooms s) = true
  \/ JMap.has roomId (roomMetadata s) = true
  \/ JMap.has roomId (waitingRooms s) = true.

Definition is_host_changed (e : Emission) : bool :=
  match msg e with HostChanged _ => true | _ => false end.

Definition is_room_closed (e : Emission) : bool :=
  match msg e with RoomClosed _ => true | _ => false end.

Definition is_waiting_room_update (e : Emission) : bool :=
  match msg e with WaitingRoomUpdate _ _ => true | _ => false end.



(** The socket.io rooms a socket is in; none when it is not connected. *)
Definition socket_rooms (sid : string) (s : State) : JSet.t :=
  match JMap.get sid (sio s) with
  | Some joined => joined
  | None => []
  end.

(** [if (x) io.to(x).emit(m)] as a list of emissions. *)
Definition emitted_if (x : option string) (m : ServerMsg) (s : State) : list Emission :=
  match x with
  | Some sid => if truthy sid then [mkEmission (ToRoom sid) m (room_sockets sid s)] else []
  | None => []
  end.

(** ** States used as examples *)

(** The state a run ends in ([initial] when it throws). *)
Definition final (events : list Event) : State :=
  match run initial events with
  | Done s => s
  | Throws _ => initial
  end.

(** [u1] on socket [s1] has created room [R1]; [s2] is connected. *)
Definition demo_room_events : list Event :=
  [("s1", Connection); ("s2", Connection); ("s1", JoinRoom "R1" "u1" None None)].

Definition demo_room : State := Eval vm_compute in final demo_room_events.

(** As [demo_room], and the host has locked the room. *)
Definition demo_locked_events : list Event :=
  demo_room_events ++ [("s1", ToggleLock "R1")].

Definition demo_locked : State := Eval vm_compute in final demo_locked_events.


(** A creation config that turns the waiting room on. *)
Definition gated : option RoomConfig := Some (mkRoomConfig true "Standup" (Some true)).

(** [u1] on [s1] has created [R1] with the waiting room on; [s2] is
    connected. *)
Definition demo_gated_events : list Event :=
  [("s1", Connection); ("s2", Connection); ("s1", JoinRoom "R1" "u1" gated None)].

Definition demo_gated : State := Eval vm_compute in final demo_gated_events.

(** [u1] hosts the gated room [R1] and has asked to enter the gated room
    [R2], whose host [u2] has denied it: the deny handler has deleted the
    binding of socket [s1]. *)
Definition demo_denied_host_events : list Event :=
  [("s1", Connection); ("s2", Connection); ("s3", Connection);
   ("s1", JoinRoom "R1" "u1" gated None);
   ("s2", JoinRoom "R2" "u2" gated None);
   ("s1", JoinRoom "R2" "u1" None None);
   ("s2", DenyUser "R2" "u1")].

Definition demo_denied_host : State := Eval vm_compute in final demo_denied_host_events.

(** [u1] hosts [R1] with member [u2]; [u2] has also asked to enter the gated
    room [R3] and was denied there, which deleted the binding of [s2]. *)
Definition demo_denied_member_events : list Event :=
  [("s1", Connection); ("s2", Connection); ("s3", Connection);
   ("s1", JoinRoom "R1" "u1" None None);
   ("s2", JoinRoom "R1" "u2" None None);
   ("s3", JoinRoom "R3" "u3" gated None);
   ("s2", JoinRoom "R3" "u2" None None);
   ("s3", DenyUser "R3" "u2")].

Definition demo_denied_member : State :=
  Eval vm_compute in final demo_denied_member_events.

(** [u2] on [s2] has asked to enter the gated rooms [R1] and [R3] and has
    then disconnected: the loop of the disconnect handler stops at [R1], so
    the entry under [R3] stays. *)
Definition demo_stale_entry_events : list Event :=
  [("s1", Connection); ("s2", Connection); ("s3", Connection);
   ("s1", JoinRoom "R1" "u1" gated None);
   ("s3", JoinRoom "R3" "u3" gated None);
   ("s2", JoinRoom "R1" "u2" None None);
   ("s2", JoinRoom "R3" "u2" None None);
   ("s2", Disconnect)].

Definition demo_stale_entry : State := Eval vm_compute in final demo_stale_entry_events.

(** [u1] on [s1] hosts the gated room [R1], where [u2] on [s2] is waiting,
    and has then joined [R2] from the same socket: [u1] is a member of both
    rooms and [R2] is its current room. *)
Definition demo_host_elsewhere_events : list Event :=
  [("s1", Connection); ("s2", Connection);
   ("s1", JoinRoom "R1" "u1" gated None);
   ("s2", JoinRoom "R1" "u2" None None);
   ("s1", JoinRoom "R2" "u1" None None)].

Definition demo_host_elsewhere : State :=
  Eval vm_compute in final demo_host_elsewhere_events.

(** [u1] on [s1] hosts [R1] with the member [u2] on [s2], and has then
    joined [R2] from the same socket. *)
Definition demo_host_two_rooms_events : list Event :=
  [("s1", Connection); ("s2", Connection);
   ("s1", JoinRoom "R1" "u1" None None);
   ("s2", JoinRoom "R1" "u2" None None);
   ("s1", JoinRoom "R2" "u1" None None)].

Definition demo_host_two_rooms : State :=
  Eval vm_compute in final demo_host_two_rooms_events.

(** [u2] and then [u3] are waiting for the gated room [R1]. *)
Definition demo_two_waiting_events : list Event :=
  [("s1", Connection); ("s2", Connection); ("s3", Connection);
   ("s1", JoinRoom "R1" "u1" gated None);
   ("s2", JoinRoom "R1" "u2" None None);
   ("s3", JoinRoom "R1" "u3" None None)].

Definition demo_two_waiting : State := Eval vm_compute in final demo_two_waiting_events.

(** [u1] hosts [R1] with members [u2] and [u3], each on its own socket. *)
Definition demo_three_events : list Event :=
  [("s1", Connection); ("s2", Connection); ("s3", Connection);
   ("s1", JoinRoom "R1" "u1" None None);
   ("s2", JoinRoom "R1" "u2" None None);
   ("s3", JoinRoom "R1" "u3" None None)].

Definition demo_three : State := Eval vm_compute in final demo_three_events.

(** The event takes user [u] out of room [r]: a leave-room that names both,
    or the disconnect of a socket bound to [u] while [u]'s current room is
    [r] (both identifiers non-empty, as the handler tests them). *)
Definition departs (e : Event) (r u : string) (s : State) : Prop :=
  match snd e with
  | LeaveRoom roomId userId => roomId = r /\ userId = u
  | Disconnect =>
      JMap.get (fst e) (socketToUser s) = Some u /\ truthy u = true
      /\ JMap.get u (userToRoom s) = Some r /\ truthy r = true
  | _ => False
  end.

(** The waiting list of a room, empty when there is none. *)
Definition waiting_of (roomId : string) (s : State) : JMap.t WaitingUser :=
  match JMap.get roomId (waitingRooms s) with
  | Some w => w
  | None => []
  end.

(** ** Proof steps *)

(** The emission helpers, unfolded down to the outbox. *)
Ltac unfold_emit :=
  unfold broadcastPublicRooms, io_emit, io_to, socket_to, socket_emit, push in *.

(** A case split on the scrutinee of a [match] in the goal. *)
Ltac break_match :=
  match goal with
  | |- context [match ?x with _ => _ end] => destruct x eqn:?
  end.

(** The fields of a state after its setters. *)
Ltac simpl_fields :=
  cbn [rooms roomMetadata waitingRooms socketToUser userToRoom userNames sio outbox
       with_rooms with_roomMetadata with_waitingRooms with_socketToUser
       with_userToRoom with_userNames with_sio with_outbox] in *.

(** * The rest of the hook (src/hooks/useWebRTC.ts) *)

(** The hook with the two refs that [Hook] leaves out: the packet counters
    of the previous statistics sample and the local stream (by its id). The
    React state that only feeds rendering ([remoteStreams],
    [connectionStats]) is not kept. *)
Record Negotiator := mkNegotiator {
  hook : Hook;
  prevStatsRef : JMap.t PacketCounts;
  localStreamRef : option string
}.

Definition emptyNegotiator : Negotiator := mkNegotiator emptyHook [] None.

Definition with_hook (h : Hook) (n : Negotiator) : Negotiator :=
  mkNegotiator h (prevStatsRef n) (localStreamRef n).

(** Lines 271-305. *)
Definition handleUserDisconnected (disconnectedUserId : string) (n : Negotiator)
    : Negotiator :=
  let h := hook n in
  match JMap.get disconnectedUserId (peers h) with
  | Some _ =>
      mkNegotiator
        (mkHook (JMap.del disconnectedUserId (peers h))
                (JMap.del disconnectedUserId (peerNames h))
                (JMap.del disconnectedUserId (peerScreenShares h))
                (sent h) (errors h) (rejections h))
        (JMap.del disconnectedUserId (prevStatsRef n))
        (localStreamRef n)
  | None => n
  end.

(** What the signaling service delivers to the listeners of lines 314-337. *)
Inductive Incoming :=
| InUserConnected (data : string)
| InOffer (targetUserId callerId userName : string) (isScreenShare : bool) (offer : string)
| InAnswer (targetUserId callerId userName : string) (isScreenShare : bool) (answer : string)
| InIceCandidate (targetUserId callerId candidate : string)
| InUserDisconnected (id : string).

(** The listeners of lines 314-337, for the local [userId], in a browser
    with or without implicit rollback. *)
Definition onSignal (implicitRollback : bool) (userId userName : string)
    (isScreenShare : bool) (m : Incoming) (n : Negotiator) : Negotiator :=
  match m with
  | InUserConnected targetId =>
      if truthy targetId && negb (targetId =? userId) then
        with_hook (handleUserConnected userName isScreenShare targetId (hook n)) n
      else n
  | InOffer targetUserId callerId callerName remoteShare offer =>
      if (targetUserId =? userId) || (targetUserId =? "all") then
        with_hook (handleOffer implicitRollback userName isScreenShare callerId callerName
                               remoteShare offer (hook n)) n
      else n
  | InAnswer targetUserId callerId callerName remoteShare answer =>
      if targetUserId =? userId then
        with_hook (handleAnswer implicitRollback callerId callerName remoteShare answer
                                (hook n)) n
      else n
  | InIceCandidate targetUserId callerId candidate =>
      if targetUserId =? userId then
        with_hook (handleIceCandidate callerId candidate (hook n)) n
      else n
  | InUserDisconnected id => handleUserDisconnected id n
  end.

(** One callback of [peersRef.current.forEach] in the stream-switch effect
    (lines 45-77), from the last [await] on: the fresh offer is made the
    local description and sent to the peer. [replaceTrack] failures are
    caught and logged by the source and change nothing here. *)
Definition reoffer (userName : string) (isScreenShare : bool) (h : Hook)
    (peerId : string) : Hook :=
  match JMap.get peerId (peers h) with
  | Some pc =>
      mkHook (JMap.set peerId (setLocalDescription CreatedOffer pc) (peers h))
             (peerNames h) (peerScreenShares h)
             (sent h ++ [SendOffer peerId userName isScreenShare CreatedOffer])
             (errors h) (rejections h)
  | None => h
  end.

(** The stream-switch effect (lines 39-80), run with the new [localStream].
    [forEach] starts one async callback per connection and does not wait
    for any; each callback awaits up to two track replacements,
    [createOffer] and [setLocalDescription] before it sends its offer, so
    the code does not fix the order in which the callbacks get there.
    [completion] is that order: the peers, each once, in the order in which
    their callbacks complete. *)
Definition onLocalStream (userName : string) (isScreenShare : bool)
    (completion : list string) (localStream : option string) (n : Negotiator)
    : Negotiator :=
  let h :=
    match localStream, localStreamRef n with
    | Some new, Some old =>
        if negb (new =? old) then
          fold_left (reoffer userName isScreenShare) completion (hook n)
        else hook n
    | _, _ => hook n
    end in
  mkNegotiator h (prevStatsRef n) localStream.

(** One peer's turn in the statistics loop (lines 89-146). [reports] gives
    the cumulative lost and received counts read from the peer's inbound
    video report, or nothing when [pc.getStats()] fails. An entry of
    [nextStats] keeps the loss percentage and the cumulative loss. *)
Definition sampleOne (reports : string -> option (Z * Z))
    (acc : JMap.t (Q * Z) * JMap.t PacketCounts) (peerId : string)
    : JMap.t (Q * Z) * JMap.t PacketCounts :=
  match reports peerId with
  | Some (cumulativeLoss, cumulativeReceived) =>
      let (lossPercentage, prevStats) :=
        sampleLoss peerId cumulativeLoss cumulativeReceived (snd acc) in
      (JMap.set peerId (lossPercentage, cumulativeLoss) (fst acc), prevStats)
  | None => acc
  end.

(** One tick of the statistics interval (lines 84-148): the new
    [connectionStats], when it is set, and the negotiator afterwards. *)
Definition sampleStats (reports : string -> option (Z * Z)) (n : Negotiator)
    : option (JMap.t (Q * Z)) * Negotiator :=
  if Nat.eqb (JMap.size (peers (hook n))) 0 then (None, n)
  else
    let (nextStats, prevStats) :=
      fold_left (sampleOne reports) (JMap.keys (peers (hook n))) ([], prevStatsRef n) in
    (Some nextStats, mkNegotiator (hook n) prevStats (localStreamRef n)).

(** * More vocabulary *)

(** The members of a room, none when it is not there. *)
Definition members_of (roomId : string) (s : State) : JSet.t :=
  match JMap.get roomId (rooms s) with
  | Some members => members
  | None => []
  end.

(** The directory entry [getPublicRooms] builds for a public room. *)
Definition directory_entry (roomId : string) (meta : RoomMeta) (s : State) : RoomInfo :=
  mkRoomInfo roomId (name meta) (member_count roomId s) true
             (isLocked meta) (waitingRoom meta).

(** The events whose handlers only read the maps. *)
Definition reads_only (ev : ClientEvent) : bool :=
  match ev with
  | GetRooms | Ping _ | Offer _ _ _ _ | Answer _ _ _ _ | IceCandidate _ _
  | ChatMessage _ _ | Reaction _ _ | Caption _ _ | WhiteboardDraw _ _
  | WhiteboardClear _ => true
  | _ => false
  end.




(** The maps of two states are the same (the outbox and the socket.io rooms
    apart). *)
Definition same_maps (s s' : State) : Prop :=
  rooms s' = rooms s /\ roomMetadata s' = roomMetadata s
  /\ waitingRooms s' = waitingRooms s /\ socketToUser s' = socketToUser s
  /\ userToRoom s' = userToRoom s /\ userNames s' = userNames s.

(** The offers among the signals sent, by the peer they are addressed to. *)
Definition offers_to (peerId : string) (signals : list Signal) : list Signal :=
  filter (fun m => match m with
                   | SendOffer target _ _ _ => target =? peerId
                   | _ => false
                   end) signals.


(** Every current-room binding names a room that lists the user. *)
Definition Bound (s : State) : Prop :=
  forall u r, JMap.get u (userToRoom s) = Some r -> In u (members_of r s).


(** As [demo_gated], and [u2] on [s2] has asked to enter [R1]. *)
Definition demo_queued_events : list Event :=
  demo_gated_events ++ [("s2", JoinRoom "R1" "u2" None None)].

Definition demo_queued : State := Eval vm_compute in final demo_queued_events.


(** [u2] on [s2] has joined [R1] (hosted by [u1]) and then [R2], which is
    now its current room. *)
Definition demo_two_rooms_events : list Event :=
  [("s1", Connection); ("s2", Connection);
   ("s1", JoinRoom "R1" "u1" None None);
   ("s2", JoinRoom "R1" "u2" None None);
   ("s2", JoinRoom "R2" "u2" None None)].

Definition demo_two_rooms : State := Eval vm_compute in final demo_two_rooms_events.


(** Answers and ICE candidates, whoever they are addressed to. *)
Definition late_signal (m : Incoming) : bool :=
  match m with
  | InAnswer _ _ _ _ _ | InIceCandidate _ _ _ => true
  | _ => false
  end.

(** The signals of a list, handled in arrival order. *)
Definition onSignals (implicitRollback : bool) (userId userName : string)
    (isScreenShare : bool) (ms : list Incoming) (n : Negotiator) : Negotiator :=
  fold_left (fun n m => onSignal implicitRollback userId userName isScreenShare m n) ms n.

(** An offer from this caller is refused by the browser: both sides have
    offered (the caller's connection has a pending local offer) and the
    implementation does not roll the local offer back. *)
Definition offer_refused (implicitRollback : bool) (callerId : string) (h : Hook) : bool :=
  match JMap.get callerId (peers h) with
  | Some pc => pendingLocalOffer pc && negb implicitRollback
  | None => false
  end.

(** Two hooks that differ in what they have logged at most. *)
Definition same_but_errors (h h' : Hook) : Prop :=
  peers h' = peers h /\ peerNames h' = peerNames h
  /\ peerScreenShares h' = peerScreenShares h /\ sent h' = sent h
  /\ rejections h' = rejections h.


(** A waiting list holds each user once, under the user's own identifier. *)
Definition waiting_ok (w : JMap.t WaitingUser) : Prop :=
  NoDup (JMap.keys w) /\ forall k e, In (k, e) w -> odId e = k.

(** Every waiting list of the state is well formed. *)
Definition Waiting (s : State) : Prop :=
  forall r w, In (r, w) (waitingRooms s) -> waiting_ok w.

(** * Properties *)

(** ** Lookup after update, for the Map and Set models *)

Lemma eqb_sym_false (a b : string) : (a =? b) = false -> (b =? a) = false.
Proof. rewrite String.eqb_sym. auto. Qed.

Module JMapFacts.
Section Facts.
Context {V : Type}.
Implicit Types (m : list (string * V)) (k : string) (v : V).

Lemma get_set k k' v m :
  JMap.get k' (JMap.set k v m) = if k' =? k then Some v else JMap.get k' m.
Proof.
  induction m as [|[k0 v0] m IH]; simpl.
  - reflexivity.
  - destruct (k =? k0) eqn:E; simpl.
    + apply String.eqb_eq in E; subst k0.
      destruct (k' =? k); reflexivity.
    + destruct (k' =? k0) eqn:E0.
      * apply String.eqb_eq in E0; subst k0.
        rewrite (eqb_sym_false _ _ E). reflexivity.
      * exact IH.
Qed.

Lemma get_set_same k v m : JMap.get k (JMap.set k v m) = Some v.
Proof. rewrite get_set, String.eqb_refl. reflexivity. Qed.

Lemma get_set_other k k' v m :
  k' <> k -> JMap.get k' (JMap.set k v m) = JMap.get k' m.
Proof.
  intros H. rewrite get_set.
  destruct (k' =? k) eqn:E; [apply String.eqb_eq in E; contradiction | reflexivity].
Qed.

Lemma get_del k k' m :
  JMap.get k' (JMap.del k m) = if k' =? k then None else JMap.get k' m.
Proof.
  unfold JMap.del.
  induction m as [|[k0 v0] m IH]; simpl.
  - destruct (k' =? k); reflexivity.
  - destruct (k0 =? k) eqn:E; simpl.
    + apply String.eqb_eq in E; subst k0. rewrite IH.
      destruct (k' =? k); reflexivity.
    + rewrite IH. destruct (k' =? k0) eqn:E0; [|reflexivity].
      apply String.eqb_eq in E0; subst k0. rewrite E. reflexivity.
Qed.

Lemma get_del_same k m : JMap.get k (JMap.del k m) = None.
Proof. rewrite get_del, String.eqb_refl. reflexivity. Qed.

Lemma get_del_other k k' m :
  k' <> k -> JMap.get k' (JMap.del k m) = JMap.get k' m.
Proof.
  intros H. rewrite get_del.
  destruct (k' =? k) eqn:E; [apply String.eqb_eq in E; contradiction | reflexivity].
Qed.

Lemma get_In k v m : JMap.get k m = Some v -> In (k, v) m.
Proof.
  induction m as [|[k0 v0] m IH]; simpl; [discriminate|].
  destruct (k =? k0) eqn:E.
  - apply String.eqb_eq in E; subst k0. intros [= ->]. now left.
  - intros H. right. auto.
Qed.

Lemma In_get_some k v m : In (k, v) m -> exists v', JMap.get k m = Some v'.
Proof.
  induction m as [|[k0 v0] m IH]; simpl; [tauto|].
  intros [[= -> ->]|H].
  - rewrite String.eqb_refl. eauto.
  - destruct (k =? k0); eauto.
Qed.

Lemma has_true k m : JMap.has k m = true <-> exists v, JMap.get k m = Some v.
Proof.
  unfold JMap.has. destruct (JMap.get k m); simpl; split; eauto.
  - discriminate.
  - intros [v' H]. discriminate H.
Qed.

Lemma has_false k m : JMap.has k m = false <-> JMap.get k m = None.
Proof.
  unfold JMap.has. destruct (JMap.get k m); simpl; split; congruence.
Qed.

End Facts.
End JMapFacts.

Module JSetFacts.

Lemma has_In x s : JSet.has x s = true <-> In x s.
Proof.
  unfold JSet.has. rewrite existsb_exists. split.
  - intros [y [Hy E]]. apply String.eqb_eq in E. now subst.
  - intros H. exists x. split; [assumption | apply String.eqb_refl].
Qed.

Lemma In_add x y s : In x (JSet.add y s) <-> In x s \/ x = y.
Proof.
  unfold JSet.add. destruct (JSet.has y s) eqn:E.
  - apply has_In in E. split; [tauto|]. intros [H| ->]; assumption.
  - rewrite in_app_iff. simpl. intuition congruence.
Qed.

Lemma In_del x y s : In x (JSet.del y s) <-> In x s /\ x <> y.
Proof.
  unfold JSet.del. rewrite filter_In, negb_true_iff, String.eqb_neq. tauto.
Qed.

Lemma first_In x s : JSet.first s = Some x -> In x s.
Proof. destruct s; simpl; [discriminate|]. intros [= ->]. now left. Qed.

Lemma size_pos_first s : Nat.ltb 0 (JSet.size s) = true -> exists x, JSet.first s = Some x.
Proof. destruct s; simpl; [discriminate|eauto]. Qed.

Lemma size_zero s : Nat.eqb (JSet.size s) 0 = true <-> s = [].
Proof. destruct s; simpl; split; congruence. Qed.

End JSetFacts.

(** ** Keys of a map *)

Lemma keys_set {V} k (v : V) m :
  JMap.keys (JMap.set k v m) = if JMap.has k m then JMap.keys m else JMap.keys m ++ [k].
Proof.
  unfold JMap.has, JMap.keys. induction m as [|[k0 v0] m IH]; cbn; [reflexivity|].
  destruct (k =? k0) eqn:E; cbn.
  - apply String.eqb_eq in E. subst. reflexivity.
  - rewrite IH. destruct (JMap.get k m); reflexivity.
Qed.

Lemma keys_del {V} k (m : JMap.t V) :
  JMap.keys (JMap.del k m) = filter (fun x => negb (x =? k)) (JMap.keys m).
Proof.
  unfold JMap.del, JMap.keys. induction m as [|[k0 v0] m IH]; cbn; [reflexivity|].
  destruct (k0 =? k); cbn; rewrite IH; reflexivity.
Qed.

Lemma get_none_keys {V} k (m : JMap.t V) : JMap.get k m = None <-> ~ In k (JMap.keys m).
Proof.
  unfold JMap.keys. induction m as [|[k0 v0] m IH]; cbn; [tauto|].
  destruct (k =? k0) eqn:E.
  - apply String.eqb_eq in E. subst. split; [discriminate|]. intros H. exfalso. auto.
  - apply String.eqb_neq in E. rewrite IH. split; [|tauto].
    intros H [H1|H1]; [congruence|tauto].
Qed.

Lemma NoDup_keys_set {V} k (v : V) m :
  NoDup (JMap.keys m) -> NoDup (JMap.keys (JMap.set k v m)).
Proof.
  intros H. rewrite keys_set. unfold JMap.has.
  destruct (JMap.get k m) eqn:E; cbn; [assumption|].
  apply get_none_keys in E.
  apply NoDup_app; [assumption | repeat constructor; auto |].
  intros x Hx [<-|[]]. contradiction.
Qed.

Lemma NoDup_keys_del {V} k (m : JMap.t V) :
  NoDup (JMap.keys m) -> NoDup (JMap.keys (JMap.del k m)).
Proof. intros H. rewrite keys_del. apply NoDup_filter. assumption. Qed.

Lemma NoDup_keys_get {V} k (v : V) m :
  NoDup (JMap.keys m) -> In (k, v) m -> JMap.get k m = Some v.
Proof.
  induction m as [|[k0 v0] m IH]; cbn; [tauto|].
  intros Hnd [[= -> ->]|Hin].
  - rewrite String.eqb_refl. reflexivity.
  - inversion Hnd as [|? ? Hnot Hnd']; subst.
    destruct (k =? k0) eqn:E; [|auto].
    apply String.eqb_eq in E. subst. exfalso. apply Hnot.
    unfold JMap.keys. apply in_map_iff. exists (k0, v). auto.
Qed.

(** ** The room invariant

    What holds of the three room maps after every event: they list the same
    rooms (a waiting list only under an existing room), and every room has a
    host who is one of its members, so no listed room is empty. *)

Definition room_ok (r : string) (R : JMap.t JSet.t) (M : JMap.t RoomMeta)
    (W : JMap.t (JMap.t WaitingUser)) : Prop :=
  (JMap.get r R = None <-> JMap.get r M = None)
  /\ (JMap.get r R = None -> JMap.get r W = None)
  /\ (forall meta, JMap.get r M = Some meta ->
        exists h members,
          hostId meta = Some h /\ JMap.get r R = Some members /\ In h members).

Definition Inv3 (R : JMap.t JSet.t) (M : JMap.t RoomMeta)
    (W : JMap.t (JMap.t WaitingUser)) : Prop :=
  forall r, room_ok r R M W.

Definition Inv (s : State) : Prop :=
  Inv3 (rooms s) (roomMetadata s) (waitingRooms s).

Lemma Inv3_update r R M W R' M' W' :
  Inv3 R M W ->
  (forall k, k <> r ->
     JMap.get k R' = JMap.get k R /\ JMap.get k M' = JMap.get k M
     /\ JMap.get k W' = JMap.get k W) ->
  room_ok r R' M' W' ->
  Inv3 R' M' W'.
Proof.
  intros HI Hframe Hr k.
  destruct (string_dec k r) as [->|Hk]; [exact Hr|].
  destruct (Hframe k Hk) as (ER & EM & EW).
  unfold room_ok. rewrite ER, EM, EW. apply HI.
Qed.

Lemma Inv3_room_exists r R M W members :
  Inv3 R M W -> JMap.get r R = Some members ->
  exists meta h, JMap.get r M = Some meta /\ hostId meta = Some h /\ In h members.
Proof.
  intros HI HR. destruct (HI r) as (Hd & _ & Hh).
  destruct (JMap.get r M) as [meta|] eqn:EM.
  - destruct (Hh meta eq_refl) as (h & ms & Eh & Ems & Hin).
    rewrite HR in Ems. injection Ems as <-. eauto.
  - pose proof (proj2 Hd eq_refl). congruence.
Qed.

Lemma Inv3_meta_exists r R M W meta :
  Inv3 R M W -> JMap.get r M = Some meta ->
  exists h members, hostId meta = Some h /\ JMap.get r R = Some members /\ In h members.
Proof. intros HI HM. destruct (HI r) as (_ & _ & Hh). auto. Qed.

(** Only the waiting list of an existing room changes. *)
Lemma Inv3_set_waiting r w R M W :
  Inv3 R M W -> JMap.get r R <> None -> Inv3 R M (JMap.set r w W).
Proof.
  intros HI HR. apply (Inv3_update r R M W); auto.
  - intros k Hk. rewrite JMapFacts.get_set_other by assumption. auto.
  - destruct (HI r) as (Hd & Hw & Hh). repeat split; try apply Hd; auto.
    intros E. contradiction.
Qed.

(** The member set of a room is replaced by one that still holds the host. *)
Lemma Inv3_set_members r members' R M W :
  Inv3 R M W -> JMap.get r R <> None ->
  (forall meta h, JMap.get r M = Some meta -> hostId meta = Some h -> In h members') ->
  Inv3 (JMap.set r members' R) M W.
Proof.
  intros HI HR Hhost. apply (Inv3_update r R M W); auto.
  - intros k Hk. rewrite JMapFacts.get_set_other by assumption. auto.
  - destruct (HI r) as (Hd & Hw & Hh). unfold room_ok.
    rewrite JMapFacts.get_set_same. repeat split; try discriminate.
    + intros E. apply Hd in E. contradiction.
    + intros meta EM. destruct (Hh meta EM) as (h & ms & Eh & _ & _).
      exists h, members'. eauto.
Qed.

(** The metadata of a room changes, its members do not. *)
Lemma Inv3_set_meta r meta' R M W :
  Inv3 R M W -> JMap.get r M <> None ->
  (exists h members, hostId meta' = Some h /\ JMap.get r R = Some members /\ In h members) ->
  Inv3 R (JMap.set r meta' M) W.
Proof.
  intros HI HM Hhost. apply (Inv3_update r R M W); auto.
  - intros k Hk. rewrite JMapFacts.get_set_other by assumption. auto.
  - destruct (HI r) as (Hd & Hw & Hh). unfold room_ok.
    rewrite JMapFacts.get_set_same. repeat split; try discriminate; auto.
    + intros E. apply Hd in E. contradiction.
    + intros ? [= <-]. exact Hhost.
Qed.

(** A room is deleted from the three maps. *)
Lemma Inv3_delete r R M W R1 M1 W' :
  Inv3 R M W ->
  (forall k, k <> r -> JMap.get k R1 = JMap.get k R /\ JMap.get k M1 = JMap.get k M) ->
  (forall k, k <> r -> JMap.get k W' = JMap.get k W) ->
  JMap.get r W' = None ->
  Inv3 (JMap.del r R1) (JMap.del r M1) W'.
Proof.
  intros HI Hf HfW HW. apply (Inv3_update r R M W); auto.
  - intros k Hk. rewrite !JMapFacts.get_del_other by assumption.
    destruct (Hf k Hk). auto.
  - unfold room_ok. rewrite !JMapFacts.get_del_same.
    repeat split; auto. discriminate.
Qed.

(** ** What each block does to the maps *)

Lemma socket_join_eq sid room s :
  socket_join sid room s =
  with_sio (match JMap.get sid (sio s) with
            | Some joined => JMap.set sid (JSet.add room joined) (sio s)
            | None => sio s
            end) s.
Proof.
  unfold socket_join. destruct s as [? ? ? ? ? ? x ?]; cbn.
  destruct (JMap.get sid x); reflexivity.
Qed.

Lemma socket_leave_eq sid room s :
  socket_leave sid room s =
  with_sio (match JMap.get sid (sio s) with
            | Some joined => JMap.set sid (JSet.del room joined) (sio s)
            | None => sio s
            end) s.
Proof.
  unfold socket_leave. destruct s as [? ? ? ? ? ? x ?]; cbn.
  destruct (JMap.get sid x); reflexivity.
Qed.

Lemma close_one_fold_frame roomId l : forall s,
  let s' := fold_left (close_one roomId) l s in
  rooms s' = rooms s /\ roomMetadata s' = roomMetadata s
  /\ waitingRooms s' = waitingRooms s /\ sio s' = sio s
  /\ userToRoom s' = userToRoom s /\ userNames s' = userNames s.
Proof.
  induction l as [|u l IH]; intros s; cbn; [tauto|].
  destruct (IH (close_one roomId s u)) as (E1 & E2 & E3 & E4 & E5 & E6).
  cbn in *. rewrite E1, E2, E3, E4, E5, E6.
  unfold close_one. destruct (connected (socketId u) s); cbn; tauto.
Qed.

Lemma close_room_rooms r s : rooms (close_room r s) = JMap.del r (rooms s).
Proof.
  unfold close_room. cbn. destruct (JMap.get r (waitingRooms s)); cbn; [|reflexivity].
  match goal with |- context [fold_left ?f ?l ?s0] =>
    destruct (close_one_fold_frame r l s0) as (E & _) end.
  exact E.
Qed.

Lemma close_room_roomMetadata r s :
  roomMetadata (close_room r s) = JMap.del r (roomMetadata s).
Proof.
  unfold close_room. cbn. destruct (JMap.get r (waitingRooms s)); cbn; [|reflexivity].
  match goal with |- context [fold_left ?f ?l ?s0] =>
    destruct (close_one_fold_frame r l s0) as (_ & E & _) end.
  exact E.
Qed.

Lemma close_room_waitingRooms r s :
  waitingRooms (close_room r s) =
  match JMap.get r (waitingRooms s) with
  | Some _ => JMap.del r (waitingRooms s)
  | None => waitingRooms s
  end.
Proof.
  unfold close_room. cbn. destruct (JMap.get r (waitingRooms s)); cbn; [|reflexivity].
  match goal with |- context [fold_left ?f ?l ?s0] =>
    destruct (close_one_fold_frame r l s0) as (_ & _ & E & _) end.
  rewrite E. reflexivity.
Qed.

Lemma get_close_room_waitingRooms r k s :
  JMap.get k (waitingRooms (close_room r s)) =
  if k =? r then None else JMap.get k (waitingRooms s).
Proof.
  rewrite close_room_waitingRooms.
  destruct (JMap.get r (waitingRooms s)) eqn:E.
  - apply JMapFacts.get_del.
  - destruct (k =? r) eqn:Ek; [|reflexivity].
    apply String.eqb_eq in Ek. subst. exact E.
Qed.

Lemma transfer_host_rooms r ru s : rooms (transfer_host r ru s) = rooms s.
Proof. unfold transfer_host. unfold_emit. repeat break_match; reflexivity. Qed.

Lemma transfer_host_waitingRooms r ru s :
  waitingRooms (transfer_host r ru s) = waitingRooms s.
Proof. unfold transfer_host. unfold_emit. repeat break_match; reflexivity. Qed.

Lemma transfer_host_roomMetadata r ru s :
  roomMetadata (transfer_host r ru s) =
  match JSet.first ru, JMap.get r (roomMetadata s) with
  | Some h, Some meta => JMap.set r (set_hostId (Some h) meta) (roomMetadata s)
  | _, _ => roomMetadata s
  end.
Proof. unfold transfer_host. unfold_emit. repeat break_match; reflexivity. Qed.

Lemma leave_waiting_rooms u s : rooms (leave_waiting u s) = rooms s.
Proof. unfold leave_waiting. unfold_emit. repeat break_match; reflexivity. Qed.

Lemma leave_waiting_roomMetadata u s :
  roomMetadata (leave_waiting u s) = roomMetadata s.
Proof. unfold leave_waiting. unfold_emit. repeat break_match; reflexivity. Qed.

Lemma leave_waiting_waitingRooms u s :
  waitingRooms (leave_waiting u s) = drop_waiting u (waitingRooms s).
Proof.
  unfold leave_waiting. unfold_emit.
  destruct (find (fun p => JMap.has u (snd p)) (waitingRooms s))
    as [[rid w]|] eqn:EF.
  - repeat break_match; reflexivity.
  - induction (waitingRooms s) as [|[rid w] W IH]; [reflexivity|].
    cbn in EF |- *. destruct (JMap.has u w); [discriminate|].
    rewrite <- IH at 1 by assumption. reflexivity.
Qed.

(** After [drop_waiting] a room has the waiting list it had, or that list
    without the user. *)
Lemma get_drop_waiting u k W :
  match JMap.get k W with
  | Some w =>
      JMap.get k (drop_waiting u W) = Some w
      \/ JMap.get k (drop_waiting u W) = Some (JMap.del u w)
  | None => JMap.get k (drop_waiting u W) = None
  end.
Proof.
  induction W as [|[rid w] W IH]; [reflexivity|].
  cbn. destruct (JMap.has u w); cbn; destruct (k =? rid); auto.
  destruct (JMap.get k W); auto.
Qed.

(** ** Every handler preserves the invariant *)

Lemma Inv3_set_room_members r members meta R M W h :
  Inv3 R M W -> JMap.get r R <> None -> hostId meta = Some h -> In h members ->
  Inv3 (JMap.set r members R) (JMap.set r meta M) W.
Proof.
  intros HI HR Eh Hin. apply (Inv3_update r R M W); auto.
  - intros k Hk. rewrite !JMapFacts.get_set_other by assumption. auto.
  - destruct (HI r) as (Hd & Hw & Hh). unfold room_ok.
    rewrite !JMapFacts.get_set_same.
    repeat split; try discriminate.
    intros ? [= <-]. eauto.
Qed.

Lemma opt_eqb_eq a b : opt_eqb a b = true <-> a = b.
Proof.
  destruct a, b; simpl; try (split; congruence).
  rewrite String.eqb_eq. split; congruence.
Qed.

Lemma Inv_remove_member r u s : Inv s -> Inv (remove_member r u s).
Proof.
  unfold Inv, remove_member. intros HI.
  destruct (JMap.get r (rooms s)) as [m|] eqn:ER; [|exact HI].
  destruct (Inv3_room_exists _ _ _ _ _ HI ER) as (meta & h & EM & Eh & Hin).
  rewrite EM. cbn [meta_hostId]. rewrite Eh.
  destruct (JSet.del u m) as [|x ru] eqn:Edel.
  - (* the room is now empty *)
    rewrite andb_false_r. cbn [JSet.size List.length Nat.eqb].
    rewrite close_room_rooms, close_room_roomMetadata. cbn.
    apply (Inv3_delete r (rooms s) (roomMetadata s) (waitingRooms s)); auto.
    + intros k Hk. rewrite JMapFacts.get_set_other by assumption. auto.
    + intros k Hk. rewrite get_close_room_waitingRooms. cbn.
      destruct (k =? r) eqn:E; [apply String.eqb_eq in E; contradiction|reflexivity].
    + rewrite get_close_room_waitingRooms, String.eqb_refl. reflexivity.
  - cbn [JSet.size List.length Nat.eqb Nat.ltb Nat.leb]. rewrite andb_true_r.
    destruct (opt_eqb (Some h) (Some u)) eqn:Eho.
    + (* the host left *)
      rewrite transfer_host_rooms, transfer_host_roomMetadata, transfer_host_waitingRooms.
      cbn. rewrite EM.
      eapply Inv3_set_room_members; eauto; [congruence | reflexivity | now left].
    + cbn. apply Inv3_set_members; auto; [congruence|].
      intros meta' h' EM' Eh'. rewrite EM in EM'. injection EM' as <-.
      rewrite Eh in Eh'. injection Eh' as <-.
      rewrite <- Edel. apply JSetFacts.In_del. split; [assumption|].
      intros ->. cbn in Eho. rewrite String.eqb_refl in Eho. discriminate.
Qed.

Lemma Inv_meta_room r s meta :
  Inv s -> JMap.get r (roomMetadata s) = Some meta -> JMap.get r (rooms s) <> None.
Proof.
  intros HI EM. destruct (Inv3_meta_exists _ _ _ _ _ HI EM) as (h & ms & _ & E & _).
  congruence.
Qed.

Lemma Inv_join_waiting sid roomId odId userName host s meta :
  Inv s -> JMap.get roomId (roomMetadata s) = Some meta ->
  Inv (join_waiting sid roomId odId userName host s).
Proof.
  intros HI HM. pose proof (Inv_meta_room _ _ _ HI HM) as HR.
  unfold Inv, join_waiting. unfold_emit.
  repeat break_match; cbn; repeat apply Inv3_set_waiting; auto.
Qed.

Lemma Inv_join_direct sid roomId odId config s :
  Inv s ->
  Inv (join_direct sid roomId odId config
         (negb (isSome (JMap.get roomId (roomMetadata s)))) s).
Proof.
  intros HI. unfold Inv, join_direct. rewrite socket_join_eq. unfold_emit.
  destruct (JMap.get roomId (roomMetadata s)) as [meta|] eqn:EM; cbn.
  - destruct (Inv3_meta_exists _ _ _ _ _ HI EM) as (h & ms & Eh & ER & Hin).
    rewrite ER. cbn. apply Inv3_set_members; auto; [congruence|].
    intros meta' h' EM' Eh'. rewrite EM in EM'. injection EM' as <-.
    rewrite Eh in Eh'. injection Eh' as <-. apply JSetFacts.In_add. now left.
  - rewrite JMapFacts.get_set_same. cbn.
    apply (Inv3_update roomId (rooms s) (roomMetadata s) (waitingRooms s)); auto.
    + intros k Hk. rewrite !JMapFacts.get_set_other by assumption. auto.
    + unfold room_ok. rewrite !JMapFacts.get_set_same.
      repeat split; try discriminate.
      intros ? [= <-]. exists odId, (JSet.add odId []). repeat split. now left.
Qed.

Lemma Inv_join_room sid roomId odId config userName s :
  Inv s -> Inv (on_join_room sid roomId odId config userName s).
Proof.
  intros HI. unfold on_join_room.
  set (s1 := if truthy_opt userName then _ else s).
  assert (H1 : Inv s1).
  { subst s1. destruct (truthy_opt userName); [|assumption].
    destruct userName; assumption. }
  clearbody s1.
  destruct (opt_flag isLocked (JMap.get roomId (roomMetadata s1))) eqn:EL.
  - exact H1.
  - destruct (opt_flag waitingRoom _ && _) eqn:EW.
    + destruct (JMap.get roomId (roomMetadata s1)) as [meta|] eqn:EM;
        [|discriminate].
      eapply Inv_join_waiting; eauto.
    + apply Inv_join_direct. assumption.
Qed.

Lemma Inv_admit_user sid roomId odId s : Inv s -> Inv (on_admit_user sid roomId odId s).
Proof.
  intros HI. unfold on_admit_user.
  destruct (negb _); [assumption|].
  destruct (JMap.get roomId (waitingRooms s)) as [w|] eqn:EW; [|assumption].
  destruct (JMap.get odId w) as [wu|]; [|assumption].
  assert (HR : JMap.get roomId (rooms s) <> None).
  { destruct (HI roomId) as (_ & Hw & _). intros E. apply Hw in E. congruence. }
  unfold Inv. unfold_emit. cbn.
  destruct (connected (socketId wu) _); cbn.
  - rewrite socket_join_eq. cbn.
    destruct (JMap.get roomId (rooms s)) as [m|] eqn:ER; [|contradiction]. cbn.
    apply Inv3_set_waiting; [|rewrite JMapFacts.get_set_same; discriminate].
    apply Inv3_set_members; auto; [congruence|].
    intros meta h EM Eh.
    destruct (Inv3_meta_exists _ _ _ _ _ HI EM) as (h' & ms & Eh' & ER' & Hin).
    rewrite ER in ER'. injection ER' as <-. rewrite Eh in Eh'. injection Eh' as <-.
    apply JSetFacts.In_add. now left.
  - apply Inv3_set_waiting; auto.
Qed.

Lemma Inv_deny_user sid roomId odId s : Inv s -> Inv (on_deny_user sid roomId odId s).
Proof.
  intros HI. unfold on_deny_user.
  destruct (negb _); [assumption|].
  destruct (JMap.get roomId (waitingRooms s)) as [w|] eqn:EW; [|assumption].
  destruct (JMap.get odId w) as [wu|]; [|assumption].
  assert (HR : JMap.get roomId (rooms s) <> None).
  { destruct (HI roomId) as (_ & Hw & _). intros E. apply Hw in E. congruence. }
  unfold Inv. unfold_emit. cbn.
  destruct (connected (socketId wu) _); cbn; apply Inv3_set_waiting; auto.
Qed.

Lemma Inv_toggle_lock sid roomId s s' :
  Inv s -> on_toggle_lock sid roomId s = Done s' -> Inv s'.
Proof.
  intros HI. unfold on_toggle_lock.
  destruct (negb _); [intros [= <-]; assumption|].
  destruct (JMap.get roomId (roomMetadata s)) as [m|] eqn:EM; [|discriminate].
  intros [= <-]. unfold Inv. unfold_emit. cbn.
  apply Inv3_set_meta; auto; [congruence|].
  apply (Inv3_meta_exists _ _ _ _ _ HI EM).
Qed.

Lemma Inv_toggle_waiting_room sid roomId s s' :
  Inv s -> on_toggle_waiting_room sid roomId s = Done s' -> Inv s'.
Proof.
  intros HI. unfold on_toggle_waiting_room.
  destruct (negb _); [intros [= <-]; assumption|].
  destruct (JMap.get roomId (roomMetadata s)) as [m|] eqn:EM; [|discriminate].
  intros [= <-]. unfold Inv. unfold_emit. cbn.
  apply Inv3_set_meta; auto; [congruence|].
  apply (Inv3_meta_exists _ _ _ _ _ HI EM).
Qed.

Lemma Inv_leave_room sid roomId userId s : Inv s -> Inv (on_leave_room sid roomId userId s).
Proof.
  intros HI. unfold on_leave_room. unfold_emit. unfold Inv. cbn.
  apply Inv_remove_member. rewrite socket_leave_eq. exact HI.
Qed.

Lemma Inv_leave_waiting u s : Inv s -> Inv (leave_waiting u s).
Proof.
  intros HI. unfold Inv.
  rewrite leave_waiting_rooms, leave_waiting_roomMetadata, leave_waiting_waitingRooms.
  intros r. destruct (HI r) as (Hd & Hw & Hh).
  repeat split; try apply Hd; auto.
  intros E. apply Hw in E.
  pose proof (get_drop_waiting u r (waitingRooms s)) as H.
  unfold JMap.t in *. rewrite E in H. exact H.
Qed.

Lemma Inv_disconnect sid s : Inv s -> Inv (on_disconnect sid s).
Proof.
  intros HI. unfold on_disconnect.
  set (s0 := with_sio _ s). assert (H0 : Inv s0) by exact HI. clearbody s0.
  destruct (JMap.get sid (socketToUser s0)) as [u|]; [|assumption].
  destruct (truthy u); [|assumption].
  unfold Inv. cbn.
  pose proof (Inv_leave_waiting u s0 H0) as H1.
  destruct (JMap.get u (userToRoom s0)) as [r|]; [|exact H1].
  destruct (truthy r); [|exact H1].
  unfold disconnect_room. unfold_emit. cbn.
  apply Inv_remove_member. exact H1.
Qed.

Lemma Inv_relay sid m s : Inv s -> Inv (relay_to_own_room sid m s).
Proof.
  intros HI. unfold relay_to_own_room.
  destruct (sender_room sid s) as [r|]; [|assumption].
  destruct (truthy r); assumption.
Qed.

Lemma Inv_handle sid ev s s' : Inv s -> handle sid ev s = Done s' -> Inv s'.
Proof.
  intros HI. destruct ev; cbn [handle];
    try (intros [= <-]; first
      [ exact HI
      | apply Inv_join_room; exact HI
      | apply Inv_admit_user; exact HI
      | apply Inv_deny_user; exact HI
      | apply Inv_relay; exact HI
      | apply Inv_leave_room; exact HI
      | apply Inv_disconnect; exact HI ]).
  - intros [= <-]. destruct hasCallback; exact HI.
  - apply Inv_toggle_lock; exact HI.
  - apply Inv_toggle_waiting_room; exact HI.
Qed.

Lemma Inv_step s e s' : Inv s -> step s e = Done s' -> Inv s'.
Proof. intros HI. unfold step. apply Inv_handle. exact HI. Qed.

Lemma Inv_initial : Inv initial.
Proof.
  intros r. unfold room_ok. cbn. repeat split; auto. discriminate.
Qed.

Lemma Inv_run events : forall s s', Inv s -> run s events = Done s' -> Inv s'.
Proof.
  induction events as [|e rest IH]; intros s s' HI; cbn.
  - intros [= <-]. exact HI.
  - destruct (step s e) as [s1|] eqn:E; [|discriminate].
    apply IH. eapply Inv_step; eauto.
Qed.

Lemma Inv_reachable s : reachable s -> Inv s.
Proof. intros [events H]. eapply Inv_run; [apply Inv_initial|exact H]. Qed.

(** ** Host-only events from a sender who is not the host *)

Lemma demo_room_reachable : reachable demo_room.
Proof. exists demo_room_events. reflexivity. Qed.

(** The host check of the four handlers: when the sender's binding and the
    room's host field differ (as [string | undefined]), the handler returns
    at once. *)
Lemma host_check_fails_event_ignored (s : State) (sid : string) (ev : ClientEvent)
    (r : string) :
  host_only_room ev = Some r ->
  JMap.get sid (socketToUser s) <> meta_hostId (JMap.get r (roomMetadata s)) ->
  step s (sid, ev) = Done (with_outbox [] s).
Proof.
  intros Hev Hne.
  assert (E : negb (opt_eqb (meta_hostId (JMap.get r (roomMetadata s)))
                            (JMap.get sid (socketToUser s))) = true).
  { apply negb_true_iff. destruct (opt_eqb _ _) eqn:E; [|reflexivity].
    apply opt_eqb_eq in E. congruence. }
  destruct ev; try discriminate; cbn in Hev; injection Hev as ->;
    unfold step; cbn [fst snd handle];
    unfold on_admit_user, on_deny_user, on_toggle_lock, on_toggle_waiting_room;
    cbn [roomMetadata socketToUser with_outbox]; rewrite E; reflexivity.
Qed.

(** C8 (the code breaks it): in every state the authority can reach, a
    host-only event (admit-user, deny-user, toggle-lock,
    toggle-waiting-room) from a sender who is not the host of the room it
    names is ignored (the handler returns, nothing is emitted and no part of
    the state changes) in every case but one: toggle-lock and
    toggle-waiting-room from a socket without a session binding, naming a
    room that does not exist, are not ignored; the handler throws. *)
Theorem non_host_event_ignored_or_throws (s : State) (sid : string) (ev : ClientEvent)
    (r : string) :
  reachable s ->
  host_only_room ev = Some r ->
  ~ sender_is_host sid r s ->
  if is_toggle ev && unbound_on_unknown_room sid r s then
    exists err, step s (sid, ev) = Throws err
  else
    exists s',
      step s (sid, ev) = Done s'
      /\ outbox s' = []
      /\ rooms s' = rooms s
      /\ roomMetadata s' = roomMetadata s
      /\ waitingRooms s' = waitingRooms s
      /\ socketToUser s' = socketToUser s
      /\ userToRoom s' = userToRoom s
      /\ userNames s' = userNames s
      /\ sio s' = sio s.
Proof.
  intros Hreach Hev Hnot.
  pose proof (Inv_reachable s Hreach r) as (Hd & Hw & Hh).
  assert (Hignored : step s (sid, ev) = Done (with_outbox [] s) ->
            exists s',
              step s (sid, ev) = Done s'
              /\ outbox s' = [] /\ rooms s' = rooms s
              /\ roomMetadata s' = roomMetadata s /\ waitingRooms s' = waitingRooms s
              /\ socketToUser s' = socketToUser s /\ userToRoom s' = userToRoom s
              /\ userNames s' = userNames s /\ sio s' = sio s).
  { intros E. exists (with_outbox [] s). split; [exact E|]. cbn. tauto. }
  unfold unbound_on_unknown_room.
  destruct (JMap.get sid (socketToUser s)) as [u|] eqn:ES;
    destruct (JMap.get r (roomMetadata s)) as [m|] eqn:EM;
    cbn [isSome negb andb]; rewrite ?andb_false_r.
  - apply Hignored, (host_check_fails_event_ignored s sid ev r Hev).
    rewrite ES, EM. cbn [meta_hostId]. intros E. apply Hnot.
    exists u. rewrite ES, EM. auto.
  - apply Hignored, (host_check_fails_event_ignored s sid ev r Hev).
    rewrite ES, EM. discriminate.
  - apply Hignored, (host_check_fails_event_ignored s sid ev r Hev).
    rewrite ES, EM. cbn [meta_hostId].
    destruct (Hh m eq_refl) as (h & members & -> & _). discriminate.
  - assert (EW : JMap.get r (waitingRooms s) = None) by (apply Hw, Hd; reflexivity).
    destruct ev; try discriminate; cbn in Hev; injection Hev as ->;
      cbn [is_toggle andb]; [apply Hignored | apply Hignored | | ];
      unfold step; cbn [fst snd handle];
      unfold on_admit_user, on_deny_user, on_toggle_lock, on_toggle_waiting_room;
      cbn [roomMetadata socketToUser waitingRooms with_outbox];
      rewrite ES, EM; cbn [meta_hostId opt_eqb negb]; rewrite ?EW; eauto.
Qed.

Lemma non_host_event_ignored_or_throws_witness :
  reachable demo_room
  /\ host_only_room (ToggleWaitingRoom "nope") = Some "nope"
  /\ ~ sender_is_host "s2" "nope" demo_room
  /\ ~ sender_is_host "s2" "R1" demo_room
  /\ (exists err, step demo_room ("s2", ToggleWaitingRoom "nope") = Throws err)
  /\ (exists s',
        step demo_room ("s2", ToggleLock "R1") = Done s'
        /\ outbox s' = []
        /\ roomMetadata s' = roomMetadata demo_room).
Proof.
  assert (H1 : ~ sender_is_host "s2" "nope" demo_room)
    by (intros (u & E & _); discriminate E).
  assert (H2 : ~ sender_is_host "s2" "R1" demo_room)
    by (intros (u & E & _); discriminate E).
  split; [exact demo_room_reachable|]. split; [reflexivity|].
  split; [exact H1|]. split; [exact H2|]. split.
  - exact (non_host_event_ignored_or_throws demo_room "s2" (ToggleWaitingRoom "nope")
             "nope" demo_room_reachable eq_refl H1).
  - destruct (non_host_event_ignored_or_throws demo_room "s2" (ToggleLock "R1")
                "R1" demo_room_reachable eq_refl H2)
      as (s' & Hs & Ho & _ & Hm & _).
    exists s'. auto.
Defined.

(** ** join-room on a locked room *)

(** C7 as stated fails: the display name given with the join is stored
    before the lock is looked at, so a join of a locked room does change the
    authority's state: [userNames] gets an entry for the requester. *)
Lemma join_locked_room_records_name :
  run initial demo_locked_events = Done demo_locked
  /\ locked "R1" demo_locked = true
  /\ exists s',
       step demo_locked ("s2", JoinRoom "R1" "u2" None (Some "Bea")) = Done s'
       /\ outbox s' = [mkEmission (ToSocket "s2") (RoomLocked "R1") ["s2"]]
       /\ userNames demo_locked = []
       /\ userNames s' = [("u2", "Bea")].
Proof.
  split; [reflexivity|]. split; [reflexivity|].
  eexists. split; [reflexivity|]. repeat split.
Qed.

(** C7, amended: a join that names an existing locked room emits
    [room-locked] to the requesting socket and nothing else, and leaves room
    membership, room metadata, waiting entries, both session bindings and
    the socket.io rooms as they were. The one map it writes is the
    display-name cache: a non-empty [userName] is stored under the
    requester's identifier, since that write comes before the lock test;
    without one [userNames] is unchanged too. *)
Theorem join_locked_room (s : State) (sid roomId odId : string)
    (config : option RoomConfig) (userName : option string) (meta : RoomMeta) :
  JMap.get roomId (roomMetadata s) = Some meta ->
  isLocked meta = true ->
  exists s',
    step s (sid, JoinRoom roomId odId config userName) = Done s'
    /\ outbox s' = [mkEmission (ToSocket sid) (RoomLocked roomId) [sid]]
    /\ rooms s' = rooms s
    /\ roomMetadata s' = roomMetadata s
    /\ waitingRooms s' = waitingRooms s
    /\ socketToUser s' = socketToUser s
    /\ userToRoom s' = userToRoom s
    /\ sio s' = sio s
    /\ userNames s' =
       match userName with
       | Some n => if truthy n then JMap.set odId n (userNames s) else userNames s
       | None => userNames s
       end.
Proof.
  intros EM EL. eexists. split; [reflexivity|].
  cbn [fst snd]. unfold on_join_room.
  set (s1 := if truthy_opt userName then _ else _).
  assert (H1 : roomMetadata s1 = roomMetadata s /\ outbox s1 = []
               /\ rooms s1 = rooms s /\ waitingRooms s1 = waitingRooms s
               /\ socketToUser s1 = socketToUser s /\ userToRoom s1 = userToRoom s
               /\ sio s1 = sio s
               /\ userNames s1 =
                  match userName with
                  | Some n => if truthy n then JMap.set odId n (userNames s)
                              else userNames s
                  | None => userNames s
                  end).
  { subst s1. destruct userName as [n|]; cbn [truthy_opt]; [destruct (truthy n)|];
      cbn; tauto. }
  destruct H1 as (EM1 & EO & ER & EW & ES & EU & EI & EN). clearbody s1.
  rewrite EM1, EM. cbn [opt_flag]. rewrite EL.
  unfold_emit. cbn. rewrite EO. tauto.
Qed.

Lemma join_locked_room_witness :
  JMap.get "R1" (roomMetadata demo_locked)
  = Some (mkRoomMeta false (Some "Room R1") (Some "u1") true false)
  /\ isLocked (mkRoomMeta false (Some "Room R1") (Some "u1") true false) = true
  /\ exists s',
       step demo_locked ("s2", JoinRoom "R1" "u2" None (Some "Bea")) = Done s'
       /\ outbox s' = [mkEmission (ToSocket "s2") (RoomLocked "R1") ["s2"]]
       /\ rooms s' = rooms demo_locked
       /\ roomMetadata s' = roomMetadata demo_locked
       /\ waitingRooms s' = waitingRooms demo_locked
       /\ socketToUser s' = socketToUser demo_locked
       /\ userToRoom s' = userToRoom demo_locked
       /\ sio s' = sio demo_locked
       /\ userNames s' = JMap.set "u2" "Bea" (userNames demo_locked).
Proof.
  split; [reflexivity|]. split; [reflexivity|].
  apply (join_locked_room demo_locked "s2" "R1" "u2" None (Some "Bea")
           (mkRoomMeta false (Some "Room R1") (Some "u1") true false));
    reflexivity.
Defined.

(** ** Which events can throw *)

Lemma toggle_lock_throws_iff sid r s :
  (exists err, on_toggle_lock sid r s = Throws err)
  <-> JMap.get sid (socketToUser s) = None /\ JMap.get r (roomMetadata s) = None.
Proof.
  unfold on_toggle_lock.
  destruct (JMap.get r (roomMetadata s)) as [m|]; cbn.
  - split.
    + intros [err H]. destruct (negb _); discriminate.
    + intros [_ H]. discriminate.
  - destruct (JMap.get sid (socketToUser s)); cbn; split.
    + intros [err H]. discriminate.
    + intros [H _]. discriminate.
    + auto.
    + intros _. eauto.
Qed.

Lemma toggle_waiting_room_throws_iff sid r s :
  (exists err, on_toggle_waiting_room sid r s = Throws err)
  <-> JMap.get sid (socketToUser s) = None /\ JMap.get r (roomMetadata s) = None.
Proof.
  unfold on_toggle_waiting_room.
  destruct (JMap.get r (roomMetadata s)) as [m|]; cbn.
  - split.
    + intros [err H]. destruct (negb _); discriminate.
    + intros [_ H]. discriminate.
  - destruct (JMap.get sid (socketToUser s)); cbn; split.
    + intros [err H]. discriminate.
    + intros [H _]. discriminate.
    + auto.
    + intros _. eauto.
Qed.

(** Every other event is handled without a throw. *)
Lemma other_events_return sid ev s :
  (forall r, ev <> ToggleLock r) -> (forall r, ev <> ToggleWaitingRoom r) ->
  exists s', handle sid ev s = Done s'.
Proof.
  intros H1 H2. destruct ev; cbn; eauto.
  - exfalso. eapply H1. reflexivity.
  - exfalso. eapply H2. reflexivity.
Qed.

(** C2 (the code breaks it): the handlers of toggle-lock and
    toggle-waiting-room throw a TypeError when a socket without a session
    binding names a room that does not exist, so not every client event is
    handled without a throw. *)
Theorem toggle_on_unknown_room_throws :
  run initial [("s1", Connection); ("s1", ToggleLock "nope")]
  = Throws "TypeError: Cannot read properties of undefined (reading 'isLocked')"
  /\ run initial [("s1", Connection); ("s1", ToggleWaitingRoom "nope")]
     = Throws "TypeError: Cannot read properties of undefined (reading 'waitingRoom')".
Proof. split; reflexivity. Qed.

(** ** Locking *)

Lemma locked_get r s :
  locked r s = true <->
  exists m, JMap.get r (roomMetadata s) = Some m /\ isLocked m = true.
Proof.
  unfold locked. destruct (JMap.get r (roomMetadata s)) as [m|]; cbn.
  - split; [eauto|]. intros (m' & [= <-] & H). exact H.
  - split; [discriminate|]. intros (m' & H & _). discriminate.
Qed.

Lemma locked_frame r s s' :
  roomMetadata s' = roomMetadata s -> locked r s' = locked r s.
Proof. unfold locked. intros ->. reflexivity. Qed.

Lemma join_waiting_roomMetadata sid roomId odId userName host s :
  roomMetadata (join_waiting sid roomId odId userName host s) = roomMetadata s.
Proof. unfold join_waiting. unfold_emit. repeat break_match; reflexivity. Qed.

Lemma join_direct_roomMetadata sid roomId odId config isNewRoom s :
  roomMetadata (join_direct sid roomId odId config isNewRoom s) =
  if isNewRoom then JMap.set roomId (new_meta roomId odId config) (roomMetadata s)
  else roomMetadata s.
Proof.
  unfold join_direct. rewrite socket_join_eq. unfold_emit.
  destruct isNewRoom; cbn; repeat break_match; reflexivity.
Qed.

Lemma with_userNames_if_roomMetadata (userName : option string) odId s :
  roomMetadata (if truthy_opt userName then
                  match userName with
                  | Some n => with_userNames (JMap.set odId n (userNames s)) s
                  | None => s
                  end
                else s) = roomMetadata s.
Proof. destruct (truthy_opt userName); [destruct userName|]; reflexivity. Qed.

Lemma locked_join_room sid roomId odId config userName r s :
  locked r (on_join_room sid roomId odId config userName s) = true ->
  locked r s = true.
Proof.
  unfold on_join_room.
  set (s1 := if truthy_opt userName then _ else s).
  assert (E1 : roomMetadata s1 = roomMetadata s)
    by apply with_userNames_if_roomMetadata.
  clearbody s1. rewrite <- (locked_frame r s s1 E1).
  destruct (opt_flag isLocked _); [auto|].
  destruct (_ && _).
  - erewrite locked_frame; [|apply join_waiting_roomMetadata]. auto.
  - unfold locked. rewrite join_direct_roomMetadata.
    destruct (JMap.get roomId (roomMetadata s1)) eqn:EM; cbn; [auto|].
    rewrite JMapFacts.get_set.
    destruct (r =? roomId) eqn:E; [cbn; discriminate|auto].
Qed.

Lemma admit_user_roomMetadata sid roomId odId s :
  roomMetadata (on_admit_user sid roomId odId s) = roomMetadata s.
Proof.
  unfold on_admit_user. unfold_emit.
  repeat break_match; try reflexivity; cbn; rewrite socket_join_eq; reflexivity.
Qed.

Lemma deny_user_roomMetadata sid roomId odId s :
  roomMetadata (on_deny_user sid roomId odId s) = roomMetadata s.
Proof. unfold on_deny_user. unfold_emit. repeat break_match; reflexivity. Qed.

Lemma relay_roomMetadata sid m s :
  roomMetadata (relay_to_own_room sid m s) = roomMetadata s.
Proof. unfold relay_to_own_room. unfold_emit. repeat break_match; reflexivity. Qed.

Lemma locked_remove_member roomId u r s :
  locked r (remove_member roomId u s) = true -> locked r s = true.
Proof.
  unfold remove_member.
  destruct (JMap.get roomId (rooms s)) as [m|]; [|auto].
  set (s1 := with_rooms _ s).
  set (s2 := if _ && _ then transfer_host roomId (JSet.del u m) s1 else s1).
  assert (H2 : locked r s2 = true -> locked r s = true).
  { subst s2. destruct (_ && _); [|auto].
    unfold locked. rewrite transfer_host_roomMetadata.
    destruct (JSet.first (JSet.del u m)); [|auto].
    subst s1. cbn. destruct (JMap.get roomId (roomMetadata s)) as [meta|] eqn:EM; [|auto].
    rewrite JMapFacts.get_set. destruct (r =? roomId) eqn:E; [|auto].
    apply String.eqb_eq in E. subst r. rewrite EM. auto. }
  clearbody s2. destruct (Nat.eqb _ 0); [|exact H2].
  intros H. apply H2. revert H. unfold locked.
  rewrite close_room_roomMetadata, JMapFacts.get_del.
  destruct (r =? roomId); [discriminate|auto].
Qed.

Lemma locked_leave_room sid roomId u r s :
  locked r (on_leave_room sid roomId u s) = true -> locked r s = true.
Proof.
  unfold on_leave_room. unfold_emit. intros H.
  assert (H' : locked r (remove_member roomId u (socket_leave sid roomId s)) = true)
    by exact H.
  apply locked_remove_member in H'. rewrite socket_leave_eq in H'. exact H'.
Qed.

Lemma locked_disconnect sid r s :
  locked r (on_disconnect sid s) = true -> locked r s = true.
Proof.
  unfold on_disconnect.
  set (s0 := with_sio _ s).
  assert (E0 : locked r s0 = locked r s) by reflexivity. rewrite <- E0. clearbody s0.
  destruct (JMap.get sid (socketToUser s0)) as [u|]; [|auto].
  destruct (truthy u); [|auto].
  assert (E1 : locked r (leave_waiting u s0) = locked r s0)
    by (apply locked_frame, leave_waiting_roomMetadata).
  destruct (JMap.get u (userToRoom s0)) as [room|]; [|rewrite <- E1; auto].
  destruct (truthy room); [|rewrite <- E1; auto].
  unfold disconnect_room. unfold_emit. intros H. rewrite <- E1.
  eapply locked_remove_member. exact H.
Qed.

Lemma locked_handle_other sid ev r s s' :
  handle sid ev s = Done s' -> ev <> ToggleLock r ->
  locked r s' = true -> locked r s = true.
Proof.
  destruct ev; cbn [handle]; intros H Hne; try (injection H as <-);
    try (unfold_emit; exact (fun H => H)).
  - destruct hasCallback; auto.
  - apply locked_join_room.
  - rewrite (locked_frame r s _ (admit_user_roomMetadata _ _ _ _)). auto.
  - rewrite (locked_frame r s _ (deny_user_roomMetadata _ _ _ _)). auto.
  - (* toggle-lock of another room *)
    revert H. unfold on_toggle_lock. destruct (negb _); [intros [= <-]; auto|].
    destruct (JMap.get roomId (roomMetadata s)) as [m|] eqn:EM; [|discriminate].
    intros [= <-]. unfold_emit. unfold locked. cbn.
    rewrite JMapFacts.get_set. destruct (r =? roomId) eqn:E; [|auto].
    apply String.eqb_eq in E. congruence.
  - revert H. unfold on_toggle_waiting_room. destruct (negb _); [intros [= <-]; auto|].
    destruct (JMap.get roomId (roomMetadata s)) as [m|] eqn:EM; [|discriminate].
    intros [= <-]. unfold_emit. unfold locked. cbn.
    rewrite JMapFacts.get_set. destruct (r =? roomId) eqn:E; [|auto].
    apply String.eqb_eq in E. subst. rewrite EM. auto.
  - rewrite (locked_frame r s _ (relay_roomMetadata _ _ _)). auto.
  - rewrite (locked_frame r s _ (relay_roomMetadata _ _ _)). auto.
  - rewrite (locked_frame r s _ (relay_roomMetadata _ _ _)). auto.
  - apply locked_leave_room.
  - apply locked_disconnect.
Qed.

(** C10: a join that finds no metadata for the room creates it unlocked with
    the joiner as host, whatever the creation config; and when an event turns
    a room from not locked (or not there) to locked, that event is the
    toggle-lock of this room sent from a socket bound to the room's host. *)
Theorem rooms_start_unlocked_lock_by_host :
  (forall s sid r u config userName,
      JMap.get r (roomMetadata s) = None ->
      exists s' m,
        step s (sid, JoinRoom r u config userName) = Done s'
        /\ JMap.get r (roomMetadata s') = Some m
        /\ hostId m = Some u
        /\ isLocked m = false)
  /\ (forall s e s' r,
        reachable s -> step s e = Done s' ->
        locked r s = false -> locked r s' = true ->
        exists sid m h,
          e = (sid, ToggleLock r)
          /\ JMap.get r (roomMetadata s) = Some m
          /\ hostId m = Some h
          /\ JMap.get sid (socketToUser s) = Some h).
Proof.
  split.
  - intros s sid r u config userName EM.
    eexists. exists (new_meta r u config). split; [reflexivity|].
    cbn [fst snd]. unfold on_join_room.
    set (s1 := if truthy_opt userName then _ else _).
    assert (E1 : roomMetadata s1 = roomMetadata s)
      by (subst s1; destruct (truthy_opt userName); [destruct userName|]; reflexivity).
    clearbody s1. rewrite E1, EM. cbn -[join_direct].
    rewrite join_direct_roomMetadata, JMapFacts.get_set_same. auto.
  - intros s [sid ev] s' r Hreach Hstep Hno Hyes.
    unfold step in Hstep. cbn [fst snd] in Hstep.
    assert (E0 : locked r (with_outbox [] s) = locked r s) by reflexivity.
    destruct ev;
      try (rewrite (locked_handle_other _ _ r _ _ Hstep) in E0;
           [congruence | discriminate | assumption]).
    destruct (string_dec roomId r) as [->|Hne].
    + cbn [handle] in Hstep. unfold on_toggle_lock in Hstep.
      cbn [roomMetadata socketToUser with_outbox] in Hstep.
      destruct (opt_eqb _ _) eqn:Eh; cbn in Hstep.
      * destruct (JMap.get r (roomMetadata s)) as [m|] eqn:EM; [|discriminate].
        apply opt_eqb_eq in Eh. cbn in Eh.
        destruct (Inv3_meta_exists _ _ _ _ _ (Inv_reachable s Hreach) EM)
          as (h & ms & Ehost & _).
        exists sid, m, h. repeat split; congruence.
      * injection Hstep as <-. rewrite E0 in Hyes. congruence.
    + rewrite (locked_handle_other _ _ r _ _ Hstep) in E0;
        [congruence | congruence | assumption].
Qed.

Lemma rooms_start_unlocked_lock_by_host_witness :
  JMap.get "R1" (roomMetadata initial) = None
  /\ reachable demo_room
  /\ step demo_room ("s1", ToggleLock "R1") = Done demo_locked
  /\ locked "R1" demo_room = false
  /\ locked "R1" demo_locked = true
  /\ (exists s' m,
        step initial ("s1", JoinRoom "R1" "u1" None None) = Done s'
        /\ JMap.get "R1" (roomMetadata s') = Some m
        /\ hostId m = Some "u1"
        /\ isLocked m = false)
  /\ (exists sid m h,
        ("s1", ToggleLock "R1") = (sid, ToggleLock "R1")
        /\ JMap.get "R1" (roomMetadata demo_room) = Some m
        /\ hostId m = Some h
        /\ JMap.get sid (socketToUser demo_room) = Some h).
Proof.
  destruct rooms_start_unlocked_lock_by_host as [Hnew Hlock].
  split; [reflexivity|]. split; [exact demo_room_reachable|].
  split; [reflexivity|]. split; [reflexivity|]. split; [reflexivity|].
  split.
  - apply (Hnew initial "s1" "R1" "u1" None None). reflexivity.
  - apply (Hlock demo_room ("s1", ToggleLock "R1") demo_locked "R1").
    + exact demo_room_reachable.
    + reflexivity.
    + reflexivity.
    + reflexivity.
Defined.

(** ** The loss percentage *)

Lemma lossPercentage_deltas prev l r :
  let deltaLost := (l - packetsLost prev)%Z in
  let deltaReceived := (r - packetsReceived prev)%Z in
  ((deltaLost + deltaReceived <= 0)%Z -> lossPercentage prev l r = 0%Q)
  /\ ((0 < deltaLost + deltaReceived)%Z ->
      lossPercentage prev l r
      = (inject_Z deltaLost / inject_Z (deltaLost + deltaReceived) * inject_Z 100)%Q)
  /\ ((0 <= deltaLost)%Z -> (0 <= deltaReceived)%Z ->
      (0 <= lossPercentage prev l r)%Q /\ (lossPercentage prev l r <= 100)%Q).
Proof.
  intros dl dr. unfold lossPercentage. fold dl dr.
  destruct (0 <? dl + dr)%Z eqn:E.
  - apply Z.ltb_lt in E. split; [lia|]. split; [reflexivity|].
    intros Hl Hr.
    assert (Ht : (0 < inject_Z (dl + dr))%Q).
    { change 0%Q with (inject_Z 0). rewrite <- Zlt_Qlt. exact E. }
    assert (H0 : (0 <= inject_Z dl / inject_Z (dl + dr))%Q).
    { apply Qle_shift_div_l; [exact Ht|]. rewrite Qmult_0_l.
      change 0%Q with (inject_Z 0). rewrite <- Zle_Qle. exact Hl. }
    assert (H1 : (inject_Z dl / inject_Z (dl + dr) <= 1)%Q).
    { apply Qle_shift_div_r; [exact Ht|]. rewrite Qmult_1_l.
      rewrite <- Zle_Qle. lia. }
    change (inject_Z 100) with 100%Q.
    split; nra.
  - apply Z.ltb_ge in E. split; [reflexivity|]. split; [lia|].
    intros _ _. split; [apply Qle_refl | discriminate].
Qed.

Lemma sampleLoss_stores peerId l r prevStats :
  JMap.get peerId (snd (sampleLoss peerId l r prevStats)) = Some (mkPacketCounts l r).
Proof. unfold sampleLoss. cbn. apply JMapFacts.get_set_same. Qed.

Lemma sampleOthers_get peerId samples : forall prevStats,
  Forall (fun x => fst x <> peerId) samples ->
  JMap.get peerId (sampleOthers samples prevStats) = JMap.get peerId prevStats.
Proof.
  induction samples as [|[q [l r]] samples IH]; intros prevStats Hall; [reflexivity|].
  inversion Hall as [|? ? Hq Hall']; subst. cbn [fst] in Hq.
  unfold sampleOthers. cbn [fold_left fst snd].
  fold (sampleOthers samples (snd (sampleLoss q l r prevStats))).
  rewrite (IH _ Hall'). unfold sampleLoss. cbn [snd].
  apply JMapFacts.get_set_other. auto.
Qed.

(** C9: the percentage reported for a sample is computed from the
    differences between its cumulative lost and received counts and those
    stored by the previous sample of the same peer, whatever other peers
    were sampled in between: it is zero when the window holds no packets,
    it is 100 * deltaLost / (deltaLost + deltaReceived) otherwise, and it
    lies in [0, 100] whenever both differences are non-negative. The first
    sample of a peer is taken against zero counters. *)
Theorem loss_percentage_of_window (peerId : string) (prevStats : JMap.t PacketCounts)
    (l1 r1 l2 r2 : Z) (between : list (string * (Z * Z))) :
  Forall (fun x => fst x <> peerId) between ->
  let afterFirst := snd (sampleLoss peerId l1 r1 prevStats) in
  let reported := fst (sampleLoss peerId l2 r2 (sampleOthers between afterFirst)) in
  let deltaLost := (l2 - l1)%Z in
  let deltaReceived := (r2 - r1)%Z in
  ((deltaLost + deltaReceived <= 0)%Z -> reported = 0%Q)
  /\ ((0 < deltaLost + deltaReceived)%Z ->
      reported
      = (inject_Z deltaLost / inject_Z (deltaLost + deltaReceived) * inject_Z 100)%Q)
  /\ ((0 <= deltaLost)%Z -> (0 <= deltaReceived)%Z ->
      (0 <= reported)%Q /\ (reported <= 100)%Q)
  /\ (JMap.get peerId prevStats = None ->
      fst (sampleLoss peerId l1 r1 prevStats) = lossPercentage (mkPacketCounts 0 0) l1 r1).
Proof.
  intros Hothers afterFirst reported dl dr.
  assert (E : reported = lossPercentage (mkPacketCounts l1 r1) l2 r2).
  { subst reported afterFirst. unfold sampleLoss at 1. cbn [fst].
    rewrite (sampleOthers_get peerId between _ Hothers), sampleLoss_stores. reflexivity. }
  rewrite E.
  destruct (lossPercentage_deltas (mkPacketCounts l1 r1) l2 r2) as (H1 & H2 & H3).
  split; [exact H1|]. split; [exact H2|]. split; [exact H3|].
  intros Enone. unfold sampleLoss. cbn [fst]. rewrite Enone. reflexivity.
Qed.

Lemma loss_percentage_of_window_witness :
  Forall (fun x => fst x <> "u2") [("u3", (5, 50)%Z); ("u4", (0, 10)%Z)]
  /\ (0 < (30 - 10) + (170 - 90))%Z
  /\ (0 <= 30 - 10)%Z
  /\ (0 <= 170 - 90)%Z
  /\ fst (sampleLoss "u2" 30 170
            (sampleOthers [("u3", (5, 50)%Z); ("u4", (0, 10)%Z)]
                          (snd (sampleLoss "u2" 10 90 []))))
     = (inject_Z (30 - 10) / inject_Z ((30 - 10) + (170 - 90)) * inject_Z 100)%Q
  /\ (0 <= fst (sampleLoss "u2" 30 170
                  (sampleOthers [("u3", (5, 50)%Z); ("u4", (0, 10)%Z)]
                                (snd (sampleLoss "u2" 10 90 [])))))%Q
  /\ (fst (sampleLoss "u2" 30 170
             (sampleOthers [("u3", (5, 50)%Z); ("u4", (0, 10)%Z)]
                           (snd (sampleLoss "u2" 10 90 [])))) <= 100)%Q.
Proof.
  assert (Hothers : Forall (fun x => fst x <> "u2") [("u3", (5, 50)%Z); ("u4", (0, 10)%Z)])
    by (repeat constructor; discriminate).
  destruct (loss_percentage_of_window "u2" [] 10 90 30 170
              [("u3", (5, 50)%Z); ("u4", (0, 10)%Z)] Hothers) as (_ & Hpos & Hrange & _).
  split; [exact Hothers|].
  split; [reflexivity|]. split; [discriminate|]. split; [discriminate|].
  split; [apply Hpos; reflexivity|].
  apply Hrange; discriminate.
Defined.

(** The window value is not the lifetime ratio: 20 lost of 100 in the
    window gives 20 percent, where the lifetime counts (30 lost, 170
    received) would give 15; and it stays the window value when another
    peer is sampled between the two samples. *)
Example loss_percentage_window_not_lifetime :
  (fst (sampleLoss "u2" 30 170 (snd (sampleLoss "u2" 10 90 []))) == 20)%Q
  /\ (fst (sampleLoss "u2" 30 170
             (sampleOthers [("u3", (5, 50)%Z)] (snd (sampleLoss "u2" 10 90 [])))) == 20)%Q
  /\ ~ (inject_Z 30 / inject_Z (30 + 170) * inject_Z 100 == 20)%Q.
Proof. split; [reflexivity|]. split; [reflexivity|]. intros H. discriminate H. Qed.

(** ** ICE candidates *)

(** C1 as stated fails: a candidate that arrives before the caller's offer
    finds no connection and is discarded; the connection made for the offer
    afterwards has its remote description set and no candidate applied. *)
Lemma ice_candidate_before_offer_is_dropped :
  let h1 := handleIceCandidate "u2" "candidate-1" emptyHook in
  let h2 := handleOffer false "Ann" false "u2" "Bea" false "offer-sdp" h1 in
  h1 = emptyHook
  /\ exists pc,
       JMap.get "u2" (peers h2) = Some pc
       /\ remoteDescription pc = Some (Received "offer-sdp")
       /\ ~ In "candidate-1" (appliedCandidates pc).
Proof.
  cbn. split; [reflexivity|]. eexists. split; [reflexivity|].
  split; [reflexivity|]. cbn. tauto.
Qed.

(** The same on the initiating side: the candidate arrives between the local
    offer and the remote answer, the browser rejects it, and it is not
    applied once the answer is set. *)
Example ice_candidate_before_answer_is_dropped :
  let h1 := handleUserConnected "Ann" false "u2" emptyHook in
  let h2 := handleIceCandidate "u2" "candidate-1" h1 in
  let h3 := handleAnswer false "u2" "Bea" false "answer-sdp" h2 in
  errors h2 = ["Error adding received ice candidate"]
  /\ JMap.get "u2" (peers h3)
     = Some (mkPeerConnection (Some (Received "answer-sdp")) (Some CreatedOffer) [] false).
Proof. split; reflexivity. Qed.

Lemma handleIceCandidates_cons callerId c cs h :
  handleIceCandidates callerId (c :: cs) h
  = handleIceCandidates callerId cs (handleIceCandidate callerId c h).
Proof. reflexivity. Qed.

Lemma handleIceCandidate_peers callerId c h :
  peers (handleIceCandidate callerId c h) =
  match JMap.get callerId (peers h) with
  | Some pc =>
      match remoteDescription pc with
      | Some _ =>
          JMap.set callerId
            (mkPeerConnection (remoteDescription pc) (localDescription pc)
                              (appliedCandidates pc ++ [c]) (pendingLocalOffer pc))
            (peers h)
      | None => peers h
      end
  | None => peers h
  end.
Proof.
  unfold handleIceCandidate, addIceCandidate.
  destruct (JMap.get callerId (peers h)) as [pc|]; [|reflexivity].
  destruct (remoteDescription pc); reflexivity.
Qed.

Lemma handleIceCandidate_errors callerId c h :
  errors (handleIceCandidate callerId c h) =
  match JMap.get callerId (peers h) with
  | Some pc =>
      match remoteDescription pc with
      | Some _ => errors h
      | None => errors h ++ ["Error adding received ice candidate"]
      end
  | None => errors h
  end.
Proof.
  unfold handleIceCandidate, addIceCandidate.
  destruct (JMap.get callerId (peers h)) as [pc|]; [|reflexivity].
  destruct (remoteDescription pc); reflexivity.
Qed.

(** Candidates for a caller without a connection leave the hook as it is. *)
Lemma handleIceCandidates_unknown callerId cs : forall h,
  JMap.get callerId (peers h) = None -> handleIceCandidates callerId cs h = h.
Proof.
  induction cs as [|c cs IH]; intros h E; [reflexivity|].
  rewrite handleIceCandidates_cons.
  assert (E1 : handleIceCandidate callerId c h = h)
    by (unfold handleIceCandidate; rewrite E; reflexivity).
  rewrite E1. apply IH. exact E.
Qed.

(** Candidates for a connection without a remote description are rejected
    by the connection, one logged error each, and change nothing else. *)
Lemma handleIceCandidates_rejected callerId cs : forall h pc,
  JMap.get callerId (peers h) = Some pc ->
  remoteDescription pc = None ->
  handleIceCandidates callerId cs h
  = mkHook (peers h) (peerNames h) (peerScreenShares h) (sent h)
           (errors h ++ map (fun _ => "Error adding received ice candidate") cs)
           (rejections h).
Proof.
  induction cs as [|c cs IH]; intros h pc E Er.
  - cbn. rewrite app_nil_r. destruct h; reflexivity.
  - rewrite handleIceCandidates_cons.
    assert (E1 : handleIceCandidate callerId c h
                 = mkHook (peers h) (peerNames h) (peerScreenShares h) (sent h)
                          (errors h ++ ["Error adding received ice candidate"])
                          (rejections h))
      by (unfold handleIceCandidate, addIceCandidate; rewrite E, Er; reflexivity).
    rewrite E1, (IH _ pc) by assumption.
    cbn [peers peerNames peerScreenShares sent errors rejections map].
    rewrite <- app_assoc. reflexivity.
Qed.

(** No handler reads what the hook has logged. *)
Lemma onSignal_same_but_errors rb userId userName share m n1 n2 :
  same_but_errors (hook n1) (hook n2) ->
  prevStatsRef n2 = prevStatsRef n1 -> localStreamRef n2 = localStreamRef n1 ->
  let n1' := onSignal rb userId userName share m n1 in
  let n2' := onSignal rb userId userName share m n2 in
  same_but_errors (hook n1') (hook n2')
  /\ prevStatsRef n2' = prevStatsRef n1' /\ localStreamRef n2' = localStreamRef n1'.
Proof.
  destruct n1 as [[p1 nm1 ss1 st1 e1 rj1] ps1 ls1], n2 as [[p2 nm2 ss2 st2 e2 rj2] ps2 ls2].
  unfold same_but_errors. cbn [hook prevStatsRef localStreamRef peers peerNames
                              peerScreenShares sent rejections].
  intros (-> & -> & -> & -> & ->) -> ->. cbn zeta.
  destruct m as [d | t c nm sh o | t c nm sh a | t c cand | id]; cbn [onSignal].
  - destruct (truthy d && negb (d =? userId)); [|cbn; tauto].
    unfold handleUserConnected, createPeerConnection. cbn.
    destruct (JMap.get d p1); cbn; tauto.
  - destruct ((t =? userId) || (t =? "all")); [|cbn; tauto].
    unfold handleOffer, createPeerConnection, reject.
    cbn -[setRemoteDescription].
    destruct (JMap.get c p1) as [pc|]; cbn -[setRemoteDescription];
      [destruct (setRemoteDescription rb SdpOffer o pc)|]; cbn; tauto.
  - destruct (t =? userId); [|cbn; tauto].
    unfold handleAnswer, reject. cbn -[setRemoteDescription].
    destruct (JMap.get c p1) as [pc|]; cbn -[setRemoteDescription];
      [destruct (setRemoteDescription rb SdpAnswer a pc)|]; cbn; tauto.
  - destruct (t =? userId); [|cbn; tauto].
    unfold handleIceCandidate. cbn -[addIceCandidate].
    destruct (JMap.get c p1) as [pc|]; cbn -[addIceCandidate];
      [destruct (addIceCandidate cand pc)|]; cbn; tauto.
  - unfold handleUserDisconnected. cbn.
    destruct (JMap.get id p1); cbn; tauto.
Qed.

Lemma onSignals_same_but_errors rb userId userName share ms : forall n1 n2,
  same_but_errors (hook n1) (hook n2) ->
  prevStatsRef n2 = prevStatsRef n1 -> localStreamRef n2 = localStreamRef n1 ->
  same_but_errors (hook (onSignals rb userId userName share ms n1))
                  (hook (onSignals rb userId userName share ms n2)).
Proof.
  induction ms as [|m ms IH]; intros n1 n2 H Hp Hl; [exact H|].
  unfold onSignals. cbn [fold_left].
  destruct (onSignal_same_but_errors rb userId userName share m n1 n2 H Hp Hl)
    as (H' & Hp' & Hl').
  exact (IH _ _ H' Hp' Hl').
Qed.

(** C1, amended: the hook holds no candidate back. Candidates from a caller
    whose connection has a remote description are applied at once, in
    arrival order, and nothing is logged. Candidates from a caller with no
    connection leave the hook exactly as it was. Candidates from a caller
    whose connection has no remote description yet are rejected by the
    connection: one error is logged for each and nothing else changes. A
    candidate that was not applied is not applied later either: whatever
    signals follow (the offer or answer that sets the remote description
    among them), the connections are what they would have been had the
    candidate never arrived. *)
Theorem ice_candidates_applied_at_once_or_dropped (h : Hook) (callerId : string)
    (cs : list string) :
  let h' := handleIceCandidates callerId cs h in
  match JMap.get callerId (peers h) with
  | Some pc =>
      match remoteDescription pc with
      | Some _ =>
          JMap.get callerId (peers h')
          = Some (mkPeerConnection (remoteDescription pc) (localDescription pc)
                                   (appliedCandidates pc ++ cs) (pendingLocalOffer pc))
          /\ errors h' = errors h
      | None =>
          same_but_errors h h'
          /\ errors h'
             = errors h ++ map (fun _ => "Error adding received ice candidate") cs
      end
  | None => h' = h
  end
  /\ (match JMap.get callerId (peers h) with
      | Some pc => remoteDescription pc = None
      | None => True
      end ->
      forall rb userId userName share stats stream later,
        peers (hook (onSignals rb userId userName share later
                               (mkNegotiator h' stats stream)))
        = peers (hook (onSignals rb userId userName share later
                                 (mkNegotiator h stats stream)))).
Proof.
  cbn zeta. split.
  - destruct (JMap.get callerId (peers h)) as [pc|] eqn:E;
      [|apply handleIceCandidates_unknown; exact E].
    destruct (remoteDescription pc) as [d|] eqn:Er.
    + revert h pc d E Er. induction cs as [|c cs IH]; intros h pc d E Er.
      * cbn. rewrite app_nil_r, E, <- Er. destruct pc; auto.
      * rewrite handleIceCandidates_cons.
        set (h1 := handleIceCandidate callerId c h).
        assert (E1 : JMap.get callerId (peers h1)
                     = Some (mkPeerConnection (Some d) (localDescription pc)
                                              (appliedCandidates pc ++ [c])
                                              (pendingLocalOffer pc))
                     /\ errors h1 = errors h).
        { subst h1. rewrite handleIceCandidate_peers, handleIceCandidate_errors, E, Er.
          rewrite JMapFacts.get_set_same. auto. }
        destruct E1 as (E1 & Ee). clearbody h1.
        destruct (IH h1 _ d E1 eq_refl) as (H1 & H2).
        cbn [remoteDescription localDescription appliedCandidates pendingLocalOffer] in H1.
        rewrite <- app_assoc in H1. cbn [app] in H1.
        split; congruence.
    + rewrite (handleIceCandidates_rejected callerId cs h pc E Er).
      unfold same_but_errors. cbn. tauto.
  - intros Hdrop rb userId userName share stats stream later.
    assert (Hsame : same_but_errors h (handleIceCandidates callerId cs h)).
    { destruct (JMap.get callerId (peers h)) as [pc|] eqn:E.
      - rewrite (handleIceCandidates_rejected callerId cs h pc E Hdrop).
        unfold same_but_errors. cbn. tauto.
      - rewrite (handleIceCandidates_unknown callerId cs h E).
        unfold same_but_errors. tauto. }
    destruct (onSignals_same_but_errors rb userId userName share later
                (mkNegotiator h stats stream)
                (mkNegotiator (handleIceCandidates callerId cs h) stats stream)
                Hsame eq_refl eq_refl) as (Hp & _).
    exact Hp.
Qed.

Lemma ice_candidates_applied_at_once_or_dropped_witness :
  let h := handleUserConnected "Ann" false "u2" emptyHook in
  let h' := handleIceCandidates "u2" ["c1"; "c2"] h in
  errors h' = ["Error adding received ice candidate"; "Error adding received ice candidate"]
  /\ JMap.get "u2"
       (peers (hook (onSignals false "me" "Ann" false [InAnswer "me" "u2" "Bea" false "sdp"]
                               (mkNegotiator h' [] None))))
     = Some (mkPeerConnection (Some (Received "sdp")) (Some CreatedOffer) [] false).
Proof.
  cbn zeta.
  destruct (ice_candidates_applied_at_once_or_dropped
              (handleUserConnected "Ann" false "u2" emptyHook) "u2" ["c1"; "c2"])
    as ((_ & He) & Hlater).
  split; [exact He|].
  rewrite (Hlater eq_refl false "me" "Ann" false [] None
             [InAnswer "me" "u2" "Bea" false "sdp"]).
  reflexivity.
Defined.

(** ** Joining through the waiting room *)

Lemma set_new {V} k (v : V) m :
  JMap.get k m = None -> JMap.set k v m = m ++ [(k, v)].
Proof.
  induction m as [|[k0 v0] m IH]; cbn; [reflexivity|].
  destruct (k =? k0); [discriminate|]. intros H. rewrite IH by assumption. reflexivity.
Qed.

Lemma room_sockets_sio r s s' : sio s' = sio s -> room_sockets r s' = room_sockets r s.
Proof. unfold room_sockets. intros ->. reflexivity. Qed.

Lemma emitted_if_sio x m s s' : sio s' = sio s -> emitted_if x m s' = emitted_if x m s.
Proof.
  intros E. unfold emitted_if. destruct x as [hs|]; [|reflexivity].
  rewrite (room_sockets_sio hs s s' E). reflexivity.
Qed.

Lemma join_waiting_spec sid r u userName host s :
  let entry := mkWaitingUser u sid (shown_name userName u) in
  let after := JMap.set u entry (waiting_of r s) in
  let s' := join_waiting sid r u userName host s in
  JMap.get r (waitingRooms s') = Some after
  /\ rooms s' = rooms s
  /\ socketToUser s' = JMap.set sid u (socketToUser s)
  /\ outbox s' =
     outbox s
     ++ mkEmission (ToSocket sid) (WaitingRoom r (JMap.size after)) [sid]
        :: emitted_if (socket_of_user host (JMap.set sid u (socketToUser s)))
                      (WaitingRoomUpdate r (waiting_list after)) s.
Proof.
  intros entry after s'. subst s' after entry.
  unfold join_waiting, waiting_of, emitted_if. unfold_emit.
  unfold JMap.has.
  destruct (JMap.get r (waitingRooms s)) as [w|] eqn:EW; cbn [isSome].
  - rewrite EW. cbn.
    destruct (socket_of_user host _) as [hs|]; [destruct (truthy hs)|]; cbn;
      rewrite JMapFacts.get_set_same, <- ?app_assoc; auto using app_nil_r.
  - cbn. rewrite JMapFacts.get_set_same.
    destruct (socket_of_user host _) as [hs|]; [destruct (truthy hs)|]; cbn;
      rewrite JMapFacts.get_set_same, <- ?app_assoc; auto using app_nil_r.
Qed.

Lemma names_roomMetadata_frame (userName : option string) u s :
  let s1 := if truthy_opt userName then
              match userName with
              | Some n => with_userNames (JMap.set u n (userNames s)) s
              | None => s
              end
            else s in
  rooms s1 = rooms s /\ roomMetadata s1 = roomMetadata s
  /\ waitingRooms s1 = waitingRooms s /\ socketToUser s1 = socketToUser s
  /\ userToRoom s1 = userToRoom s /\ sio s1 = sio s /\ outbox s1 = outbox s.
Proof. cbn. destruct (truthy_opt userName); [destruct userName|]; cbn; tauto. Qed.

(** C6 (the code breaks it), in two runs. First: [u1] hosts the gated room
    [R1] on the connected socket [s1], which is in the room and in the room
    of its own id, but the deny handler of another room ([R2], where [u1]
    had asked to enter) has deleted the session binding of [s1]; when [u3]
    asks to enter [R1] the requester is told its position and no
    [waiting-room-update] is emitted: the host is not notified. Second:
    [u2] and [u3] are waiting for [R1], in this order; [u2] asks again, its
    entry is updated in place (still first), and it is told position 2, the
    size of the list. *)
Theorem join_waiting_host_not_notified :
  (run initial demo_denied_host_events = Done demo_denied_host
   /\ connected "s1" demo_denied_host = true
   /\ socket_rooms "s1" demo_denied_host = ["s1"; "R1"]
   /\ JMap.get "R1" (roomMetadata demo_denied_host)
      = Some (mkRoomMeta true (Some "Standup") (Some "u1") false true)
   /\ JMap.get "R1" (rooms demo_denied_host) = Some ["u1"]
   /\ JMap.get "s1" (socketToUser demo_denied_host) = None
   /\ exists s',
        step demo_denied_host ("s3", JoinRoom "R1" "u3" None None) = Done s'
        /\ waiting_of "R1" s' = [("u3", mkWaitingUser "u3" "s3" "u3")]
        /\ outbox s' = [mkEmission (ToSocket "s3") (WaitingRoom "R1" 1) ["s3"]]
        /\ filter is_waiting_room_update (outbox s') = [])
  /\ (run initial demo_two_waiting_events = Done demo_two_waiting
      /\ JMap.keys (waiting_of "R1" demo_two_waiting) = ["u2"; "u3"]
      /\ exists s',
           step demo_two_waiting ("s2", JoinRoom "R1" "u2" None None) = Done s'
           /\ JMap.keys (waiting_of "R1" s') = ["u2"; "u3"]
           /\ outbox s' =
              [mkEmission (ToSocket "s2") (WaitingRoom "R1" 2) ["s2"];
               mkEmission (ToRoom "s1")
                          (WaitingRoomUpdate "R1" [("u2", "u2"); ("u3", "u3")]) ["s1"]]).
Proof.
  split.
  - split; [vm_compute; reflexivity|]. repeat (split; [reflexivity|]).
    eexists. split; [reflexivity|]. repeat split.
  - split; [vm_compute; reflexivity|]. split; [reflexivity|].
    eexists. split; [reflexivity|]. split; reflexivity.
Qed.

(** What the waiting-room branch does in general: a join of an existing,
    unlocked room with the waiting room on, by a user who is not its host,
    stores the waiting entry of that user (a new entry goes last, an
    existing one is replaced in place), sends the requester [waiting-room]
    with the size of the waiting list, sends [waiting-room-update] with the
    list to the first socket bound to the host, when there is one, and
    leaves room membership as it was. *)
Theorem join_waiting_room (s : State) (sid r u : string) (config : option RoomConfig)
    (userName : option string) (meta : RoomMeta) :
  JMap.get r (roomMetadata s) = Some meta ->
  isLocked meta = false ->
  waitingRoom meta = true ->
  hostId meta <> Some u ->
  let entry := mkWaitingUser u sid (shown_name userName u) in
  let before := waiting_of r s in
  let after := JMap.set u entry before in
  exists s',
    step s (sid, JoinRoom r u config userName) = Done s'
    /\ waiting_of r s' = after
    /\ JMap.get u after = Some entry
    /\ (JMap.get u before = None ->
        after = before ++ [(u, entry)] /\ JMap.size after = S (JMap.size before))
    /\ outbox s' =
       mkEmission (ToSocket sid) (WaitingRoom r (JMap.size after)) [sid]
       :: emitted_if (socket_of_user (hostId meta) (JMap.set sid u (socketToUser s)))
                     (WaitingRoomUpdate r (waiting_list after)) s
    /\ rooms s' = rooms s.
Proof.
  intros EM EL EW Hhost entry before after.
  eexists. split; [reflexivity|].
  cbn [fst snd]. unfold on_join_room.
  set (s1 := if truthy_opt userName then _ else _).
  destruct (names_roomMetadata_frame userName u (with_outbox [] s))
    as (ER1 & EM1 & EW1 & ES1 & _ & EI1 & EO1).
  fold s1 in ER1, EM1, EW1, ES1, EI1, EO1. cbn in ER1, EM1, EW1, ES1, EI1, EO1.
  clearbody s1.
  rewrite EM1, EM. cbn [opt_flag meta_hostId]. rewrite EL, EW.
  assert (Eh : opt_eqb (hostId meta) (Some u) = false).
  { destruct (opt_eqb _ _) eqn:E; [|reflexivity]. apply opt_eqb_eq in E. contradiction. }
  rewrite Eh. cbn [negb andb].
  destruct (join_waiting_spec sid r u userName (hostId meta) s1) as (HW & HR & _ & HO).
  assert (Ebefore : waiting_of r s1 = before)
    by (unfold before, waiting_of; rewrite EW1; reflexivity).
  rewrite Ebefore in HW, HO. fold entry in HW, HO. fold after in HW, HO.
  split; [unfold waiting_of; rewrite HW; reflexivity|].
  split; [apply JMapFacts.get_set_same|].
  split.
  - intros Hnew. unfold after. rewrite set_new by assumption.
    split; [reflexivity|]. unfold JMap.size. rewrite length_app. cbn. lia.
  - split; [|congruence].
    rewrite HO, EO1, ES1. cbn [app]. f_equal.
    apply emitted_if_sio. assumption.
Qed.

Lemma join_waiting_room_witness :
  JMap.get "R1" (roomMetadata demo_gated)
  = Some (mkRoomMeta true (Some "Standup") (Some "u1") false true)
  /\ hostId (mkRoomMeta true (Some "Standup") (Some "u1") false true) <> Some "u3"
  /\ exists s',
       step demo_gated ("s2", JoinRoom "R1" "u3" None None) = Done s'
       /\ waiting_of "R1" s' = [("u3", mkWaitingUser "u3" "s2" "u3")]
       /\ outbox s' =
          [mkEmission (ToSocket "s2") (WaitingRoom "R1" 1) ["s2"];
           mkEmission (ToRoom "s1") (WaitingRoomUpdate "R1" [("u3", "u3")]) ["s1"]]
       /\ rooms s' = rooms demo_gated.
Proof.
  split; [reflexivity|]. split; [discriminate|].
  destruct (join_waiting_room demo_gated "s2" "R1" "u3" None None
              (mkRoomMeta true (Some "Standup") (Some "u1") false true))
    as (s' & Hstep & Hw & _ & _ & Ho & Hr);
    [reflexivity | reflexivity | reflexivity | discriminate |].
  exists s'. repeat split; assumption.
Defined.

(** ** The sockets of a room *)

Lemma transfer_host_frame r ru s :
  let s' := transfer_host r ru s in
  sio s' = sio s /\ socketToUser s' = socketToUser s
  /\ userToRoom s' = userToRoom s /\ userNames s' = userNames s.
Proof.
  cbn zeta. unfold transfer_host. unfold_emit.
  repeat break_match; cbn; tauto.
Qed.

Lemma close_room_sio r s : sio (close_room r s) = sio s.
Proof.
  unfold close_room. cbn. destruct (JMap.get r (waitingRooms s)); cbn; [|reflexivity].
  match goal with |- context [fold_left ?f ?l ?s0] =>
    destruct (close_one_fold_frame r l s0) as (_ & _ & _ & E & _) end.
  exact E.
Qed.

Lemma remove_member_sio r u s : sio (remove_member r u s) = sio s.
Proof.
  unfold remove_member.
  destruct (JMap.get r (rooms s)) as [m|]; [|reflexivity].
  destruct (_ && _), (Nat.eqb _ 0);
    rewrite ?close_room_sio;
    try (destruct (transfer_host_frame r (JSet.del u m)
                     (with_rooms (JMap.set r (JSet.del u m) (rooms s)) s)) as (E & _);
         rewrite E);
    reflexivity.
Qed.

Lemma leave_waiting_frame u s :
  let s' := leave_waiting u s in
  sio s' = sio s /\ socketToUser s' = socketToUser s /\ userToRoom s' = userToRoom s
  /\ filter is_host_changed (outbox s') = filter is_host_changed (outbox s)
  /\ filter is_room_closed (outbox s') = filter is_room_closed (outbox s).
Proof.
  cbn zeta. unfold leave_waiting. unfold_emit.
  repeat break_match; cbn; rewrite ?filter_app, ?app_nil_r; tauto.
Qed.

Lemma join_waiting_sio sid r u userName host s :
  sio (join_waiting sid r u userName host s) = sio s.
Proof. unfold join_waiting. unfold_emit. repeat break_match; reflexivity. Qed.

Lemma deny_user_frame sid r u s :
  let s' := on_deny_user sid r u s in
  rooms s' = rooms s /\ userToRoom s' = userToRoom s /\ roomMetadata s' = roomMetadata s
  /\ userNames s' = userNames s /\ sio s' = sio s.
Proof.
  cbn zeta. unfold on_deny_user. unfold_emit.
  repeat break_match; cbn; tauto.
Qed.

Lemma relay_frame sid m s :
  let s' := relay_to_own_room sid m s in
  rooms s' = rooms s /\ roomMetadata s' = roomMetadata s
  /\ waitingRooms s' = waitingRooms s /\ socketToUser s' = socketToUser s
  /\ userToRoom s' = userToRoom s /\ userNames s' = userNames s /\ sio s' = sio s.
Proof.
  cbn zeta. unfold relay_to_own_room. unfold_emit.
  repeat break_match; cbn; tauto.
Qed.

Lemma join_direct_sio sid r u config isNewRoom s :
  sio (join_direct sid r u config isNewRoom s) = sio (socket_join sid r s).
Proof.
  unfold join_direct, create_room. unfold_emit.
  destruct isNewRoom; simpl_fields; repeat break_match; reflexivity.
Qed.

(** Every handler changes the socket registry by [set] and [delete] only. *)
Section SocketsClosed.
Variable P : JMap.t JSet.t -> Prop.
Hypothesis P_set : forall k v m, P m -> P (JMap.set k v m).
Hypothesis P_del : forall k m, P m -> P (JMap.del k m).

Lemma sockets_closed_join sid r s : P (sio s) -> P (sio (socket_join sid r s)).
Proof.
  intros H. rewrite socket_join_eq. simpl_fields.
  destruct (JMap.get sid (sio s)); [apply P_set|]; exact H.
Qed.

Lemma sockets_closed_handle sid ev s s' :
  handle sid ev s = Done s' -> P (sio s) -> P (sio s').
Proof.
  intros Hh H.
  destruct ev as [ | | cb | rid uid cfg un | rid uid | rid uid | rid | rid
                 | a b c d | a b c d | a b | a b | a b | a b | a b | a | rid uid | ];
    cbn [handle] in Hh; try (injection Hh as <-);
    try (unfold_emit; simpl_fields; exact H).
  - unfold_emit. simpl_fields. apply P_set. exact H.
  - destruct cb; exact H.
  - unfold on_join_room.
    set (s1 := if truthy_opt un then _ else _).
    assert (H1 : P (sio s1)).
    { subst s1. destruct (truthy_opt un); [destruct un|]; exact H. }
    clearbody s1. destruct (opt_flag isLocked _); [exact H1|].
    destruct (_ && _).
    + rewrite join_waiting_sio. exact H1.
    + rewrite join_direct_sio. apply sockets_closed_join. exact H1.
  - unfold on_admit_user.
    destruct (negb _); [exact H|].
    destruct (JMap.get rid (waitingRooms s)) as [w|]; [|exact H].
    destruct (JMap.get uid w) as [wu|]; [|exact H].
    unfold_emit. simpl_fields.
    destruct (connected _ _); simpl_fields; [|exact H].
    set (s1 := with_waitingRooms _ s).
    assert (H1 : P (sio (socket_join (socketId wu) rid s1)))
      by (apply sockets_closed_join; exact H).
    destruct (JMap.get rid (rooms _)); simpl_fields; exact H1.
  - destruct (deny_user_frame sid rid uid s) as (_ & _ & _ & _ & E).
    rewrite E. exact H.
  - revert Hh. unfold on_toggle_lock. destruct (negb _); [intros [= <-]; exact H|].
    destruct (JMap.get rid (roomMetadata s)); [|discriminate].
    intros [= <-]. exact H.
  - revert Hh. unfold on_toggle_waiting_room. destruct (negb _); [intros [= <-]; exact H|].
    destruct (JMap.get rid (roomMetadata s)); [|discriminate].
    intros [= <-]. exact H.
  - destruct (relay_frame sid (OfferMsg (JMap.get sid (socketToUser s)) b c d a) s)
      as (_ & _ & _ & _ & _ & _ & E). rewrite E. exact H.
  - destruct (relay_frame sid (AnswerMsg (JMap.get sid (socketToUser s)) b c d a) s)
      as (_ & _ & _ & _ & _ & _ & E). rewrite E. exact H.
  - destruct (relay_frame sid (IceCandidateMsg (JMap.get sid (socketToUser s)) b a) s)
      as (_ & _ & _ & _ & _ & _ & E). rewrite E. exact H.
  - unfold on_leave_room. unfold_emit. simpl_fields.
    rewrite remove_member_sio, socket_leave_eq. simpl_fields.
    destruct (JMap.get sid (sio s)); [apply P_set|]; exact H.
  - unfold on_disconnect.
    set (s0 := with_sio _ s).
    assert (H0 : P (sio s0)) by (subst s0; simpl_fields; apply P_del; exact H).
    clearbody s0.
    destruct (JMap.get sid (socketToUser s0)) as [u|]; [|exact H0].
    destruct (truthy u); [|exact H0]. simpl_fields.
    destruct (leave_waiting_frame u s0) as (E1 & _).
    destruct (JMap.get u (userToRoom s0)) as [r|]; [|rewrite E1; exact H0].
    destruct (truthy r); [|rewrite E1; exact H0].
    unfold disconnect_room. unfold_emit. simpl_fields.
    rewrite remove_member_sio, E1. exact H0.
Qed.

Lemma sockets_closed_run events : forall s s',
  run s events = Done s' -> P (sio s) -> P (sio s').
Proof.
  induction events as [|e rest IH]; intros s s'; cbn.
  - intros [= <-]. auto.
  - destruct (step s e) as [s1|] eqn:E; [|discriminate].
    intros Hr H. apply (IH s1 s' Hr). unfold step in E.
    apply (sockets_closed_handle _ _ _ _ E). exact H.
Qed.
End SocketsClosed.

(** A connected socket is in the registry once. *)
Lemma reachable_sio_keys s : reachable s -> NoDup (JMap.keys (sio s)).
Proof.
  intros [events H].
  apply (sockets_closed_run (fun m => NoDup (JMap.keys m))
           (fun k v m => NoDup_keys_set k v m) (fun k m => NoDup_keys_del k m)
           events initial s H).
  constructor.
Qed.

Lemma has_add x y m : JSet.has x (JSet.add y m) = (x =? y) || JSet.has x m.
Proof.
  unfold JSet.add. destruct (JSet.has y m) eqn:E.
  - destruct (x =? y) eqn:Exy; [|reflexivity].
    apply String.eqb_eq in Exy. subst. rewrite E. reflexivity.
  - unfold JSet.has. rewrite existsb_app. cbn. rewrite orb_false_r. apply orb_comm.
Qed.

Lemma room_sockets_except_entries r e s x :
  In x (room_sockets_except r e s) <->
  exists joined,
    In (x, joined) (sio s) /\ JSet.has r joined = true /\ JSet.has e joined = false.
Proof.
  unfold room_sockets_except, JMap.keys. rewrite in_map_iff. split.
  - intros ([k j] & <- & Hin). apply filter_In in Hin. destruct Hin as [Hin Hf].
    cbn [fst snd] in *. apply andb_true_iff in Hf. destruct Hf as [H1 H2].
    apply negb_true_iff in H2. eauto.
  - intros (j & Hin & H1 & H2). exists (x, j). split; [reflexivity|].
    apply filter_In. split; [exact Hin|]. cbn [snd]. rewrite H1, H2. reflexivity.
Qed.

(** The recipients of [socket.to(room)], socket by socket. *)
Lemma room_sockets_except_In r e s x :
  NoDup (JMap.keys (sio s)) ->
  (In x (room_sockets_except r e s) <->
   JSet.has r (socket_rooms x s) = true /\ JSet.has e (socket_rooms x s) = false).
Proof.
  intros Hnd. unfold room_sockets_except, socket_rooms, JMap.keys.
  rewrite in_map_iff. split.
  - intros ([k j] & <- & Hin). apply filter_In in Hin. destruct Hin as [Hin Hf].
    cbn [fst snd] in *. rewrite (NoDup_keys_get k j (sio s) Hnd Hin).
    apply andb_true_iff in Hf. destruct Hf as [H1 H2].
    apply negb_true_iff in H2. auto.
  - intros [H1 H2]. destruct (JMap.get x (sio s)) as [j|] eqn:E; [|discriminate].
    exists (x, j). split; [reflexivity|]. apply filter_In.
    split; [apply JMapFacts.get_In; exact E|]. cbn [snd]. rewrite H1, H2. reflexivity.
Qed.

(** The sender of [socket.to] is left out while it is in the room of its
    own id. *)
Lemma sender_left_out r sid s :
  NoDup (JMap.keys (sio s)) ->
  JSet.has sid (socket_rooms sid s) = true ->
  ~ In sid (room_sockets_except r sid s).
Proof.
  intros Hnd Hown Hin. apply room_sockets_except_In in Hin; [|exact Hnd].
  destruct Hin as [_ H]. congruence.
Qed.

Lemma filter_set_out {V} (P : string * V -> bool) k v (m : JMap.t V) :
  P (k, v) = false -> (forall v0, In (k, v0) m -> P (k, v0) = false) ->
  JMap.get k m <> None ->
  filter P (JMap.set k v m) = filter P m.
Proof.
  intros Hv. induction m as [|[k0 v0] m IH]; intros Hall Hget; cbn in *; [congruence|].
  destruct (k =? k0) eqn:E.
  - apply String.eqb_eq in E. subst k0. cbn. rewrite Hv.
    rewrite (Hall v0) by auto. reflexivity.
  - cbn. rewrite IH by auto. reflexivity.
Qed.

(** A socket that is in the room of its own id changes nothing in the
    recipients of its [socket.to] by joining a room. *)
Lemma except_after_join r sid s :
  NoDup (JMap.keys (sio s)) ->
  JSet.has sid (socket_rooms sid s) = true ->
  room_sockets_except r sid (socket_join sid r s) = room_sockets_except r sid s.
Proof.
  intros Hnd Hown. rewrite socket_join_eq. unfold room_sockets_except, socket_rooms in *.
  simpl_fields.
  destruct (JMap.get sid (sio s)) as [j|] eqn:E; [|reflexivity].
  rewrite filter_set_out; [reflexivity | | | congruence].
  - cbn [snd]. rewrite !has_add, Hown, orb_true_r, andb_false_r. reflexivity.
  - intros v0 Hin. cbn [snd].
    rewrite (NoDup_keys_get sid v0 (sio s) Hnd Hin) in E. injection E as ->.
    rewrite Hown, andb_false_r. reflexivity.
Qed.

Lemma room_sockets_except_sio r e s s' :
  sio s' = sio s -> room_sockets_except r e s' = room_sockets_except r e s.
Proof. unfold room_sockets_except. intros ->. reflexivity. Qed.

Lemma except_join_sio r e sid s s' :
  sio s' = sio s ->
  room_sockets_except r e (socket_join sid r s')
  = room_sockets_except r e (socket_join sid r s).
Proof.
  intros E. apply room_sockets_except_sio. rewrite !socket_join_eq. simpl_fields.
  rewrite E. reflexivity.
Qed.

Lemma socket_rooms_sio x s s' : sio s' = sio s -> socket_rooms x s' = socket_rooms x s.
Proof. unfold socket_rooms. intros ->. reflexivity. Qed.

(** ** Creating and joining a room *)


Lemma join_direct_existing sid r u config s meta members :
  JMap.get r (roomMetadata s) = Some meta ->
  JMap.get r (rooms s) = Some members ->
  let s' := join_direct sid r u config false s in
  outbox s' =
    outbox s
    ++ [mkEmission (ToRoomExcept r sid) (UserConnected u)
                   (room_sockets_except r sid (socket_join sid r s));
        mkEmission (ToSocket sid)
                   (RoomJoined r (opt_eqb (hostId meta) (Some u))
                      (mkRoomSettings (isLocked meta) (waitingRoom meta) (hostId meta)))
                   [sid];
        mkEmission ToAll (RoomsUpdate (getPublicRooms s')) (JMap.keys (sio s'))]
  /\ JMap.get r (rooms s') = Some (JSet.add u members)
  /\ JMap.get sid (socketToUser s') = Some u
  /\ JMap.get u (userToRoom s') = Some r
  /\ roomMetadata s' = roomMetadata s.
Proof.
  intros EM ER. cbn zeta. unfold join_direct.
  set (s1 := socket_join sid r s).
  assert (E1 : rooms s1 = rooms s /\ roomMetadata s1 = roomMetadata s
               /\ outbox s1 = outbox s /\ socketToUser s1 = socketToUser s
               /\ userToRoom s1 = userToRoom s)
    by (subst s1; rewrite socket_join_eq; cbn; tauto).
  destruct E1 as (R1 & M1 & O1 & S1 & U1). clearbody s1.
  unfold getRoomSettings. unfold_emit. cbn. rewrite R1, ER. cbn.
  rewrite M1, EM, O1, S1, U1. cbn.
  rewrite !JMapFacts.get_set_same, <- !app_assoc. cbn.
  repeat split.
Qed.




(** ** Host handoff *)

Lemma transfer_host_spec r newHost rest meta s :
  JMap.get r (roomMetadata s) = Some meta ->
  let s' := transfer_host r (newHost :: rest) s in
  roomMetadata s' = JMap.set r (set_hostId (Some newHost) meta) (roomMetadata s)
  /\ filter is_host_changed (outbox s')
     = filter is_host_changed (outbox s)
       ++ emitted_if (socket_of_user (Some newHost) (socketToUser s)) (HostChanged true) s.
Proof.
  intros EM. cbn zeta. unfold transfer_host, emitted_if. cbn [JSet.first hd_error].
  rewrite EM. unfold_emit. cbn.
  destruct (socket_of_user (Some newHost) (socketToUser s)) as [hs|];
    [destruct (truthy hs)|]; cbn; rewrite ?app_nil_r; auto.
  repeat break_match; cbn; rewrite ?filter_app; cbn; rewrite ?app_nil_r; auto.
Qed.

Lemma remove_member_handoff r u s meta members newHost rest :
  JMap.get r (roomMetadata s) = Some meta ->
  hostId meta = Some u ->
  JMap.get r (rooms s) = Some members ->
  JSet.del u members = newHost :: rest ->
  let s' := remove_member r u s in
  JMap.get r (roomMetadata s') = Some (set_hostId (Some newHost) meta)
  /\ JMap.get r (rooms s') = Some (newHost :: rest)
  /\ filter is_host_changed (outbox s')
     = filter is_host_changed (outbox s)
       ++ emitted_if (socket_of_user (Some newHost) (socketToUser s)) (HostChanged true) s.
Proof.
  intros EM Eh ER Edel. cbn zeta. unfold remove_member.
  rewrite ER, EM, Edel. cbn [meta_hostId]. rewrite Eh.
  cbn [opt_eqb JSet.size List.length Nat.ltb Nat.leb Nat.eqb].
  rewrite String.eqb_refl. cbn [andb].
  set (s1 := with_rooms _ s).
  destruct (transfer_host_spec r newHost rest meta s1 EM) as (HM & HO).
  rewrite HM, HO, transfer_host_rooms. subst s1. cbn.
  rewrite !JMapFacts.get_set_same. auto.
Qed.

Lemma leave_room_handoff sid r u s meta members newHost rest :
  JMap.get r (roomMetadata s) = Some meta ->
  hostId meta = Some u ->
  JMap.get r (rooms s) = Some members ->
  JSet.del u members = newHost :: rest ->
  let s' := on_leave_room sid r u (with_outbox [] s) in
  JMap.get r (roomMetadata s') = Some (set_hostId (Some newHost) meta)
  /\ JMap.get r (rooms s') = Some (newHost :: rest)
  /\ filter is_host_changed (outbox s')
     = emitted_if (socket_of_user (Some newHost) (socketToUser s)) (HostChanged true) s'.
Proof.
  intros EM Eh ER Edel. cbn zeta. unfold on_leave_room.
  set (s1 := socket_leave sid r (with_outbox [] s)).
  assert (E1 : rooms s1 = rooms s /\ roomMetadata s1 = roomMetadata s
               /\ outbox s1 = [] /\ socketToUser s1 = socketToUser s)
    by (subst s1; rewrite socket_leave_eq; cbn; tauto).
  destruct E1 as (R1 & M1 & O1 & S1).
  destruct (remove_member_handoff r u s1 meta members newHost rest)
    as (HM & HR & HO); try congruence.
  pose proof (remove_member_sio r u s1) as HI.
  clearbody s1. rewrite O1, S1 in HO. cbn [filter app] in HO.
  unfold_emit. cbn. rewrite filter_app, filter_app, HO. cbn. rewrite !app_nil_r.
  repeat split; try assumption.
  apply eq_sym, emitted_if_sio. cbn. exact HI.
Qed.

Lemma disconnect_handoff sid r u s meta members newHost rest :
  JMap.get sid (socketToUser s) = Some u -> truthy u = true ->
  JMap.get u (userToRoom s) = Some r -> truthy r = true ->
  JMap.get r (roomMetadata s) = Some meta ->
  hostId meta = Some u ->
  JMap.get r (rooms s) = Some members ->
  JSet.del u members = newHost :: rest ->
  let s' := on_disconnect sid (with_outbox [] s) in
  JMap.get r (roomMetadata s') = Some (set_hostId (Some newHost) meta)
  /\ JMap.get r (rooms s') = Some (newHost :: rest)
  /\ filter is_host_changed (outbox s')
     = emitted_if (socket_of_user (Some newHost) (socketToUser s)) (HostChanged true) s'.
Proof.
  intros ES Tu EU Tr EM Eh ER Edel. cbn zeta. unfold on_disconnect.
  cbn [socketToUser with_sio with_outbox]. rewrite ES, Tu.
  cbn [userToRoom with_sio with_outbox]. rewrite EU, Tr.
  set (s0 := with_sio _ (with_outbox [] s)).
  destruct (leave_waiting_frame u s0) as (I1 & S1 & _ & O1 & _).
  pose proof (leave_waiting_rooms u s0) as R1.
  pose proof (leave_waiting_roomMetadata u s0) as M1.
  set (s1 := leave_waiting u s0) in *.
  destruct (remove_member_handoff r u s1 meta members newHost rest)
    as (HM & HR & HO); try (subst s0; cbn in *; congruence).
  pose proof (remove_member_sio r u s1) as HI.
  clearbody s1. rewrite O1, S1 in HO. subst s0. cbn in HO.
  unfold disconnect_room. unfold_emit. cbn.
  rewrite filter_app, filter_app, HO. cbn. rewrite !app_nil_r.
  repeat split; try assumption.
  apply eq_sym, emitted_if_sio. cbn. exact HI.
Qed.

(** C4 (the code breaks it), in two runs. First: [u1] hosts [R1] and
    leaves; the remaining member [u2] becomes host, but the deny handler of
    another room ([R3], where [u2] had asked to enter) has deleted the
    binding of [u2]'s socket [s2], so no [host-changed] is emitted although
    [s2] is connected, in the room and in the room of its own id: the new
    host is not told. Second: [u1] hosts [R1] with the member [u2] and has
    also joined [R2] from the same socket; when that socket disconnects,
    only [R2], the current room, is cleaned: [R1] keeps [u1] as member and
    as host although no socket is bound to [u1] any more, and nobody
    receives [host-changed]. *)
Theorem host_leaves_new_host_not_told :
  (run initial demo_denied_member_events = Done demo_denied_member
   /\ JMap.get "R1" (rooms demo_denied_member) = Some ["u1"; "u2"]
   /\ meta_hostId (JMap.get "R1" (roomMetadata demo_denied_member)) = Some "u1"
   /\ room_sockets "R1" demo_denied_member = ["s1"; "s2"]
   /\ socket_rooms "s2" demo_denied_member = ["s2"; "R1"]
   /\ JMap.get "s2" (socketToUser demo_denied_member) = None
   /\ exists s',
        step demo_denied_member ("s1", LeaveRoom "R1" "u1") = Done s'
        /\ JMap.get "R1" (rooms s') = Some ["u2"]
        /\ meta_hostId (JMap.get "R1" (roomMetadata s')) = Some "u2"
        /\ connected "s2" s' = true
        /\ filter is_host_changed (outbox s') = [])
  /\ (run initial demo_host_two_rooms_events = Done demo_host_two_rooms
      /\ JMap.get "R1" (rooms demo_host_two_rooms) = Some ["u1"; "u2"]
      /\ meta_hostId (JMap.get "R1" (roomMetadata demo_host_two_rooms)) = Some "u1"
      /\ socketToUser demo_host_two_rooms = [("s1", "u1"); ("s2", "u2")]
      /\ exists s',
           step demo_host_two_rooms ("s1", Disconnect) = Done s'
           /\ connected "s1" s' = false
           /\ socketToUser s' = [("s2", "u2")]
           /\ JMap.get "R1" (rooms s') = Some ["u1"; "u2"]
           /\ meta_hostId (JMap.get "R1" (roomMetadata s')) = Some "u1"
           /\ absent "R2" s'
           /\ filter is_host_changed (outbox s') = []).
Proof.
  split.
  - split; [vm_compute; reflexivity|]. repeat (split; [reflexivity|]).
    eexists. split; [reflexivity|]. repeat split.
  - split; [vm_compute; reflexivity|]. repeat (split; [reflexivity|]).
    eexists. split; [reflexivity|]. repeat split.
Qed.

(** What holds in general: in every state the authority can reach, every
    room has a host and the host is in its member set. When a leave-room,
    or the disconnect of a socket whose user has the room as current room,
    takes the host out of a room and members remain, the host field becomes
    the first remaining member; [host-changed] with [isHost] true is
    emitted once, to the first socket bound to the new host, when such a
    binding exists, and is not emitted otherwise. *)
Theorem host_is_member_and_handoff (s : State) :
  reachable s ->
  (forall r meta,
      JMap.get r (roomMetadata s) = Some meta ->
      exists h members,
        hostId meta = Some h /\ JMap.get r (rooms s) = Some members /\ In h members)
  /\ (forall e r u meta members newHost rest,
        departs e r u s ->
        JMap.get r (roomMetadata s) = Some meta ->
        hostId meta = Some u ->
        JMap.get r (rooms s) = Some members ->
        JSet.del u members = newHost :: rest ->
        exists s',
          step s e = Done s'
          /\ JMap.get r (roomMetadata s') = Some (set_hostId (Some newHost) meta)
          /\ JMap.get r (rooms s') = Some (newHost :: rest)
          /\ filter is_host_changed (outbox s')
             = emitted_if (socket_of_user (Some newHost) (socketToUser s))
                          (HostChanged true) s').
Proof.
  intros Hreach. split.
  - intros r meta EM.
    exact (Inv3_meta_exists _ _ _ _ _ (Inv_reachable s Hreach) EM).
  - intros [sid ev] r u meta members newHost rest Hdep EM Eh ER Edel.
    unfold departs in Hdep. cbn [fst snd] in Hdep.
    destruct ev; try contradiction.
    + destruct Hdep as [-> ->].
      eexists. split; [reflexivity|].
      eapply leave_room_handoff; eauto.
    + destruct Hdep as (ES & Tu & EU & Tr).
      eexists. split; [reflexivity|].
      eapply disconnect_handoff; eauto.
Qed.

Lemma demo_three_reachable : reachable demo_three.
Proof. exists demo_three_events. reflexivity. Qed.

Lemma host_is_member_and_handoff_witness :
  reachable demo_three
  /\ departs ("s1", Disconnect) "R1" "u1" demo_three
  /\ JMap.get "R1" (roomMetadata demo_three)
     = Some (mkRoomMeta false (Some "Room R1") (Some "u1") false false)
  /\ JMap.get "R1" (rooms demo_three) = Some ["u1"; "u2"; "u3"]
  /\ JSet.del "u1" ["u1"; "u2"; "u3"] = ["u2"; "u3"]
  /\ exists s',
       step demo_three ("s1", Disconnect) = Done s'
       /\ JMap.get "R1" (roomMetadata s')
          = Some (mkRoomMeta false (Some "Room R1") (Some "u2") false false)
       /\ JMap.get "R1" (rooms s') = Some ["u2"; "u3"]
       /\ filter is_host_changed (outbox s')
          = [mkEmission (ToRoom "s2") (HostChanged true) ["s2"]].
Proof.
  split; [exact demo_three_reachable|].
  split; [cbn; repeat split|].
  split; [reflexivity|]. split; [reflexivity|]. split; [reflexivity|].
  destruct (host_is_member_and_handoff demo_three demo_three_reachable) as [_ H].
  destruct (H ("s1", Disconnect) "R1" "u1"
              (mkRoomMeta false (Some "Room R1") (Some "u1") false false)
              ["u1"; "u2"; "u3"] "u2" ["u3"])
    as (s' & Hstep & HM & HR & HO);
    [cbn; repeat split | reflexivity | reflexivity | reflexivity | reflexivity |].
  exists s'. split; [exact Hstep|]. split; [exact HM|]. split; [exact HR|].
  rewrite HO. injection Hstep as <-. reflexivity.
Defined.

(** ** Closing an empty room *)

Lemma close_one_outbox r s w e : In e (outbox s) -> In e (outbox (close_one r s w)).
Proof.
  unfold close_one. destruct (connected (socketId w) s); [|auto].
  unfold_emit. cbn. intros H. apply in_or_app. auto.
Qed.

Lemma close_fold_outbox r l : forall s e,
  In e (outbox s) -> In e (outbox (fold_left (close_one r) l s)).
Proof.
  induction l as [|w l IH]; intros s e H; cbn; [assumption|].
  apply IH, close_one_outbox, H.
Qed.

Lemma close_one_connected r s w x : connected x (close_one r s w) = connected x s.
Proof.
  unfold close_one, connected. destruct (JMap.has (socketId w) (sio s)); reflexivity.
Qed.

Lemma close_fold_emits r l : forall s w,
  In w l -> connected (socketId w) s = true ->
  In (mkEmission (ToSocket (socketId w)) (RoomClosed r) [socketId w])
     (outbox (fold_left (close_one r) l s)).
Proof.
  induction l as [|w0 l IH]; intros s w Hin Hc; [contradiction|].
  cbn. destruct Hin as [->|Hin].
  - apply close_fold_outbox. unfold close_one. rewrite Hc.
    unfold_emit. cbn. apply in_or_app. right. now left.
  - apply IH; [assumption|]. rewrite close_one_connected. exact Hc.
Qed.

Lemma close_room_emits r s waiting k w :
  JMap.get r (waitingRooms s) = Some waiting ->
  In (k, w) waiting ->
  connected (socketId w) s = true ->
  In (mkEmission (ToSocket (socketId w)) (RoomClosed r) [socketId w])
     (outbox (close_room r s)).
Proof.
  intros EW Hin Hc. unfold close_room. cbn. rewrite EW. cbn.
  apply close_fold_emits; [|exact Hc].
  unfold JMap.values. apply in_map_iff. exists (k, w). auto.
Qed.

Lemma close_room_absent r s : absent r (close_room r s).
Proof.
  unfold absent.
  rewrite close_room_rooms, close_room_roomMetadata, get_close_room_waitingRooms.
  rewrite !JMapFacts.get_del_same, String.eqb_refl. auto.
Qed.

Lemma remove_member_last r u s members :
  JMap.get r (rooms s) = Some members ->
  JSet.del u members = [] ->
  remove_member r u s = close_room r (with_rooms (JMap.set r [] (rooms s)) s).
Proof.
  intros ER Edel. unfold remove_member. rewrite ER, Edel. cbn.
  rewrite andb_false_r. reflexivity.
Qed.

Lemma absent_frame r s s' :
  rooms s' = rooms s -> roomMetadata s' = roomMetadata s ->
  waitingRooms s' = waitingRooms s -> absent r s -> absent r s'.
Proof. unfold absent. intros -> -> ->. auto. Qed.

Lemma leave_room_last sid r u s members :
  JMap.get r (rooms s) = Some members ->
  JSet.del u members = [] ->
  let s' := on_leave_room sid r u (with_outbox [] s) in
  absent r s'
  /\ forall k w,
       In (k, w) (waiting_of r s) -> connected (socketId w) s' = true ->
       In (mkEmission (ToSocket (socketId w)) (RoomClosed r) [socketId w]) (outbox s').
Proof.
  intros ER Edel. cbn zeta. unfold on_leave_room.
  set (s1 := socket_leave sid r (with_outbox [] s)).
  assert (E1 : rooms s1 = rooms s /\ waitingRooms s1 = waitingRooms s)
    by (subst s1; rewrite socket_leave_eq; cbn; tauto).
  destruct E1 as (R1 & W1).
  rewrite (remove_member_last r u s1 members) by congruence.
  set (s2 := with_rooms _ s1).
  pose proof (close_room_absent r s2) as HA.
  pose proof (close_room_sio r s2) as HI.
  split.
  - revert HA. apply absent_frame; reflexivity.
  - intros k w Hin Hc. unfold_emit. cbn.
    apply in_or_app. left. apply in_or_app. left.
    unfold waiting_of in Hin.
    destruct (JMap.get r (waitingRooms s)) as [waiting|] eqn:EW; [|contradiction].
    apply (close_room_emits r s2 waiting k w); [subst s2; cbn; congruence|assumption|].
    unfold connected in *. cbn in Hc. rewrite HI in Hc. exact Hc.
Qed.

Lemma In_del_entry {V} u k (w : V) m :
  In (k, w) m -> k <> u -> In (k, w) (JMap.del u m).
Proof.
  intros Hin Hne. unfold JMap.del. apply filter_In. split; [assumption|].
  cbn. apply negb_true_iff, String.eqb_neq. assumption.
Qed.

Lemma disconnect_last sid r u s members :
  JMap.get sid (socketToUser s) = Some u -> truthy u = true ->
  JMap.get u (userToRoom s) = Some r -> truthy r = true ->
  JMap.get r (rooms s) = Some members ->
  JSet.del u members = [] ->
  let s' := on_disconnect sid (with_outbox [] s) in
  absent r s'
  /\ forall k w,
       In (k, w) (waiting_of r s) -> k <> u -> connected (socketId w) s' = true ->
       In (mkEmission (ToSocket (socketId w)) (RoomClosed r) [socketId w]) (outbox s').
Proof.
  intros ES Tu EU Tr ER Edel. cbn zeta. unfold on_disconnect.
  cbn [socketToUser with_sio with_outbox]. rewrite ES, Tu.
  cbn [userToRoom with_sio with_outbox]. rewrite EU, Tr.
  set (s0 := with_sio _ (with_outbox [] s)).
  pose proof (leave_waiting_rooms u s0) as R1.
  pose proof (leave_waiting_waitingRooms u s0) as W1.
  destruct (leave_waiting_frame u s0) as (I1 & _).
  set (s1 := leave_waiting u s0) in *.
  unfold disconnect_room.
  rewrite (remove_member_last r u s1 members) by (subst s0; cbn in *; congruence).
  set (s2 := with_rooms _ s1).
  pose proof (close_room_absent r s2) as HA.
  pose proof (close_room_sio r s2) as HI.
  split.
  - revert HA. apply absent_frame; reflexivity.
  - intros k w Hin Hne Hc. unfold_emit. cbn.
    apply in_or_app. left. apply in_or_app. left.
    unfold waiting_of in Hin.
    destruct (JMap.get r (waitingRooms s)) as [waiting|] eqn:EW; [|contradiction].
    pose proof (get_drop_waiting u r (waitingRooms s)) as HD.
    unfold JMap.t in *. rewrite EW in HD.
    assert (Hc2 : connected (socketId w) s2 = true).
    { unfold connected in *. cbn in Hc. rewrite HI in Hc. exact Hc. }
    destruct HD as [HD|HD].
    + apply (close_room_emits r s2 waiting k w); [|assumption|assumption].
      subst s2. cbn. rewrite W1. exact HD.
    + apply (close_room_emits r s2 (JMap.del u waiting) k w);
        [|apply In_del_entry; assumption|assumption].
      subst s2. cbn. rewrite W1. exact HD.
Qed.

(** C3 (the code breaks it): [u1] is the only member of the gated room
    [R1], where [u2] is waiting on the connected socket [s2], and has also
    joined [R2] from its one socket [s1]. When [s1] disconnects, the handler
    cleans [R2], the user's current room, and nothing else: [R1] stays in
    the three room maps with [u1] as member and host although no socket is
    bound to [u1] any more, [u2] is still waiting, and no [room-closed] is
    emitted. *)
Theorem last_member_disconnects_room_stays :
  run initial demo_host_elsewhere_events = Done demo_host_elsewhere
  /\ JMap.get "R1" (rooms demo_host_elsewhere) = Some ["u1"]
  /\ socketToUser demo_host_elsewhere = [("s1", "u1"); ("s2", "u2")]
  /\ JMap.get "u1" (userToRoom demo_host_elsewhere) = Some "R2"
  /\ waiting_of "R1" demo_host_elsewhere = [("u2", mkWaitingUser "u2" "s2" "u2")]
  /\ exists s',
       step demo_host_elsewhere ("s1", Disconnect) = Done s'
       /\ connected "s1" s' = false
       /\ socketToUser s' = [("s2", "u2")]
       /\ absent "R2" s'
       /\ JMap.get "R1" (rooms s') = Some ["u1"]
       /\ meta_hostId (JMap.get "R1" (roomMetadata s')) = Some "u1"
       /\ waiting_of "R1" s' = [("u2", mkWaitingUser "u2" "s2" "u2")]
       /\ connected "s2" s' = true
       /\ filter is_room_closed (outbox s') = [].
Proof.
  split; [vm_compute; reflexivity|]. repeat (split; [reflexivity|]).
  eexists. split; [reflexivity|]. repeat split.
Qed.

(** A waiting entry can outlive its socket (the disconnect handler clears
    the user's entry in the first waiting list that holds it, and stops):
    [u2] is still on the waiting list of [R3] after its socket has gone;
    when the last member of [R3] leaves, the room is removed and no
    [room-closed] is emitted. *)
Example room_closes_stale_entry_not_told :
  run initial demo_stale_entry_events = Done demo_stale_entry
  /\ JMap.get "R3" (rooms demo_stale_entry) = Some ["u3"]
  /\ waiting_of "R3" demo_stale_entry = [("u2", mkWaitingUser "u2" "s2" "u2")]
  /\ exists s',
       step demo_stale_entry ("s3", LeaveRoom "R3" "u3") = Done s'
       /\ absent "R3" s'
       /\ filter is_room_closed (outbox s') = [].
Proof.
  split; [reflexivity|]. split; [reflexivity|]. split; [reflexivity|].
  eexists. split; [reflexivity|]. repeat split.
Qed.

Lemma listed_member_count r s : Inv s -> listed r s -> 1 <= member_count r s.
Proof.
  intros HI Hl. destruct (HI r) as (Hd & Hw & Hh).
  assert (HR : JMap.get r (rooms s) <> None).
  { destruct Hl as [H|[H|H]]; apply JMapFacts.has_true in H; destruct H as [v H].
    - congruence.
    - intros E. apply Hd in E. congruence.
    - intros E. apply Hw in E. unfold JMap.t in *. congruence. }
  unfold member_count.
  destruct (JMap.get r (rooms s)) as [members|] eqn:ER; [|contradiction].
  destruct (Inv3_room_exists _ _ _ _ _ HI ER) as (meta & h & _ & _ & Hin).
  destruct members; [contradiction|]. cbn. lia.
Qed.

(** What holds in general: in every state the authority can reach, every
    room listed in the membership, metadata or waiting map has at least one
    identifier in its member set. When a leave-room, or the disconnect of a
    socket whose user has the room as current room, takes the last member
    out of a room, the room is gone from the three maps when the event
    ends, and [room-closed] has been sent to the socket of every entry of
    its waiting list whose socket is still connected (on a disconnect, the
    departing user's own entry apart). *)
Theorem rooms_never_empty_and_closing (s : State) :
  reachable s ->
  (forall r, listed r s -> 1 <= member_count r s)
  /\ (forall e r u members,
        departs e r u s ->
        JMap.get r (rooms s) = Some members ->
        JSet.del u members = [] ->
        exists s',
          step s e = Done s'
          /\ absent r s'
          /\ forall k w,
               In (k, w) (waiting_of r s) ->
               (snd e = Disconnect -> k <> u) ->
               connected (socketId w) s' = true ->
               In (mkEmission (ToSocket (socketId w)) (RoomClosed r) [socketId w])
                  (outbox s')).
Proof.
  intros Hreach. split.
  - intros r. apply listed_member_count, Inv_reachable, Hreach.
  - intros [sid ev] r u members Hdep ER Edel.
    unfold departs in Hdep. cbn [fst snd] in Hdep.
    destruct ev; try contradiction.
    + destruct Hdep as [-> ->].
      destruct (leave_room_last sid r u s members ER Edel) as (HA & HE).
      eexists. split; [reflexivity|]. split; [exact HA|].
      intros k w Hin _ Hc. apply (HE k w); assumption.
    + destruct Hdep as (ES & Tu & EU & Tr).
      destruct (disconnect_last sid r u s members ES Tu EU Tr ER Edel) as (HA & HE).
      eexists. split; [reflexivity|]. split; [exact HA|].
      intros k w Hin Hk Hc. apply (HE k w); auto.
Qed.

Lemma demo_gated_waiting_reachable :
  reachable (final (demo_gated_events ++ [("s2", JoinRoom "R1" "u2" None None)])).
Proof.
  exists (demo_gated_events ++ [("s2", JoinRoom "R1" "u2" None None)]).
  vm_compute. reflexivity.
Qed.

Lemma rooms_never_empty_and_closing_witness :
  let s := final (demo_gated_events ++ [("s2", JoinRoom "R1" "u2" None None)]) in
  reachable s
  /\ listed "R1" s
  /\ departs ("s1", LeaveRoom "R1" "u1") "R1" "u1" s
  /\ JMap.get "R1" (rooms s) = Some ["u1"]
  /\ JSet.del "u1" ["u1"] = []
  /\ In ("u2", mkWaitingUser "u2" "s2" "u2") (waiting_of "R1" s)
  /\ 1 <= member_count "R1" s
  /\ exists s',
       step s ("s1", LeaveRoom "R1" "u1") = Done s'
       /\ absent "R1" s'
       /\ In (mkEmission (ToSocket "s2") (RoomClosed "R1") ["s2"]) (outbox s').
Proof.
  cbn zeta.
  destruct (rooms_never_empty_and_closing _ demo_gated_waiting_reachable) as [Hcount Hclose].
  split; [exact demo_gated_waiting_reachable|].
  split; [left; reflexivity|].
  split; [split; reflexivity|].
  split; [reflexivity|]. split; [reflexivity|].
  split; [left; reflexivity|].
  split; [apply Hcount; left; reflexivity|].
  destruct (Hclose ("s1", LeaveRoom "R1" "u1") "R1" "u1" ["u1"])
    as (s' & Hstep & HA & HE);
    [split; reflexivity | reflexivity | reflexivity |].
  exists s'. split; [exact Hstep|]. split; [exact HA|].
  apply (HE "u2" (mkWaitingUser "u2" "s2" "u2")).
  - left. reflexivity.
  - discriminate.
  - injection Hstep as <-. reflexivity.
Defined.

(** * More properties of the Room Authority *)

(** ** What the metadata map goes through

    Every handler changes [roomMetadata] by [set] and [delete] only, so what
    these two keep, every event keeps. *)
Section MetadataClosed.
Variable P : JMap.t RoomMeta -> Prop.
Hypothesis P_set : forall k v m, P m -> P (JMap.set k v m).
Hypothesis P_del : forall k m, P m -> P (JMap.del k m).

Lemma closed_remove_member r u s :
  P (roomMetadata s) -> P (roomMetadata (remove_member r u s)).
Proof.
  intros H. unfold remove_member.
  destruct (JMap.get r (rooms s)) as [m|]; [|assumption].
  set (s1 := with_rooms _ s).
  set (s2 := if _ && _ then transfer_host r (JSet.del u m) s1 else s1).
  assert (H2 : P (roomMetadata s2)).
  { subst s2. destruct (_ && _); [|exact H].
    rewrite transfer_host_roomMetadata.
    destruct (JSet.first _); [|exact H].
    destruct (JMap.get r (roomMetadata s1)); [apply P_set|]; exact H. }
  clearbody s2. destruct (Nat.eqb _ 0); [|assumption].
  rewrite close_room_roomMetadata. apply P_del. assumption.
Qed.

Lemma closed_handle sid ev s s' :
  handle sid ev s = Done s' -> P (roomMetadata s) -> P (roomMetadata s').
Proof.
  intros Hh H.
  destruct ev as [ | | cb | rid uid cfg un | rid uid | rid uid | rid | rid
                 | a b c d | a b c d | a b | a b | a b | a b | a b | a | rid uid | ];
    cbn [handle] in Hh; try (injection Hh as <-);
    try (unfold_emit; exact H).
  - destruct cb; exact H.
  - unfold on_join_room.
    set (s1 := if truthy_opt un then _ else _).
    assert (H1 : P (roomMetadata s1)).
    { subst s1. destruct (truthy_opt un); [destruct un|]; exact H. }
    clearbody s1. destruct (opt_flag isLocked _); [exact H1|].
    destruct (_ && _).
    + rewrite join_waiting_roomMetadata. exact H1.
    + rewrite join_direct_roomMetadata. destruct (negb _); [apply P_set|]; exact H1.
  - rewrite admit_user_roomMetadata. exact H.
  - rewrite deny_user_roomMetadata. exact H.
  - revert Hh. unfold on_toggle_lock. destruct (negb _); [intros [= <-]; exact H|].
    destruct (JMap.get rid (roomMetadata s)); [|discriminate].
    intros [= <-]. unfold_emit. cbn. apply P_set. exact H.
  - revert Hh. unfold on_toggle_waiting_room. destruct (negb _); [intros [= <-]; exact H|].
    destruct (JMap.get rid (roomMetadata s)); [|discriminate].
    intros [= <-]. unfold_emit. cbn. apply P_set. exact H.
  - rewrite relay_roomMetadata. exact H.
  - rewrite relay_roomMetadata. exact H.
  - rewrite relay_roomMetadata. exact H.
  - unfold on_leave_room. unfold_emit. cbn.
    apply closed_remove_member. rewrite socket_leave_eq. exact H.
  - unfold on_disconnect.
    set (s0 := with_sio _ s). assert (H0 : P (roomMetadata s0)) by exact H.
    clearbody s0.
    destruct (JMap.get sid (socketToUser s0)) as [u|]; [|exact H0].
    destruct (truthy u); [|exact H0]. cbn.
    assert (H1 : P (roomMetadata (leave_waiting u s0)))
      by (rewrite leave_waiting_roomMetadata; exact H0).
    destruct (JMap.get u (userToRoom s0)) as [r|]; [|exact H1].
    destruct (truthy r); [|exact H1].
    unfold disconnect_room. unfold_emit. cbn.
    apply closed_remove_member. exact H1.
Qed.

Lemma closed_run events : forall s s',
  run s events = Done s' -> P (roomMetadata s) -> P (roomMetadata s').
Proof.
  induction events as [|e rest IH]; intros s s'; cbn.
  - intros [= <-]. auto.
  - destruct (step s e) as [s1|] eqn:E; [|discriminate].
    intros Hr H. apply (IH s1 s' Hr). unfold step in E.
    apply (closed_handle _ _ _ _ E). exact H.
Qed.
End MetadataClosed.

Lemma reachable_metadata_keys s : reachable s -> NoDup (JMap.keys (roomMetadata s)).
Proof.
  intros [events H].
  apply (closed_run (fun m => NoDup (JMap.keys m))
           (fun k v m => NoDup_keys_set k v m) (fun k m => NoDup_keys_del k m)
           events initial s H).
  constructor.
Qed.

(** ** The directory *)

Lemma getPublicRooms_In info s :
  In info (getPublicRooms s) <->
  exists r meta,
    In (r, meta) (roomMetadata s) /\ isPublic meta = true
    /\ 0 < member_count r s /\ info = directory_entry r meta s.
Proof.
  unfold getPublicRooms. rewrite in_flat_map. split.
  - intros [[r meta] [Hin H]]. cbn [fst snd] in H.
    destruct (isPublic meta) eqn:Ep; [|inversion H].
    destruct (Nat.ltb 0 (member_count r s)) eqn:Ec; [|inversion H].
    destruct H as [<-|[]]. apply Nat.ltb_lt in Ec. exists r, meta. auto.
  - intros (r & meta & Hin & Ep & Ec & ->). exists (r, meta). split; [assumption|].
    cbn [fst snd]. rewrite Ep. apply Nat.ltb_lt in Ec. rewrite Ec. now left.
Qed.

(** X1: in every state the authority can reach, the directory
    [getPublicRooms] has an entry for a room exactly when the room's
    metadata says it is public; every entry carries the room's name, lock
    flag and waiting-room flag and a member count that is the size of the
    member set and at least 1; no room is listed twice. *)
Theorem directory_lists_public_rooms (s : State) :
  reachable s ->
  (forall r meta,
      JMap.get r (roomMetadata s) = Some meta ->
      (In (directory_entry r meta s) (getPublicRooms s) <-> isPublic meta = true))
  /\ (forall info,
        In info (getPublicRooms s) ->
        exists meta,
          JMap.get (ri_roomId info) (roomMetadata s) = Some meta
          /\ isPublic meta = true
          /\ info = directory_entry (ri_roomId info) meta s
          /\ 1 <= ri_count info)
  /\ NoDup (map ri_roomId (getPublicRooms s)).
Proof.
  intros Hreach.
  pose proof (reachable_metadata_keys s Hreach) as Hnd.
  pose proof (Inv_reachable s Hreach) as HI.
  assert (Hentry : forall info, In info (getPublicRooms s) ->
            exists meta, JMap.get (ri_roomId info) (roomMetadata s) = Some meta
              /\ isPublic meta = true
              /\ info = directory_entry (ri_roomId info) meta s
              /\ 1 <= ri_count info).
  { intros info Hin. apply getPublicRooms_In in Hin.
    destruct Hin as (r & meta & Hin & Ep & Ec & ->). cbn.
    exists meta. repeat split; auto using NoDup_keys_get. }
  split; [|split; [exact Hentry|]].
  - intros r meta EM. split.
    + intros Hin. destruct (Hentry _ Hin) as (meta' & EM' & Ep & _).
      cbn in EM'. congruence.
    + intros Ep. apply getPublicRooms_In. exists r, meta.
      split; [apply JMapFacts.get_In; assumption|].
      split; [assumption|]. split; [|reflexivity].
      destruct (Inv3_meta_exists _ _ _ _ _ HI EM) as (h & ms & _ & ER & Hin).
      unfold member_count. rewrite ER. destruct ms; [contradiction|]. cbn. lia.
  - unfold getPublicRooms. revert Hnd. generalize (roomMetadata s) as M.
    induction M as [|[r meta] M IH]; cbn [flat_map fst snd JMap.keys map];
      intros Hnd; [constructor|].
    inversion Hnd as [|? ? Hnot Hnd']; subst.
    rewrite map_app. apply NoDup_app; [| auto |].
    + destruct (isPublic meta); [|constructor].
      destruct (Nat.ltb 0 _); repeat constructor. auto.
    + intros x H1 H2. apply Hnot.
      assert (x = r).
      { destruct (isPublic meta); [|inversion H1].
        destruct (Nat.ltb 0 _); [|inversion H1]. destruct H1 as [<-|[]]. reflexivity. }
      subst x. apply in_map_iff in H2. destruct H2 as (info & <- & Hin).
      apply in_flat_map in Hin. destruct Hin as ([r' meta'] & Hin & H).
      cbn [fst snd] in H.
      destruct (isPublic meta'); [|inversion H].
      destruct (Nat.ltb 0 _); [|inversion H]. destruct H as [<-|[]]. cbn.
      unfold JMap.keys. apply in_map_iff. exists (r', meta'). auto.
Qed.

Lemma demo_gated_reachable : reachable demo_gated.
Proof. exists demo_gated_events. vm_compute. reflexivity. Qed.

Lemma directory_lists_public_rooms_witness :
  reachable demo_gated
  /\ getPublicRooms demo_gated = [mkRoomInfo "R1" (Some "Standup") 1 true false true]
  /\ (In (directory_entry "R1" (mkRoomMeta true (Some "Standup") (Some "u1") false true)
                          demo_gated)
         (getPublicRooms demo_gated)
      <-> isPublic (mkRoomMeta true (Some "Standup") (Some "u1") false true) = true)
  /\ NoDup (map ri_roomId (getPublicRooms demo_gated)).
Proof.
  destruct (directory_lists_public_rooms demo_gated demo_gated_reachable)
    as (Hiff & _ & Hnd).
  split; [exact demo_gated_reachable|]. split; [reflexivity|].
  split; [apply Hiff; reflexivity | exact Hnd].
Defined.

(** ** Current-room bindings *)

Lemma remove_member_frame r u s :
  let s' := remove_member r u s in
  userToRoom s' = userToRoom s /\ userNames s' = userNames s.
Proof.
  cbn zeta. unfold remove_member.
  destruct (JMap.get r (rooms s)) as [m|]; [|tauto].
  set (s1 := with_rooms _ s).
  set (s2 := if _ && _ then transfer_host r (JSet.del u m) s1 else s1).
  assert (H2 : userToRoom s2 = userToRoom s /\ userNames s2 = userNames s).
  { subst s2. destruct (_ && _); [|tauto].
    destruct (transfer_host_frame r (JSet.del u m) s1) as (_ & _ & E1 & E2).
    rewrite E1, E2. tauto. }
  clearbody s2. destruct (Nat.eqb _ 0); [|exact H2].
  unfold close_room. cbn. destruct (JMap.get r (waitingRooms s2)); cbn; [|exact H2].
  match goal with |- context [fold_left ?f ?l ?s0] =>
    destruct (close_one_fold_frame r l s0) as (_ & _ & _ & _ & E1 & E2) end.
  rewrite E1, E2. exact H2.
Qed.

Lemma remove_member_members r u k s :
  members_of k (remove_member r u s)
  = if k =? r then JSet.del u (members_of r s) else members_of k s.
Proof.
  unfold members_of at 1 3. unfold remove_member.
  destruct (JMap.get r (rooms s)) as [m|] eqn:ER.
  - set (s1 := with_rooms _ s).
    set (s2 := if _ && _ then transfer_host r (JSet.del u m) s1 else s1).
    assert (E2 : rooms s2 = JMap.set r (JSet.del u m) (rooms s)).
    { subst s2. destruct (_ && _); [rewrite transfer_host_rooms|]; reflexivity. }
    clearbody s2. unfold members_of. rewrite ER.
    destruct (Nat.eqb (JSet.size (JSet.del u m)) 0) eqn:E0.
    + rewrite close_room_rooms, E2, JMapFacts.get_del, JMapFacts.get_set.
      apply JSetFacts.size_zero in E0. rewrite E0.
      destruct (k =? r); reflexivity.
    + rewrite E2, JMapFacts.get_set. destruct (k =? r); reflexivity.
  - destruct (k =? r) eqn:E; [|reflexivity].
    apply String.eqb_eq in E. subst k. unfold members_of. rewrite ER. reflexivity.
Qed.

Lemma Bound_remove_member r u s :
  Bound s -> forall v k, v <> u ->
  JMap.get v (userToRoom s) = Some k -> In v (members_of k (remove_member r u s)).
Proof.
  intros HB v k Hne E. rewrite remove_member_members.
  destruct (k =? r) eqn:Ek.
  - apply String.eqb_eq in Ek. subst k. apply JSetFacts.In_del. split; [|assumption].
    apply HB. assumption.
  - apply HB. assumption.
Qed.

Lemma members_frame k s s' : rooms s' = rooms s -> members_of k s' = members_of k s.
Proof. unfold members_of. intros ->. reflexivity. Qed.

Lemma Bound_frame s s' :
  rooms s' = rooms s -> userToRoom s' = userToRoom s -> Bound s -> Bound s'.
Proof.
  intros ER EU HB u r E. rewrite (members_frame r s s' ER). apply HB. congruence.
Qed.

Lemma join_waiting_userToRoom sid r u userName host s :
  userToRoom (join_waiting sid r u userName host s) = userToRoom s.
Proof. unfold join_waiting. unfold_emit. repeat break_match; reflexivity. Qed.

Lemma join_direct_members sid r u config s :
  Inv s ->
  let s' := join_direct sid r u config (negb (isSome (JMap.get r (roomMetadata s)))) s in
  userToRoom s' = JMap.set u r (userToRoom s)
  /\ In u (members_of r s')
  /\ forall k v, In v (members_of k s) -> In v (members_of k s').
Proof.
  intros HI. cbn zeta. unfold join_direct. rewrite socket_join_eq.
  unfold members_of. unfold_emit.
  destruct (JMap.get r (roomMetadata s)) as [meta|] eqn:EM; cbn.
  - destruct (Inv3_meta_exists _ _ _ _ _ HI EM) as (h & ms & _ & ER & _).
    rewrite ER. cbn. rewrite JMapFacts.get_set_same.
    split; [reflexivity|]. split; [apply JSetFacts.In_add; auto|].
    intros k v. rewrite JMapFacts.get_set.
    destruct (k =? r) eqn:Ek; [|auto].
    apply String.eqb_eq in Ek. subst k. rewrite ER.
    intros H. apply JSetFacts.In_add. auto.
  - rewrite JMapFacts.get_set_same. cbn. rewrite JMapFacts.get_set_same.
    split; [reflexivity|]. split; [now left|].
    intros k v. rewrite !JMapFacts.get_set.
    destruct (k =? r) eqn:Ek; [|auto].
    apply String.eqb_eq in Ek. subst k.
    destruct (HI r) as (Hd & _). rewrite (proj2 Hd EM). intros [].
Qed.

Lemma Bound_join_room sid r u config userName s :
  Inv s -> Bound s -> Bound (on_join_room sid r u config userName s).
Proof.
  intros HI HB. unfold on_join_room.
  set (s1 := if truthy_opt userName then _ else _).
  destruct (names_roomMetadata_frame userName u s) as (ER1 & EM1 & EW1 & _ & EU1 & _).
  fold s1 in ER1, EM1, EW1, EU1.
  assert (HI1 : Inv s1) by (unfold Inv; rewrite ER1, EM1, EW1; exact HI).
  assert (HB1 : Bound s1) by (apply (Bound_frame s s1); assumption).
  clearbody s1.
  destruct (opt_flag isLocked _); [exact HB1|].
  destruct (_ && _).
  - apply (Bound_frame s1); [| apply join_waiting_userToRoom | exact HB1].
    destruct (join_waiting_spec sid r u userName
                (meta_hostId (JMap.get r (roomMetadata s1))) s1) as (_ & E & _).
    exact E.
  - destruct (join_direct_members sid r u config s1 HI1) as (EU & Hu & Hmono).
    intros v k E. rewrite EU, JMapFacts.get_set in E.
    destruct (v =? u) eqn:Ev.
    + apply String.eqb_eq in Ev. injection E as <-. subst v. exact Hu.
    + apply Hmono, HB1. exact E.
Qed.

Lemma Bound_admit_user sid r u s :
  Inv s -> Bound s -> Bound (on_admit_user sid r u s).
Proof.
  intros HI HB. unfold on_admit_user.
  destruct (negb _); [assumption|].
  destruct (JMap.get r (waitingRooms s)) as [w|] eqn:EW; [|assumption].
  destruct (JMap.get u w) as [wu|]; [|assumption].
  assert (HR : exists m, JMap.get r (rooms s) = Some m).
  { destruct (HI r) as (_ & Hw & _).
    destruct (JMap.get r (rooms s)) as [m|]; [eauto|].
    specialize (Hw eq_refl). unfold JMap.t in *. congruence. }
  destruct HR as [m ER].
  unfold_emit. cbn. destruct (connected (socketId wu) _); cbn.
  - rewrite socket_join_eq. cbn. rewrite ER. cbn.
    intros v k. cbn. unfold members_of. cbn. rewrite !JMapFacts.get_set.
    destruct (v =? u) eqn:Ev.
    + intros [= <-]. rewrite String.eqb_refl. apply JSetFacts.In_add. right.
      apply String.eqb_eq in Ev. assumption.
    + intros E. specialize (HB v k E). unfold members_of in HB.
      destruct (k =? r) eqn:Ek; [|exact HB].
      apply String.eqb_eq in Ek. subst k. rewrite ER in HB.
      apply JSetFacts.In_add. auto.
  - exact HB.
Qed.

Lemma Bound_leave_room sid r u s : Bound s -> Bound (on_leave_room sid r u s).
Proof.
  intros HB. unfold on_leave_room. unfold_emit.
  set (s1 := socket_leave sid r s).
  assert (HB1 : Bound s1)
    by (apply (Bound_frame s); [subst s1; rewrite socket_leave_eq; reflexivity ..|exact HB]).
  clearbody s1.
  destruct (remove_member_frame r u s1) as (EU & _).
  intros v k. simpl_fields. rewrite EU, JMapFacts.get_del.
  destruct (v =? u) eqn:Ev; [discriminate|].
  apply String.eqb_neq in Ev. intros E.
  change (In v (members_of k (remove_member r u s1))).
  apply Bound_remove_member; assumption.
Qed.

Lemma leave_waiting_userToRoom u s : userToRoom (leave_waiting u s) = userToRoom s.
Proof. destruct (leave_waiting_frame u s) as (_ & _ & E & _). exact E. Qed.

Lemma Bound_disconnect sid s : Bound s -> Bound (on_disconnect sid s).
Proof.
  intros HB. unfold on_disconnect.
  set (s0 := with_sio _ s). assert (HB0 : Bound s0) by exact HB. clearbody s0.
  destruct (JMap.get sid (socketToUser s0)) as [u|]; [|assumption].
  destruct (truthy u); [|assumption].
  assert (HB1 : Bound (leave_waiting u s0))
    by (apply (Bound_frame s0);
        [apply leave_waiting_rooms | apply leave_waiting_userToRoom | exact HB0]).
  pose proof (leave_waiting_userToRoom u s0) as EU0.
  set (s1 := leave_waiting u s0) in *. clearbody s1.
  destruct (JMap.get u (userToRoom s0)) as [r|].
  - destruct (truthy r).
    + unfold disconnect_room. unfold_emit.
      destruct (remove_member_frame r u s1) as (EU & _).
      intros v k. simpl_fields. rewrite EU, JMapFacts.get_del.
      destruct (v =? u) eqn:Ev; [discriminate|].
      apply String.eqb_neq in Ev. intros E.
      change (In v (members_of k (remove_member r u s1))).
      apply Bound_remove_member; assumption.
    + intros v k. simpl_fields. rewrite JMapFacts.get_del.
      destruct (v =? u); [discriminate|]. apply HB1.
  - intros v k. simpl_fields. rewrite JMapFacts.get_del.
    destruct (v =? u); [discriminate|]. apply HB1.
Qed.

Lemma Bound_handle sid ev s s' :
  Inv s -> Bound s -> handle sid ev s = Done s' -> Bound s'.
Proof.
  intros HI HB Hh.
  destruct ev as [ | | cb | rid uid cfg un | rid uid | rid uid | rid | rid
                 | a b c d | a b c d | a b | a b | a b | a b | a b | a | rid uid | ];
    cbn [handle] in Hh; try (injection Hh as <-);
    try (unfold_emit; exact HB).
  - destruct cb; exact HB.
  - apply Bound_join_room; assumption.
  - apply Bound_admit_user; assumption.
  - destruct (deny_user_frame sid rid uid s) as (ER & EU & _).
    apply (Bound_frame s); assumption.
  - revert Hh. unfold on_toggle_lock. destruct (negb _); [intros [= <-]; exact HB|].
    destruct (JMap.get rid (roomMetadata s)); [|discriminate].
    intros [= <-]. exact HB.
  - revert Hh. unfold on_toggle_waiting_room. destruct (negb _); [intros [= <-]; exact HB|].
    destruct (JMap.get rid (roomMetadata s)); [|discriminate].
    intros [= <-]. exact HB.
  - destruct (relay_frame sid (OfferMsg (JMap.get sid (socketToUser s)) b c d a) s)
      as (ER & _ & _ & _ & EU & _).
    apply (Bound_frame s); assumption.
  - destruct (relay_frame sid (AnswerMsg (JMap.get sid (socketToUser s)) b c d a) s)
      as (ER & _ & _ & _ & EU & _).
    apply (Bound_frame s); assumption.
  - destruct (relay_frame sid (IceCandidateMsg (JMap.get sid (socketToUser s)) b a) s)
      as (ER & _ & _ & _ & EU & _).
    apply (Bound_frame s); assumption.
  - apply Bound_leave_room; assumption.
  - apply Bound_disconnect; assumption.
Qed.

Lemma Bound_run events : forall s s',
  Inv s -> Bound s -> run s events = Done s' -> Bound s'.
Proof.
  induction events as [|e rest IH]; intros s s' HI HB; cbn.
  - intros [= <-]. exact HB.
  - destruct (step s e) as [s1|] eqn:E; [|discriminate].
    apply IH; [eapply Inv_step; eauto|].
    unfold step in E. eapply Bound_handle; [| |exact E]; assumption.
Qed.

Lemma Bound_reachable s : reachable s -> Bound s.
Proof.
  intros [events H]. eapply Bound_run; [apply Inv_initial| |exact H].
  intros u r E. discriminate E.
Qed.

(** X2: in every state the authority can reach, the current room recorded
    for a user ([userToRoom]) is an existing room whose member set holds that
    user. *)
Theorem current_room_lists_user (s : State) :
  reachable s ->
  forall u r,
    JMap.get u (userToRoom s) = Some r ->
    exists members meta,
      JMap.get r (rooms s) = Some members
      /\ In u members
      /\ JMap.get r (roomMetadata s) = Some meta.
Proof.
  intros Hreach u r E.
  pose proof (Bound_reachable s Hreach u r E) as Hin.
  unfold members_of in Hin.
  destruct (JMap.get r (rooms s)) as [members|] eqn:ER; [|destruct Hin].
  destruct (Inv3_room_exists _ _ _ _ _ (Inv_reachable s Hreach) ER)
    as (meta & h & EM & _).
  eauto.
Qed.

Lemma current_room_lists_user_witness :
  reachable demo_three
  /\ JMap.get "u3" (userToRoom demo_three) = Some "R1"
  /\ exists members meta,
       JMap.get "R1" (rooms demo_three) = Some members
       /\ In "u3" members
       /\ JMap.get "R1" (roomMetadata demo_three) = Some meta.
Proof.
  split; [exact demo_three_reachable|]. split; [reflexivity|].
  apply (current_room_lists_user demo_three demo_three_reachable "u3" "R1").
  reflexivity.
Defined.

(** ** Events that only read *)

(** X3: get-rooms, ping, the three negotiation relays and the five room
    relays change none of the authority's maps and no socket.io room, and
    emit at most one message. *)
Theorem read_only_events_keep_state (s : State) (sid : string) (ev : ClientEvent) :
  reads_only ev = true ->
  exists s',
    step s (sid, ev) = Done s'
    /\ same_maps s s'
    /\ sio s' = sio s
    /\ List.length (outbox s') <= 1.
Proof.
  intros Hro. unfold step, same_maps. cbn [fst snd].
  destruct ev as [ | | cb | rid uid cfg un | rid uid | rid uid | rid | rid
                 | a b c d | a b c d | a b | a b | a b | a b | a b | a | rid uid | ];
    try discriminate; cbn [handle]; eexists; (split; [reflexivity|]);
    try (unfold relay_to_own_room; destruct (sender_room sid _) as [r|];
         [destruct (truthy r)|]);
    try destruct cb; unfold_emit; cbn; repeat split; lia.
Qed.

Lemma read_only_events_keep_state_witness :
  reads_only (ChatMessage "R1" "hello") = true
  /\ exists s',
       step demo_three ("s2", ChatMessage "R1" "hello") = Done s'
       /\ same_maps demo_three s'
       /\ sio s' = sio demo_three
       /\ List.length (outbox s') <= 1.
Proof.
  split; [reflexivity|].
  apply (read_only_events_keep_state demo_three "s2" (ChatMessage "R1" "hello")).
  reflexivity.
Defined.

(** ** The negotiation relay *)





(** A socket that has left the room of its own id (leave-room with its
    socket id as room) receives the offer it sends. *)
Example relay_after_leaving_own_room :
  exists s s',
    run initial (demo_three_events ++ [("s2", LeaveRoom "s2" "nobody")]) = Done s
    /\ step s ("s2", Offer "u3" "Bea" false "sdp") = Done s'
    /\ outbox s' = [mkEmission (ToRoomExcept "R1" "s2")
                      (OfferMsg (Some "u2") "Bea" false "sdp" "u3") ["s1"; "s2"; "s3"]].
Proof. eexists. eexists. split; [vm_compute; reflexivity|]. split; reflexivity. Qed.

(** ** The host's decision on a waiting user *)

Lemma opt_eqb_refl a : opt_eqb a a = true.
Proof. apply opt_eqb_eq. reflexivity. Qed.

Lemma waiting_get r s w :
  JMap.get r (waitingRooms s) = Some w -> waiting_of r s = w.
Proof. unfold waiting_of. intros ->. reflexivity. Qed.

Lemma waiting_of_entry r u s wu :
  JMap.get u (waiting_of r s) = Some wu ->
  exists w, JMap.get r (waitingRooms s) = Some w /\ JMap.get u w = Some wu.
Proof.
  unfold waiting_of. destruct (JMap.get r (waitingRooms s)) as [w|]; [eauto|].
  discriminate.
Qed.

Lemma Inv_waiting_room r s w :
  Inv s -> JMap.get r (waitingRooms s) = Some w ->
  exists members, JMap.get r (rooms s) = Some members.
Proof.
  intros HI EW. destruct (HI r) as (_ & Hw & _).
  destruct (JMap.get r (rooms s)) as [m|]; [eauto|].
  specialize (Hw eq_refl). unfold JMap.t in *. congruence.
Qed.

Lemma admit_connected_spec (s : State) (sid r u : string) (meta : RoomMeta)
    (w : JMap.t WaitingUser) (wu : WaitingUser) (members : JSet.t) :
  JMap.get r (roomMetadata s) = Some meta ->
  JMap.get sid (socketToUser s) = hostId meta ->
  JMap.get r (waitingRooms s) = Some w ->
  JMap.get u w = Some wu ->
  JMap.get r (rooms s) = Some members ->
  connected (socketId wu) s = true ->
  let s' := on_admit_user sid r u s in
  waiting_of r s' = JMap.del u w
  /\ members_of r s' = JSet.add u members
  /\ JMap.get u (userToRoom s') = Some r
  /\ roomMetadata s' = roomMetadata s
  /\ socketToUser s' = socketToUser s
  /\ sio s' = sio (socket_join (socketId wu) r s)
  /\ outbox s' =
     outbox s
     ++ [mkEmission (ToRoomExcept r (socketId wu)) (UserConnected u)
                    (room_sockets_except r (socketId wu)
                                         (socket_join (socketId wu) r s));
         mkEmission (ToSocket (socketId wu))
                    (AdmittedMsg r false (getRoomSettings r s)) [socketId wu];
         mkEmission (ToSocket sid) (WaitingRoomUpdate r (waiting_list (JMap.del u w)))
                    [sid];
         mkEmission ToAll (RoomsUpdate (getPublicRooms s')) (JMap.keys (sio s'))].
Proof.
  intros EM Ehost EW Eu ER Hconn. cbn zeta.
  unfold on_admit_user.
  rewrite EM, Ehost. cbn [meta_hostId]. rewrite opt_eqb_refl. cbn [negb].
  rewrite EW, Eu.
  unfold connected in *. simpl_fields. rewrite Hconn.
  apply JMapFacts.has_true in Hconn. destruct Hconn as [joined Ej].
  rewrite !socket_join_eq. unfold_emit.
  unfold waiting_of, members_of, getRoomSettings, room_sockets_except.
  simpl_fields. rewrite ER, Ej. simpl_fields.
  rewrite !JMapFacts.get_set_same, <- !app_assoc. cbn [app].
  repeat split.
Qed.

(** X5: when the socket bound to a room's host admits a user who is on the
    room's waiting list and whose socket is connected, the user's waiting
    entry is removed, the user joins the member set and gets the room as
    current room, and four messages are emitted: [user-connected] through
    the admitted socket's [to(room)], [admitted] (always with [isHost]
    false) to the admitted socket, the shortened waiting list to the host's
    socket, and the directory to everyone. [user-connected] is handed to
    exactly the sockets that are in the room once the admitted socket has
    joined it and are not in the socket.io room named by the admitted
    socket's id, so not to the admitted socket while it is in the room of
    its own id. *)
Theorem admit_by_host (s : State) (sid r u : string) (meta : RoomMeta) (wu : WaitingUser) :
  reachable s ->
  JMap.get r (roomMetadata s) = Some meta ->
  JMap.get sid (socketToUser s) = hostId meta ->
  JMap.get u (waiting_of r s) = Some wu ->
  connected (socketId wu) s = true ->
  exists s',
    step s (sid, AdmitUser r u) = Done s'
    /\ waiting_of r s' = JMap.del u (waiting_of r s)
    /\ members_of r s' = JSet.add u (members_of r s)
    /\ JMap.get u (userToRoom s') = Some r
    /\ roomMetadata s' = roomMetadata s
    /\ socketToUser s' = socketToUser s
    /\ outbox s' =
       [mkEmission (ToRoomExcept r (socketId wu)) (UserConnected u)
                   (room_sockets_except r (socketId wu)
                                        (socket_join (socketId wu) r s));
        mkEmission (ToSocket (socketId wu))
                   (AdmittedMsg r false (getRoomSettings r s)) [socketId wu];
        mkEmission (ToSocket sid)
                   (WaitingRoomUpdate r (waiting_list (JMap.del u (waiting_of r s))))
                   [sid];
        mkEmission ToAll (RoomsUpdate (getPublicRooms s')) (JMap.keys (sio s'))]
    /\ (forall x,
          In x (room_sockets_except r (socketId wu) (socket_join (socketId wu) r s)) <->
          JSet.has r (socket_rooms x s') = true
          /\ JSet.has (socketId wu) (socket_rooms x s') = false)
    /\ (JSet.has (socketId wu) (socket_rooms (socketId wu) s) = true ->
        ~ In (socketId wu)
             (room_sockets_except r (socketId wu) (socket_join (socketId wu) r s))).
Proof.
  intros Hreach EM Ehost Hentry Hconn.
  destruct (waiting_of_entry r u s wu Hentry) as (w & EW & Eu).
  destruct (Inv_waiting_room r s w (Inv_reachable s Hreach) EW) as (members & ER).
  rewrite (waiting_get r s w EW).
  assert (Em : members_of r s = members) by (unfold members_of; rewrite ER; reflexivity).
  rewrite Em.
  pose proof (reachable_sio_keys s Hreach) as Hnd.
  assert (Hnd' : NoDup (JMap.keys (sio (socket_join (socketId wu) r s)))).
  { apply (sockets_closed_join (fun m => NoDup (JMap.keys m))
             (fun k v m => NoDup_keys_set k v m)). exact Hnd. }
  eexists. split; [reflexivity|]. cbn [fst snd].
  destruct (admit_connected_spec (with_outbox [] s) sid r u meta w wu members
              EM Ehost EW Eu ER Hconn) as (H1 & H2 & H3 & H4 & H5 & H6 & H7).
  rewrite (except_join_sio r (socketId wu) (socketId wu) s (with_outbox [] s) eq_refl) in H7.
  split; [exact H1|]. split; [exact H2|]. split; [exact H3|]. split; [exact H4|].
  split; [exact H5|]. split; [exact H7|]. split.
  - intros x.
    rewrite !(socket_rooms_sio x (socket_join (socketId wu) r s)
                (on_admit_user sid r u (with_outbox [] s)))
      by (rewrite H6, !socket_join_eq; reflexivity).
    apply room_sockets_except_In. exact Hnd'.
  - intros Hown. rewrite except_after_join by assumption.
    apply sender_left_out; assumption.
Qed.

Lemma demo_queued_reachable : reachable demo_queued.
Proof. exists demo_queued_events. vm_compute. reflexivity. Qed.

Lemma admit_by_host_witness :
  reachable demo_queued
  /\ JMap.get "R1" (roomMetadata demo_queued)
     = Some (mkRoomMeta true (Some "Standup") (Some "u1") false true)
  /\ JMap.get "s1" (socketToUser demo_queued) = Some "u1"
  /\ JMap.get "u2" (waiting_of "R1" demo_queued) = Some (mkWaitingUser "u2" "s2" "u2")
  /\ connected "s2" demo_queued = true
  /\ exists s',
       step demo_queued ("s1", AdmitUser "R1" "u2") = Done s'
       /\ waiting_of "R1" s' = []
       /\ members_of "R1" s' = ["u1"; "u2"]
       /\ JMap.get "u2" (userToRoom s') = Some "R1".
Proof.
  split; [exact demo_queued_reachable|].
  split; [reflexivity|]. split; [reflexivity|]. split; [reflexivity|].
  split; [reflexivity|].
  destruct (admit_by_host demo_queued "s1" "R1" "u2"
              (mkRoomMeta true (Some "Standup") (Some "u1") false true)
              (mkWaitingUser "u2" "s2" "u2") demo_queued_reachable)
    as (s' & Hstep & Hw & Hm & Hu & _); try reflexivity.
  exists s'. repeat split; assumption.
Defined.

(** X6: when the host admits a waiting user whose socket is no longer
    connected, the waiting entry is removed all the same, nobody is added to
    the room and no binding changes; the host still receives the shortened
    waiting list and the directory is broadcast. *)
Theorem admit_gone_socket (s : State) (sid r u : string) (meta : RoomMeta)
    (wu : WaitingUser) :
  JMap.get r (roomMetadata s) = Some meta ->
  JMap.get sid (socketToUser s) = hostId meta ->
  JMap.get u (waiting_of r s) = Some wu ->
  connected (socketId wu) s = false ->
  exists s',
    step s (sid, AdmitUser r u) = Done s'
    /\ waiting_of r s' = JMap.del u (waiting_of r s)
    /\ rooms s' = rooms s
    /\ roomMetadata s' = roomMetadata s
    /\ socketToUser s' = socketToUser s
    /\ userToRoom s' = userToRoom s
    /\ sio s' = sio s
    /\ outbox s' =
       [mkEmission (ToSocket sid)
                   (WaitingRoomUpdate r (waiting_list (JMap.del u (waiting_of r s))))
                   [sid];
        mkEmission ToAll (RoomsUpdate (getPublicRooms s)) (JMap.keys (sio s))].
Proof.
  intros EM Ehost Hentry Hconn.
  destruct (waiting_of_entry r u s wu Hentry) as (w & EW & Eu).
  rewrite (waiting_get r s w EW).
  eexists. split; [reflexivity|].
  cbn [fst snd]. unfold on_admit_user. simpl_fields.
  rewrite EM, Ehost. cbn [meta_hostId]. rewrite opt_eqb_refl. cbn [negb].
  rewrite EW, Eu.
  unfold connected in *. simpl_fields. rewrite Hconn.
  unfold_emit. unfold waiting_of, getPublicRooms, member_count.
  simpl_fields. rewrite JMapFacts.get_set_same. cbn [app].
  repeat split.
Qed.

Lemma admit_gone_socket_witness :
  JMap.get "R3" (roomMetadata demo_stale_entry)
  = Some (mkRoomMeta true (Some "Standup") (Some "u3") false true)
  /\ JMap.get "s3" (socketToUser demo_stale_entry) = Some "u3"
  /\ JMap.get "u2" (waiting_of "R3" demo_stale_entry)
     = Some (mkWaitingUser "u2" "s2" "u2")
  /\ connected "s2" demo_stale_entry = false
  /\ exists s',
       step demo_stale_entry ("s3", AdmitUser "R3" "u2") = Done s'
       /\ waiting_of "R3" s' = []
       /\ rooms s' = rooms demo_stale_entry
       /\ userToRoom s' = userToRoom demo_stale_entry.
Proof.
  split; [reflexivity|]. split; [reflexivity|]. split; [reflexivity|].
  split; [reflexivity|].
  destruct (admit_gone_socket demo_stale_entry "s3" "R3" "u2"
              (mkRoomMeta true (Some "Standup") (Some "u3") false true)
              (mkWaitingUser "u2" "s2" "u2"))
    as (s' & Hstep & Hw & Hr & _ & _ & Hu & _); try reflexivity.
  exists s'. repeat split; assumption.
Defined.

(** X7: when the socket bound to a room's host denies a user who is on the
    room's waiting list, the waiting entry is removed and the host's socket
    receives the shortened list; members, metadata and current-room bindings
    stay as they were and the directory is not broadcast. If the denied
    user's socket is connected it receives [denied] and its session binding
    is deleted; otherwise nothing more happens. *)
Theorem deny_by_host (s : State) (sid r u : string) (meta : RoomMeta) (wu : WaitingUser) :
  JMap.get r (roomMetadata s) = Some meta ->
  JMap.get sid (socketToUser s) = hostId meta ->
  JMap.get u (waiting_of r s) = Some wu ->
  exists s',
    step s (sid, DenyUser r u) = Done s'
    /\ waiting_of r s' = JMap.del u (waiting_of r s)
    /\ rooms s' = rooms s
    /\ roomMetadata s' = roomMetadata s
    /\ userToRoom s' = userToRoom s
    /\ sio s' = sio s
    /\ socketToUser s' =
       (if connected (socketId wu) s then JMap.del (socketId wu) (socketToUser s)
        else socketToUser s)
    /\ outbox s' =
       (if connected (socketId wu) s
        then [mkEmission (ToSocket (socketId wu)) (Denied r) [socketId wu]]
        else [])
       ++ [mkEmission (ToSocket sid)
                      (WaitingRoomUpdate r (waiting_list (JMap.del u (waiting_of r s))))
                      [sid]].
Proof.
  intros EM Ehost Hentry.
  destruct (waiting_of_entry r u s wu Hentry) as (w & EW & Eu).
  rewrite (waiting_get r s w EW).
  eexists. split; [reflexivity|].
  cbn [fst snd]. unfold on_deny_user. simpl_fields.
  rewrite EM, Ehost. cbn [meta_hostId]. rewrite opt_eqb_refl. cbn [negb].
  rewrite EW, Eu.
  unfold connected in *. simpl_fields.
  destruct (JMap.has (socketId wu) (sio s));
    unfold_emit; unfold waiting_of; simpl_fields;
    rewrite JMapFacts.get_set_same; cbn [app]; repeat split.
Qed.

Lemma deny_by_host_witness :
  JMap.get "R1" (roomMetadata demo_queued)
  = Some (mkRoomMeta true (Some "Standup") (Some "u1") false true)
  /\ JMap.get "s1" (socketToUser demo_queued) = Some "u1"
  /\ JMap.get "u2" (waiting_of "R1" demo_queued) = Some (mkWaitingUser "u2" "s2" "u2")
  /\ exists s',
       step demo_queued ("s1", DenyUser "R1" "u2") = Done s'
       /\ waiting_of "R1" s' = []
       /\ rooms s' = rooms demo_queued
       /\ socketToUser s' = [("s1", "u1")]
       /\ outbox s' =
          [mkEmission (ToSocket "s2") (Denied "R1") ["s2"];
           mkEmission (ToSocket "s1") (WaitingRoomUpdate "R1" []) ["s1"]].
Proof.
  split; [reflexivity|]. split; [reflexivity|]. split; [reflexivity|].
  destruct (deny_by_host demo_queued "s1" "R1" "u2"
              (mkRoomMeta true (Some "Standup") (Some "u1") false true)
              (mkWaitingUser "u2" "s2" "u2"))
    as (s' & Hstep & Hw & Hr & _ & _ & _ & Hs & Ho); try reflexivity.
  exists s'. repeat split; assumption.
Defined.

(** ** The host's toggles *)

Lemma set_get_same {V} k (v : V) m : JMap.get k m = Some v -> JMap.set k v m = m.
Proof.
  induction m as [|[k0 v0] m IH]; cbn; [discriminate|].
  destruct (k =? k0) eqn:E.
  - apply String.eqb_eq in E. subst. intros [= ->]. reflexivity.
  - intros H. rewrite IH by assumption. reflexivity.
Qed.

Lemma set_set {V} k (a b : V) m : JMap.set k a (JMap.set k b m) = JMap.set k a m.
Proof.
  induction m as [|[k0 v0] m IH]; cbn.
  - rewrite String.eqb_refl. reflexivity.
  - destruct (k =? k0) eqn:E; cbn.
    + rewrite String.eqb_refl. reflexivity.
    + rewrite E, IH. reflexivity.
Qed.

Lemma toggle_lock_spec sid r s meta :
  JMap.get r (roomMetadata s) = Some meta ->
  JMap.get sid (socketToUser s) = hostId meta ->
  on_toggle_lock sid r s =
  Done (with_outbox
          (outbox s
           ++ [mkEmission (ToRoom r)
                 (RoomSettingsUpdate
                    (mkRoomSettings (negb (isLocked meta)) (waitingRoom meta) (hostId meta)))
                 (room_sockets r s);
               mkEmission ToAll
                 (RoomsUpdate
                    (getPublicRooms
                       (with_roomMetadata
                          (JMap.set r (set_isLocked (negb (isLocked meta)) meta)
                                    (roomMetadata s)) s)))
                 (JMap.keys (sio s))])
          (with_roomMetadata
             (JMap.set r (set_isLocked (negb (isLocked meta)) meta) (roomMetadata s)) s)).
Proof.
  intros EM Ehost. unfold on_toggle_lock.
  rewrite EM, Ehost. cbn [meta_hostId]. rewrite opt_eqb_refl. cbn [negb].
  unfold_emit. unfold getRoomSettings, room_sockets. simpl_fields.
  rewrite JMapFacts.get_set_same, <- app_assoc. reflexivity.
Qed.

Lemma toggle_waiting_room_spec sid r s meta :
  JMap.get r (roomMetadata s) = Some meta ->
  JMap.get sid (socketToUser s) = hostId meta ->
  on_toggle_waiting_room sid r s =
  Done (with_outbox
          (outbox s
           ++ [mkEmission (ToRoom r)
                 (RoomSettingsUpdate
                    (mkRoomSettings (isLocked meta) (negb (waitingRoom meta)) (hostId meta)))
                 (room_sockets r s);
               mkEmission ToAll
                 (RoomsUpdate
                    (getPublicRooms
                       (with_roomMetadata
                          (JMap.set r (set_waitingRoom (negb (waitingRoom meta)) meta)
                                    (roomMetadata s)) s)))
                 (JMap.keys (sio s))])
          (with_roomMetadata
             (JMap.set r (set_waitingRoom (negb (waitingRoom meta)) meta)
                       (roomMetadata s)) s)).
Proof.
  intros EM Ehost. unfold on_toggle_waiting_room.
  rewrite EM, Ehost. cbn [meta_hostId]. rewrite opt_eqb_refl. cbn [negb].
  unfold_emit. unfold getRoomSettings, room_sockets. simpl_fields.
  rewrite JMapFacts.get_set_same, <- app_assoc. reflexivity.
Qed.

(** X8: toggle-lock from the socket bound to the room's host flips the
    room's lock flag and nothing else in the maps, sends the new settings to
    the sockets of the room and the directory to everyone; a second
    toggle-lock restores the metadata map exactly. *)
Theorem toggle_lock_by_host (s : State) (sid r : string) (meta : RoomMeta) :
  JMap.get r (roomMetadata s) = Some meta ->
  JMap.get sid (socketToUser s) = hostId meta ->
  exists s1 s2,
    step s (sid, ToggleLock r) = Done s1
    /\ JMap.get r (roomMetadata s1) = Some (set_isLocked (negb (isLocked meta)) meta)
    /\ (forall k, k <> r -> JMap.get k (roomMetadata s1) = JMap.get k (roomMetadata s))
    /\ rooms s1 = rooms s /\ waitingRooms s1 = waitingRooms s
    /\ socketToUser s1 = socketToUser s /\ userToRoom s1 = userToRoom s
    /\ userNames s1 = userNames s
    /\ sio s1 = sio s
    /\ outbox s1 =
       [mkEmission (ToRoom r)
          (RoomSettingsUpdate
             (mkRoomSettings (negb (isLocked meta)) (waitingRoom meta) (hostId meta)))
          (room_sockets r s);
        mkEmission ToAll (RoomsUpdate (getPublicRooms s1)) (JMap.keys (sio s))]
    /\ step s1 (sid, ToggleLock r) = Done s2
    /\ same_maps s s2.
Proof.
  intros EM Ehost.
  pose proof (toggle_lock_spec sid r (with_outbox [] s) meta EM Ehost) as H1.
  set (meta1 := set_isLocked (negb (isLocked meta)) meta) in *.
  eexists. eexists. split; [exact H1|].
  unfold same_maps. simpl_fields. cbn [app].
  split; [apply JMapFacts.get_set_same|].
  split; [intros k Hk; apply JMapFacts.get_set_other; assumption|].
  do 7 (split; [reflexivity|]).
  split.
  - unfold step. cbn [fst snd handle]. simpl_fields.
    rewrite (toggle_lock_spec sid r _ meta1); [reflexivity | | exact Ehost].
    simpl_fields. apply JMapFacts.get_set_same.
  - simpl_fields. repeat split.
    rewrite set_set. apply set_get_same. rewrite EM. f_equal.
    subst meta1. destruct meta. unfold set_isLocked. cbn.
    rewrite negb_involutive. reflexivity.
Qed.

Lemma toggle_lock_by_host_witness :
  JMap.get "R1" (roomMetadata demo_room)
  = Some (mkRoomMeta false (Some "Room R1") (Some "u1") false false)
  /\ JMap.get "s1" (socketToUser demo_room) = Some "u1"
  /\ exists s1 s2,
       step demo_room ("s1", ToggleLock "R1") = Done s1
       /\ JMap.get "R1" (roomMetadata s1)
          = Some (mkRoomMeta false (Some "Room R1") (Some "u1") true false)
       /\ step s1 ("s1", ToggleLock "R1") = Done s2
       /\ same_maps demo_room s2.
Proof.
  split; [reflexivity|]. split; [reflexivity|].
  destruct (toggle_lock_by_host demo_room "s1" "R1"
              (mkRoomMeta false (Some "Room R1") (Some "u1") false false))
    as (s1 & s2 & H1 & HM & _ & _ & _ & _ & _ & _ & _ & _ & H2 & Hsame);
    try reflexivity.
  exists s1, s2. repeat split; try assumption; apply Hsame.
Defined.

(** X9: toggle-waiting-room from the socket bound to the room's host flips
    the room's waiting-room flag and nothing else: the waiting entries
    already queued stay where they are, whichever way the flag goes. The new
    settings go to the sockets of the room and the directory to everyone; a
    second toggle restores the metadata map exactly. *)
Theorem toggle_waiting_room_by_host (s : State) (sid r : string) (meta : RoomMeta) :
  JMap.get r (roomMetadata s) = Some meta ->
  JMap.get sid (socketToUser s) = hostId meta ->
  exists s1 s2,
    step s (sid, ToggleWaitingRoom r) = Done s1
    /\ JMap.get r (roomMetadata s1)
       = Some (set_waitingRoom (negb (waitingRoom meta)) meta)
    /\ (forall k, k <> r -> JMap.get k (roomMetadata s1) = JMap.get k (roomMetadata s))
    /\ rooms s1 = rooms s /\ waitingRooms s1 = waitingRooms s
    /\ socketToUser s1 = socketToUser s /\ userToRoom s1 = userToRoom s
    /\ userNames s1 = userNames s
    /\ sio s1 = sio s
    /\ outbox s1 =
       [mkEmission (ToRoom r)
          (RoomSettingsUpdate
             (mkRoomSettings (isLocked meta) (negb (waitingRoom meta)) (hostId meta)))
          (room_sockets r s);
        mkEmission ToAll (RoomsUpdate (getPublicRooms s1)) (JMap.keys (sio s))]
    /\ step s1 (sid, ToggleWaitingRoom r) = Done s2
    /\ same_maps s s2.
Proof.
  intros EM Ehost.
  pose proof (toggle_waiting_room_spec sid r (with_outbox [] s) meta EM Ehost) as H1.
  set (meta1 := set_waitingRoom (negb (waitingRoom meta)) meta) in *.
  eexists. eexists. split; [exact H1|].
  unfold same_maps. simpl_fields. cbn [app].
  split; [apply JMapFacts.get_set_same|].
  split; [intros k Hk; apply JMapFacts.get_set_other; assumption|].
  do 7 (split; [reflexivity|]).
  split.
  - unfold step. cbn [fst snd handle]. simpl_fields.
    rewrite (toggle_waiting_room_spec sid r _ meta1); [reflexivity | | exact Ehost].
    simpl_fields. apply JMapFacts.get_set_same.
  - simpl_fields. repeat split.
    rewrite set_set. apply set_get_same. rewrite EM. f_equal.
    subst meta1. destruct meta. unfold set_waitingRoom. cbn.
    rewrite negb_involutive. reflexivity.
Qed.

Lemma toggle_waiting_room_by_host_witness :
  JMap.get "R1" (roomMetadata demo_queued)
  = Some (mkRoomMeta true (Some "Standup") (Some "u1") false true)
  /\ JMap.get "s1" (socketToUser demo_queued) = Some "u1"
  /\ exists s1 s2,
       step demo_queued ("s1", ToggleWaitingRoom "R1") = Done s1
       /\ JMap.get "R1" (roomMetadata s1)
          = Some (mkRoomMeta true (Some "Standup") (Some "u1") false false)
       /\ waiting_of "R1" s1 = [("u2", mkWaitingUser "u2" "s2" "u2")]
       /\ step s1 ("s1", ToggleWaitingRoom "R1") = Done s2
       /\ same_maps demo_queued s2.
Proof.
  split; [reflexivity|]. split; [reflexivity|].
  destruct (toggle_waiting_room_by_host demo_queued "s1" "R1"
              (mkRoomMeta true (Some "Standup") (Some "u1") false true))
    as (s1 & s2 & H1 & HM & _ & _ & HW & _ & _ & _ & _ & _ & H2 & Hsame);
    try reflexivity.
  exists s1, s2. split; [exact H1|]. split; [exact HM|].
  split; [unfold waiting_of; rewrite HW; reflexivity|].
  split; [exact H2 | exact Hsame].
Defined.

(** ** From the waiting list into the room *)

Lemma join_room_waits sid r u config userName s meta :
  JMap.get r (roomMetadata s) = Some meta ->
  isLocked meta = false ->
  waitingRoom meta = true ->
  hostId meta <> Some u ->
  let s' := on_join_room sid r u config userName s in
  JMap.get r (waitingRooms s')
  = Some (JMap.set u (mkWaitingUser u sid (shown_name userName u)) (waiting_of r s))
  /\ rooms s' = rooms s
  /\ roomMetadata s' = roomMetadata s
  /\ socketToUser s' = JMap.set sid u (socketToUser s)
  /\ userToRoom s' = userToRoom s
  /\ sio s' = sio s.
Proof.
  intros EM EL EW Hhost. cbn zeta. unfold on_join_room.
  set (s1 := if truthy_opt userName then _ else _).
  destruct (names_roomMetadata_frame userName u s) as (ER1 & EM1 & EW1 & ES1 & EU1 & EI1 & _).
  fold s1 in ER1, EM1, EW1, ES1, EU1, EI1. clearbody s1.
  rewrite EM1, EM. cbn [opt_flag meta_hostId]. rewrite EL, EW.
  assert (Eh : opt_eqb (hostId meta) (Some u) = false).
  { destruct (opt_eqb _ _) eqn:E; [|reflexivity]. apply opt_eqb_eq in E. contradiction. }
  rewrite Eh. cbn [negb andb].
  destruct (join_waiting_spec sid r u userName (hostId meta) s1) as (HW & HR & HS & _).
  rewrite join_waiting_roomMetadata, join_waiting_userToRoom, join_waiting_sio.
  assert (Ew : waiting_of r s1 = waiting_of r s)
    by (unfold waiting_of; rewrite EW1; reflexivity).
  rewrite Ew in HW. repeat split; congruence.
Qed.

(** X10: the waiting room end to end. In a reachable state, a user who is
    not the host asks to join an unlocked room with the waiting room on,
    from a connected socket other than the host's; the host's socket then
    admits that user. After the request membership is unchanged; after the
    admission the user is a member, is no longer on the waiting list, has
    the room as current room, and the requesting socket has been sent
    [admitted]. *)
Theorem waiting_then_admitted (s : State) (sidH sidU r u h : string)
    (config : option RoomConfig) (userName : option string) (meta : RoomMeta) :
  reachable s ->
  JMap.get r (roomMetadata s) = Some meta ->
  isLocked meta = false ->
  waitingRoom meta = true ->
  hostId meta = Some h ->
  u <> h ->
  JMap.get sidH (socketToUser s) = Some h ->
  sidU <> sidH ->
  connected sidU s = true ->
  exists s1 s2,
    step s (sidU, JoinRoom r u config userName) = Done s1
    /\ members_of r s1 = members_of r s
    /\ step s1 (sidH, AdmitUser r u) = Done s2
    /\ members_of r s2 = JSet.add u (members_of r s)
    /\ In u (members_of r s2)
    /\ JMap.get u (waiting_of r s2) = None
    /\ JMap.get u (userToRoom s2) = Some r
    /\ In (mkEmission (ToSocket sidU) (AdmittedMsg r false (getRoomSettings r s)) [sidU])
          (outbox s2).
Proof.
  intros Hreach EM EL EW Eh Hne EH Hsid Hconn.
  destruct (Inv3_meta_exists _ _ _ _ _ (Inv_reachable s Hreach) EM)
    as (h' & members & _ & ER & _).
  assert (Hhost : hostId meta <> Some u) by congruence.
  destruct (join_room_waits sidU r u config userName (with_outbox [] s) meta
              EM EL EW Hhost) as (HW1 & HR1 & HM1 & HS1 & HU1 & HI1).
  simpl_fields.
  set (s1 := on_join_room sidU r u config userName (with_outbox [] s)) in *.
  set (entry := mkWaitingUser u sidU (shown_name userName u)) in *.
  set (w1 := JMap.set u entry (waiting_of r (with_outbox [] s))) in *.
  assert (EM1 : JMap.get r (roomMetadata (with_outbox [] s1)) = Some meta)
    by (simpl_fields; congruence).
  assert (EH1 : JMap.get sidH (socketToUser (with_outbox [] s1)) = hostId meta).
  { simpl_fields. rewrite HS1, JMapFacts.get_set_other by auto. congruence. }
  assert (Eu1 : JMap.get u w1 = Some entry) by apply JMapFacts.get_set_same.
  assert (ER1 : JMap.get r (rooms (with_outbox [] s1)) = Some members)
    by (simpl_fields; congruence).
  assert (Hc1 : connected (socketId entry) (with_outbox [] s1) = true).
  { unfold connected in *. simpl_fields. rewrite HI1. exact Hconn. }
  destruct (admit_connected_spec (with_outbox [] s1) sidH r u meta w1 entry members
              EM1 EH1 HW1 Eu1 ER1 Hc1) as (HW2 & HM2 & HU2 & _ & _ & _ & HO2).
  exists s1, (on_admit_user sidH r u (with_outbox [] s1)).
  assert (Em : members_of r s = members) by (unfold members_of; rewrite ER; reflexivity).
  split; [reflexivity|].
  split; [unfold members_of; rewrite HR1; reflexivity|].
  split; [reflexivity|].
  rewrite Em. split; [exact HM2|].
  split; [rewrite HM2; apply JSetFacts.In_add; auto|].
  split; [rewrite HW2; apply JMapFacts.get_del_same|].
  split; [exact HU2|].
  rewrite HO2. cbn [outbox with_outbox app socketId entry].
  right. left. f_equal. f_equal.
  unfold getRoomSettings. simpl_fields. rewrite HM1. reflexivity.
Qed.

Lemma waiting_then_admitted_witness :
  reachable demo_gated
  /\ JMap.get "R1" (roomMetadata demo_gated)
     = Some (mkRoomMeta true (Some "Standup") (Some "u1") false true)
  /\ "u2" <> "u1"
  /\ JMap.get "s1" (socketToUser demo_gated) = Some "u1"
  /\ "s2" <> "s1"
  /\ connected "s2" demo_gated = true
  /\ exists s1 s2,
       step demo_gated ("s2", JoinRoom "R1" "u2" None None) = Done s1
       /\ members_of "R1" s1 = ["u1"]
       /\ step s1 ("s1", AdmitUser "R1" "u2") = Done s2
       /\ members_of "R1" s2 = ["u1"; "u2"]
       /\ JMap.get "u2" (waiting_of "R1" s2) = None
       /\ JMap.get "u2" (userToRoom s2) = Some "R1".
Proof.
  split; [exact demo_gated_reachable|]. split; [reflexivity|].
  split; [discriminate|]. split; [reflexivity|]. split; [discriminate|].
  split; [reflexivity|].
  destruct (waiting_then_admitted demo_gated "s1" "s2" "R1" "u2" "u1" None None
              (mkRoomMeta true (Some "Standup") (Some "u1") false true)
              demo_gated_reachable)
    as (s1 & s2 & H1 & Hm1 & H2 & Hm2 & _ & Hw & Hu & _);
    try reflexivity; try discriminate.
  exists s1, s2. repeat split; assumption.
Defined.

(** ** Leaving and disconnecting *)

Lemma not_In_del u m : ~ In u (JSet.del u m).
Proof. intros H. apply JSetFacts.In_del in H. destruct H as [_ H]. auto. Qed.

(** X11: leave-room is carried out for the user and room named in the
    payload, whichever socket sends it and whether or not the user was a
    member: afterwards the user is not in that room's member set, the other
    rooms' member sets are as before, the user's current-room binding and
    display name are deleted (also when the binding named another room),
    and [user-disconnected] has been addressed to the room. *)
Theorem leave_room_removes_named_user (s : State) (sid r u : string) :
  exists s',
    step s (sid, LeaveRoom r u) = Done s'
    /\ members_of r s' = JSet.del u (members_of r s)
    /\ ~ In u (members_of r s')
    /\ (forall k, k <> r -> members_of k s' = members_of k s)
    /\ JMap.get u (userToRoom s') = None
    /\ JMap.get u (userNames s') = None
    /\ (forall v, v <> u -> JMap.get v (userToRoom s') = JMap.get v (userToRoom s))
    /\ exists to, In (mkEmission (ToRoomExcept r sid) (UserDisconnected u) to) (outbox s').
Proof.
  eexists. split; [reflexivity|]. cbn [fst snd].
  unfold on_leave_room.
  set (s1 := socket_leave sid r (with_outbox [] s)).
  assert (E1 : rooms s1 = rooms s /\ userToRoom s1 = userToRoom s)
    by (subst s1; rewrite socket_leave_eq; split; reflexivity).
  destruct E1 as (ER1 & EU1).
  destruct (remove_member_frame r u s1) as (EU & EN).
  assert (Hm : forall k, members_of k (broadcastPublicRooms
                 (with_userNames (JMap.del u (userNames
                    (with_userToRoom (JMap.del u (userToRoom
                       (socket_to sid r (UserDisconnected u) (remove_member r u s1))))
                       (socket_to sid r (UserDisconnected u) (remove_member r u s1)))))
                    (with_userToRoom (JMap.del u (userToRoom
                       (socket_to sid r (UserDisconnected u) (remove_member r u s1))))
                       (socket_to sid r (UserDisconnected u) (remove_member r u s1)))))
               = if k =? r then JSet.del u (members_of r s) else members_of k s).
  { intros k. rewrite <- (members_frame r s s1 ER1), <- (members_frame k s s1 ER1).
    rewrite <- remove_member_members. reflexivity. }
  split; [rewrite Hm, String.eqb_refl; reflexivity|].
  split; [rewrite Hm, String.eqb_refl; apply not_In_del|].
  split.
  { intros k Hk. rewrite Hm. apply String.eqb_neq in Hk. rewrite Hk. reflexivity. }
  unfold_emit. simpl_fields.
  split; [apply JMapFacts.get_del_same|].
  split; [apply JMapFacts.get_del_same|].
  split.
  { intros v Hv. rewrite JMapFacts.get_del_other by assumption. congruence. }
  eexists. apply in_or_app. left. apply in_or_app. right. left. reflexivity.
Qed.

(** X12: the disconnect of a socket bound to a non-empty user identifier
    removes the socket's binding, the user's current-room binding and the
    user's display name, and takes the user out of the member set of its
    current room (when that room's identifier is non-empty); the member sets
    of all other rooms, including others the user had also joined, are left
    as they were. *)
Theorem disconnect_cleans_current_room (s : State) (sid u : string) :
  JMap.get sid (socketToUser s) = Some u ->
  truthy u = true ->
  exists s',
    step s (sid, Disconnect) = Done s'
    /\ connected sid s' = false
    /\ JMap.get sid (socketToUser s') = None
    /\ JMap.get u (userToRoom s') = None
    /\ JMap.get u (userNames s') = None
    /\ (forall r, JMap.get u (userToRoom s) = Some r -> truthy r = true ->
          members_of r s' = JSet.del u (members_of r s) /\ ~ In u (members_of r s'))
    /\ (forall k, JMap.get u (userToRoom s) <> Some k ->
          members_of k s' = members_of k s).
Proof.
  intros ES Tu. eexists. split; [reflexivity|]. cbn [fst snd].
  unfold on_disconnect. simpl_fields. rewrite ES, Tu.
  set (s0 := with_sio _ (with_outbox [] s)).
  pose proof (leave_waiting_rooms u s0) as ER1.
  destruct (leave_waiting_frame u s0) as (EI1 & _).
  set (s1 := leave_waiting u s0) in *.
  assert (EI0 : sio s0 = JMap.del sid (sio s)) by reflexivity.
  assert (ER0 : rooms s0 = rooms s) by reflexivity.
  clearbody s1 s0.
  set (s2 := match JMap.get u (userToRoom s) with
             | Some r => if truthy r then disconnect_room sid r u s1 else s1
             | None => s1
             end).
  assert (HI2 : sio s2 = JMap.del sid (sio s)).
  { subst s2. destruct (JMap.get u (userToRoom s)) as [r|]; [destruct (truthy r)|];
      try congruence.
    unfold disconnect_room. unfold_emit. simpl_fields.
    rewrite remove_member_sio. congruence. }
  assert (Hm : forall k, members_of k s2 =
             match JMap.get u (userToRoom s) with
             | Some r => if truthy r then
                           if k =? r then JSet.del u (members_of r s) else members_of k s
                         else members_of k s
             | None => members_of k s
             end).
  { intros k. subst s2.
    assert (E : forall j, members_of j s1 = members_of j s)
      by (intros j; unfold members_of; rewrite ER1, ER0; reflexivity).
    destruct (JMap.get u (userToRoom s)) as [r|]; [destruct (truthy r)|]; auto.
    unfold disconnect_room. unfold_emit.
    rewrite <- !E, <- remove_member_members. reflexivity. }
  clearbody s2.
  unfold connected, JMap.has, members_of in *. simpl_fields.
  rewrite HI2, !JMapFacts.get_del_same.
  do 4 (split; [reflexivity|]).
  split.
  - intros r Er Tr. specialize (Hm r). rewrite Er, Tr, String.eqb_refl in Hm.
    rewrite Hm. split; [reflexivity|apply not_In_del].
  - intros k Hk. specialize (Hm k).
    destruct (JMap.get u (userToRoom s)) as [r|]; [|exact Hm].
    destruct (truthy r); [|exact Hm].
    destruct (k =? r) eqn:Ek; [|exact Hm].
    apply String.eqb_eq in Ek. congruence.
Qed.

(** X13: the disconnect of a socket that has no session binding, or whose
    binding is the empty identifier, only takes the socket out of socket.io:
    no map changes and nothing is emitted, so a user who joined under the
    empty identifier stays a member and stays bound. *)
Theorem disconnect_without_user (s : State) (sid : string) :
  JMap.get sid (socketToUser s) = None \/ JMap.get sid (socketToUser s) = Some "" ->
  exists s',
    step s (sid, Disconnect) = Done s'
    /\ same_maps s s'
    /\ sio s' = JMap.del sid (sio s)
    /\ outbox s' = [].
Proof.
  intros H. eexists. split; [reflexivity|]. cbn [fst snd].
  unfold on_disconnect, same_maps. simpl_fields.
  destruct H as [-> | ->]; cbn; repeat split.
Qed.

Lemma disconnect_cleans_current_room_witness :
  JMap.get "s2" (socketToUser demo_two_rooms) = Some "u2"
  /\ truthy "u2" = true
  /\ JMap.get "u2" (userToRoom demo_two_rooms) = Some "R2"
  /\ members_of "R1" demo_two_rooms = ["u1"; "u2"]
  /\ exists s',
       step demo_two_rooms ("s2", Disconnect) = Done s'
       /\ JMap.get "s2" (socketToUser s') = None
       /\ JMap.get "u2" (userToRoom s') = None
       /\ members_of "R2" s' = []
       /\ members_of "R1" s' = ["u1"; "u2"].
Proof.
  split; [reflexivity|]. split; [reflexivity|]. split; [reflexivity|].
  split; [reflexivity|].
  destruct (disconnect_cleans_current_room demo_two_rooms "s2" "u2")
    as (s' & Hstep & _ & Hs & Hu & _ & Hcur & Hother); try reflexivity.
  exists s'. split; [exact Hstep|]. split; [exact Hs|]. split; [exact Hu|].
  split.
  - destruct (Hcur "R2") as [E _]; [reflexivity | reflexivity |]. exact E.
  - apply (Hother "R1"). discriminate.
Defined.

Lemma disconnect_without_user_witness :
  JMap.get "s2" (socketToUser demo_room) = None
  /\ exists s',
       step demo_room ("s2", Disconnect) = Done s'
       /\ same_maps demo_room s'
       /\ sio s' = [("s1", ["s1"; "R1"])]
       /\ outbox s' = [].
Proof.
  split; [reflexivity|].
  destruct (disconnect_without_user demo_room "s2") as (s' & H & Hs & Hi & Ho);
    [left; reflexivity|].
  exists s'. repeat split; try assumption; apply Hs.
Defined.

(** * More properties of the Peer Session Negotiator *)

(** ** Connections are reused, not replaced *)

Ltac simpl_hook :=
  cbn [peers peerNames peerScreenShares sent errors rejections fst snd with_peers reject
       setRemoteDescription setLocalDescription remoteDescription localDescription
       appliedCandidates pendingLocalOffer newPeerConnection hook prevStatsRef
       localStreamRef with_hook]
    in *.

Lemma size_set {V} k (v : V) m :
  JMap.size (JMap.set k v m) = if JMap.has k m then JMap.size m else S (JMap.size m).
Proof.
  unfold JMap.size, JMap.has. induction m as [|[k0 v0] m IH]; cbn; [reflexivity|].
  destruct (k =? k0); cbn; [reflexivity|].
  rewrite IH. destruct (JMap.get k m); reflexivity.
Qed.

(** What [handleOffer] leaves for the calls that follow. *)
Lemma handleOffer_outcome (implicitRollback : bool) (userName : string)
    (isScreenShare : bool) (callerId callerName : string) (remoteShare : bool)
    (offer : string) (h : Hook) :
  let h' := handleOffer implicitRollback userName isScreenShare callerId callerName
                        remoteShare offer h in
  errors h' = errors h
  /\ if offer_refused implicitRollback callerId h then
       peers h' = peers h
       /\ exists pc, JMap.get callerId (peers h) = Some pc /\ pendingLocalOffer pc = true
     else
       JMap.get callerId (peers h')
       = Some (mkPeerConnection (Some (Received offer)) (Some CreatedAnswer)
                 (match JMap.get callerId (peers h) with
                  | Some pc => appliedCandidates pc
                  | None => []
                  end)
                 false).
Proof.
  cbn zeta. unfold handleOffer, createPeerConnection, offer_refused. simpl_hook.
  destruct (JMap.get callerId (peers h)) as [pc|] eqn:E; simpl_hook.
  - destruct (pendingLocalOffer pc) eqn:Ep; [destruct implicitRollback|];
      cbn [andb negb]; simpl_hook; rewrite ?JMapFacts.get_set_same; eauto.
  - rewrite !JMapFacts.get_set_same. auto.
Qed.

(** X14: an offer from a caller is answered on the caller's existing
    connection when there is one (its applied candidates are kept, so
    renegotiation tears nothing down) and on a fresh connection otherwise:
    the connection gets the offer as remote description and the created
    answer as local description and is stable again, exactly one answer
    addressed to the caller is sent, and the number of connections grows by
    one only for a new caller. The one exception is an offer the browser
    refuses, because the caller's connection has a pending local offer and
    the implementation does not roll it back: the handler ends on the
    rejected call, which nobody catches; no answer is sent and no
    connection changes. Either way the caller's name and screen-share flag
    are recorded, the connections of other peers are untouched and nothing
    is logged. *)
Theorem handleOffer_reuses_connection (implicitRollback : bool) (userName : string)
    (isScreenShare : bool) (callerId callerName : string) (remoteShare : bool)
    (offer : string) (h : Hook) :
  let h' := handleOffer implicitRollback userName isScreenShare callerId callerName
                        remoteShare offer h in
  JMap.get callerId (peerNames h') = Some callerName
  /\ JMap.get callerId (peerScreenShares h') = Some remoteShare
  /\ (forall k, k <> callerId -> JMap.get k (peers h') = JMap.get k (peers h))
  /\ errors h' = errors h
  /\ if offer_refused implicitRollback callerId h then
       peers h' = peers h
       /\ sent h' = sent h
       /\ rejections h'
          = rejections h ++ ["InvalidStateError: setRemoteDescription(offer)"]
     else
       JMap.get callerId (peers h')
       = Some (mkPeerConnection (Some (Received offer)) (Some CreatedAnswer)
                 (match JMap.get callerId (peers h) with
                  | Some pc => appliedCandidates pc
                  | None => []
                  end)
                 false)
       /\ JMap.size (peers h')
          = (if JMap.has callerId (peers h) then JMap.size (peers h)
             else S (JMap.size (peers h)))
       /\ sent h' = sent h ++ [SendAnswer callerId userName isScreenShare CreatedAnswer]
       /\ rejections h' = rejections h.
Proof.
  cbn zeta. unfold handleOffer, createPeerConnection, offer_refused. simpl_hook.
  destruct (JMap.get callerId (peers h)) as [pc|] eqn:E; simpl_hook.
  - destruct (pendingLocalOffer pc) eqn:Ep; [destruct implicitRollback|];
      cbn [andb negb]; simpl_hook;
      rewrite ?JMapFacts.get_set_same, ?size_set; unfold JMap.has; rewrite ?E;
      cbn [isSome]; repeat split;
      intros k Hk; apply JMapFacts.get_set_other; assumption.
  - rewrite !JMapFacts.get_set_same, set_set, size_set.
    unfold JMap.has. rewrite E. cbn [isSome].
    repeat split. intros k Hk. apply JMapFacts.get_set_other. assumption.
Qed.

(** Both sides offer at once: the local hook has offered to [u2] and then
    receives [u2]'s offer. Without implicit rollback the offer is refused
    and nothing is answered; with it the offer is answered on the same
    connection. *)
Example offers_cross :
  let h := handleUserConnected "Ann" false "u2" emptyHook in
  let refused := handleOffer false "Ann" false "u2" "Bea" false "offer-sdp" h in
  let answered := handleOffer true "Ann" false "u2" "Bea" false "offer-sdp" h in
  offer_refused false "u2" h = true
  /\ peers refused = peers h
  /\ sent refused = sent h
  /\ rejections refused = ["InvalidStateError: setRemoteDescription(offer)"]
  /\ JMap.get "u2" (peers answered)
     = Some (mkPeerConnection (Some (Received "offer-sdp")) (Some CreatedAnswer) [] false)
  /\ sent answered = sent h ++ [SendAnswer "u2" "Ann" false CreatedAnswer].
Proof. cbn zeta. repeat split. Qed.

(** X15: a joining peer is offered to on its existing connection when there
    is one and on a fresh one otherwise: the connection keeps its remote
    description and applied candidates, gets the created offer as local
    description, and exactly one offer addressed to the new peer is sent. *)
Theorem handleUserConnected_offers_once (userName : string) (isScreenShare : bool)
    (newUserId : string) (h : Hook) :
  let h' := handleUserConnected userName isScreenShare newUserId h in
  JMap.get newUserId (peers h')
  = Some (match JMap.get newUserId (peers h) with
          | Some pc =>
              mkPeerConnection (remoteDescription pc) (Some CreatedOffer)
                               (appliedCandidates pc) true
          | None => mkPeerConnection None (Some CreatedOffer) [] true
          end)
  /\ (forall k, k <> newUserId -> JMap.get k (peers h') = JMap.get k (peers h))
  /\ sent h' = sent h ++ [SendOffer newUserId userName isScreenShare CreatedOffer]
  /\ offers_to newUserId (sent h')
     = offers_to newUserId (sent h)
       ++ [SendOffer newUserId userName isScreenShare CreatedOffer].
Proof.
  cbn zeta. unfold handleUserConnected, createPeerConnection, offers_to.
  destruct (JMap.get newUserId (peers h)) as [pc|] eqn:E; simpl_hook.
  - rewrite JMapFacts.get_set_same, filter_app. cbn [filter].
    rewrite String.eqb_refl.
    repeat split. intros k Hk. apply JMapFacts.get_set_other. assumption.
  - rewrite JMapFacts.get_set_same, set_set, filter_app. cbn [filter].
    rewrite String.eqb_refl.
    repeat split. intros k Hk. apply JMapFacts.get_set_other. assumption.
Qed.

(** ** Candidates after the remote description *)

Lemma handleIceCandidate_frame callerId c h :
  let h' := handleIceCandidate callerId c h in
  sent h' = sent h /\ peerNames h' = peerNames h
  /\ peerScreenShares h' = peerScreenShares h.
Proof.
  cbn zeta. unfold handleIceCandidate.
  destruct (JMap.get callerId (peers h)) as [pc|]; [|tauto].
  destruct (addIceCandidate c pc); cbn; tauto.
Qed.

Lemma handleIceCandidates_applied callerId cs : forall h pc d,
  JMap.get callerId (peers h) = Some pc ->
  remoteDescription pc = Some d ->
  let h' := handleIceCandidates callerId cs h in
  JMap.get callerId (peers h')
  = Some (mkPeerConnection (Some d) (localDescription pc) (appliedCandidates pc ++ cs)
                           (pendingLocalOffer pc))
  /\ errors h' = errors h
  /\ sent h' = sent h.
Proof.
  induction cs as [|c cs IH]; intros h pc d E Er; cbn zeta.
  - cbn. rewrite app_nil_r, E, <- Er. destruct pc; auto.
  - rewrite handleIceCandidates_cons.
    set (h1 := handleIceCandidate callerId c h).
    assert (E1 : JMap.get callerId (peers h1)
                 = Some (mkPeerConnection (Some d) (localDescription pc)
                                          (appliedCandidates pc ++ [c])
                                          (pendingLocalOffer pc))
                 /\ errors h1 = errors h /\ sent h1 = sent h).
    { subst h1. unfold handleIceCandidate, addIceCandidate. rewrite E, Er. cbn.
      rewrite JMapFacts.get_set_same. auto. }
    destruct E1 as (E1 & Ee & Es). clearbody h1.
    destruct (IH h1 _ d E1 eq_refl) as (H1 & H2 & H3). cbn in H1.
    rewrite <- app_assoc in H1. cbn in H1.
    repeat split; congruence.
Qed.

(** X16: candidates that arrive after a caller's offer has been accepted
    are never dropped: each one is applied to the caller's connection, in
    arrival order and after any candidates the connection had already
    applied, and no error is logged. When the offer was refused (the
    caller's connection had a pending local offer and the browser does not
    roll it back), the connection is as it was before the offer: the
    candidates are applied if it has a remote description from an earlier
    exchange, and otherwise rejected by it, one logged error each. Nothing
    is sent for a candidate. *)
Theorem candidates_after_offer_are_applied (implicitRollback : bool) (userName : string)
    (isScreenShare : bool) (callerId callerName : string) (remoteShare : bool)
    (offer : string) (cs : list string) (h : Hook) :
  let h1 := handleOffer implicitRollback userName isScreenShare callerId callerName
                        remoteShare offer h in
  let h2 := handleIceCandidates callerId cs h1 in
  sent h2 = sent h1
  /\ if offer_refused implicitRollback callerId h then
       match JMap.get callerId (peers h) with
       | Some pc =>
           match remoteDescription pc with
           | Some _ =>
               JMap.get callerId (peers h2)
               = Some (mkPeerConnection (remoteDescription pc) (localDescription pc)
                                        (appliedCandidates pc ++ cs) true)
               /\ errors h2 = errors h
           | None =>
               peers h2 = peers h
               /\ errors h2
                  = errors h ++ map (fun _ => "Error adding received ice candidate") cs
           end
       | None => False
       end
     else
       JMap.get callerId (peers h2)
       = Some (mkPeerConnection (Some (Received offer)) (Some CreatedAnswer)
                 ((match JMap.get callerId (peers h) with
                   | Some pc => appliedCandidates pc
                   | None => []
                   end) ++ cs)
                 false)
       /\ errors h2 = errors h.
Proof.
  cbn zeta.
  destruct (handleOffer_outcome implicitRollback userName isScreenShare
              callerId callerName remoteShare offer h) as (He & Hcase).
  set (h1 := handleOffer implicitRollback userName isScreenShare callerId callerName
                         remoteShare offer h) in *.
  clearbody h1.
  destruct (offer_refused implicitRollback callerId h) eqn:Eref.
  - destruct Hcase as (Hp & pc & E & Epend).
    assert (E1 : JMap.get callerId (peers h1) = Some pc) by congruence.
    rewrite E. destruct (remoteDescription pc) as [d|] eqn:Er.
    + destruct (handleIceCandidates_applied callerId cs h1 pc d E1 Er) as (H1 & H2 & H3).
      rewrite Epend in H1. repeat split; congruence.
    + rewrite (handleIceCandidates_rejected callerId cs h1 pc E1 Er). cbn.
      repeat split; congruence.
  - destruct (handleIceCandidates_applied callerId cs h1 _ (Received offer) Hcase eq_refl)
      as (H1 & H2 & H3).
    cbn in H1. repeat split; congruence.
Qed.

(** ** Answers, late signals and departures *)

(** X17: an answer is applied to the caller's connection as its remote
    description when the connection has a pending local offer: the local
    description and the applied candidates are kept and the connection is
    stable again. An answer for a connection without a pending local offer
    (a second answer, or one that follows an offer the hook has answered
    itself) is refused by the browser: the connection keeps its remote
    description and the rejection is not caught. An answer from a caller
    without a connection changes no connection and is not an error. The
    caller's name and screen-share flag are recorded in all three cases,
    nothing is sent and nothing is logged. *)
Theorem handleAnswer_sets_remote (implicitRollback : bool) (callerId callerName : string)
    (remoteShare : bool) (answer : string) (h : Hook) :
  let h' := handleAnswer implicitRollback callerId callerName remoteShare answer h in
  match JMap.get callerId (peers h) with
  | Some pc =>
      if pendingLocalOffer pc then
        JMap.get callerId (peers h')
        = Some (mkPeerConnection (Some (Received answer)) (localDescription pc)
                                 (appliedCandidates pc) false)
        /\ (forall k, k <> callerId -> JMap.get k (peers h') = JMap.get k (peers h))
        /\ rejections h' = rejections h
      else
        peers h' = peers h
        /\ rejections h'
           = rejections h ++ ["InvalidStateError: setRemoteDescription(answer)"]
  | None => peers h' = peers h /\ rejections h' = rejections h
  end
  /\ JMap.get callerId (peerNames h') = Some callerName
  /\ JMap.get callerId (peerScreenShares h') = Some remoteShare
  /\ sent h' = sent h
  /\ errors h' = errors h.
Proof.
  cbn zeta. unfold handleAnswer. simpl_hook.
  destruct (JMap.get callerId (peers h)) as [pc|] eqn:E; simpl_hook;
    [destruct (pendingLocalOffer pc)|]; simpl_hook;
    rewrite !JMapFacts.get_set_same; repeat split.
  intros k Hk. apply JMapFacts.get_set_other. assumption.
Qed.

(** A second answer, and an answer after the hook has answered the
    caller's offer itself, are refused and leave the connection alone. *)
Example answer_without_pending_offer :
  let offered := handleUserConnected "Ann" false "u2" emptyHook in
  let once := handleAnswer true "u2" "Bea" false "answer-1" offered in
  let twice := handleAnswer true "u2" "Bea" false "answer-2" once in
  let answered := handleOffer true "Ann" false "u3" "Cy" false "offer-sdp" emptyHook in
  let late := handleAnswer true "u3" "Cy" false "answer-3" answered in
  JMap.get "u2" (peers once)
  = Some (mkPeerConnection (Some (Received "answer-1")) (Some CreatedOffer) [] false)
  /\ peers twice = peers once
  /\ rejections twice = ["InvalidStateError: setRemoteDescription(answer)"]
  /\ peers late = peers answered
  /\ rejections late = ["InvalidStateError: setRemoteDescription(answer)"].
Proof. cbn zeta. repeat split. Qed.

Lemma keys_set_present {V} k (v old : V) m :
  JMap.get k m = Some old -> JMap.keys (JMap.set k v m) = JMap.keys m.
Proof. intros E. rewrite keys_set. unfold JMap.has. rewrite E. reflexivity. Qed.

Lemma answer_keeps_peers rb callerId callerName remoteShare answer h :
  JMap.keys (peers (handleAnswer rb callerId callerName remoteShare answer h))
  = JMap.keys (peers h).
Proof.
  unfold handleAnswer. simpl_hook.
  destruct (JMap.get callerId (peers h)) as [pc|] eqn:E; simpl_hook; [|reflexivity].
  destruct (pendingLocalOffer pc); simpl_hook; [|reflexivity].
  apply (keys_set_present _ _ pc). assumption.
Qed.

Lemma answer_keeps_sent rb callerId callerName remoteShare answer h :
  sent (handleAnswer rb callerId callerName remoteShare answer h) = sent h.
Proof.
  unfold handleAnswer. simpl_hook.
  destruct (JMap.get callerId (peers h)) as [pc|]; simpl_hook; [|reflexivity].
  destruct (pendingLocalOffer pc); reflexivity.
Qed.

Lemma candidate_keeps_peers callerId c h :
  JMap.keys (peers (handleIceCandidate callerId c h)) = JMap.keys (peers h).
Proof.
  unfold handleIceCandidate.
  destruct (JMap.get callerId (peers h)) as [pc|] eqn:E; [|reflexivity].
  destruct (addIceCandidate c pc); simpl_hook; [|reflexivity].
  apply (keys_set_present _ _ pc). assumption.
Qed.

(** X18: answers and ICE candidates never open or close a connection:
    over any sequence of such signals the negotiator keeps the same peers,
    in the same order, sends nothing, and keeps its statistics history and
    local stream. In particular a peer that has left does not come back
    through a late answer or candidate. *)
Theorem late_signals_keep_peers (implicitRollback : bool) (userId userName : string)
    (isScreenShare : bool) (ms : list Incoming) (n : Negotiator) :
  forallb late_signal ms = true ->
  let n' := onSignals implicitRollback userId userName isScreenShare ms n in
  JMap.keys (peers (hook n')) = JMap.keys (peers (hook n))
  /\ sent (hook n') = sent (hook n)
  /\ prevStatsRef n' = prevStatsRef n
  /\ localStreamRef n' = localStreamRef n.
Proof.
  revert n. induction ms as [|m ms IH]; intros n Hall; cbn zeta.
  - repeat split.
  - cbn [forallb] in Hall. apply andb_true_iff in Hall. destruct Hall as [Hm Hall].
    unfold onSignals. cbn [fold_left].
    set (n1 := onSignal implicitRollback userId userName isScreenShare m n).
    assert (H1 : JMap.keys (peers (hook n1)) = JMap.keys (peers (hook n))
                 /\ sent (hook n1) = sent (hook n)
                 /\ prevStatsRef n1 = prevStatsRef n
                 /\ localStreamRef n1 = localStreamRef n).
    { subst n1. destruct m as [d | t c nm sh o | t c nm sh a | t c cand | id];
        try discriminate; unfold onSignal;
        destruct (t =? userId); simpl_hook; try (repeat split; fail).
      - split; [apply answer_keeps_peers|].
        split; [apply answer_keeps_sent|]. split; reflexivity.
      - split; [apply candidate_keeps_peers|].
        destruct (handleIceCandidate_frame c cand (hook n)) as (Es & _).
        repeat split. exact Es. }
    clearbody n1. destruct (IH n1 Hall) as (K & S & P & L).
    fold (onSignals implicitRollback userId userName isScreenShare ms n1).
    destruct H1 as (K1 & S1 & P1 & L1). repeat split; congruence.
Qed.

Lemma late_signals_keep_peers_witness :
  forallb late_signal [InIceCandidate "me" "u2" "c1"; InAnswer "me" "u2" "Bea" false "sdp"]
  = true
  /\ JMap.keys (peers (hook
        (onSignals false "me" "Ann" false
           [InIceCandidate "me" "u2" "c1"; InAnswer "me" "u2" "Bea" false "sdp"]
           (handleUserDisconnected "u2"
              (onSignal false "me" "Ann" false (InUserConnected "u2") emptyNegotiator)))))
     = [].
Proof.
  split; [reflexivity|].
  destruct (late_signals_keep_peers false "me" "Ann" false
              [InIceCandidate "me" "u2" "c1"; InAnswer "me" "u2" "Bea" false "sdp"]
              (handleUserDisconnected "u2"
                 (onSignal false "me" "Ann" false (InUserConnected "u2") emptyNegotiator))
              eq_refl) as (K & _).
  rewrite K. reflexivity.
Defined.

(** X19: when a peer leaves, its connection, name, screen-share flag and
    statistics history are discarded and every other peer keeps its own; a
    departure of an unknown peer changes nothing. An offer that arrives
    from the same identifier afterwards is answered on a fresh connection
    with no applied candidates, and the next statistics sample for it
    starts from zero counters. *)
Theorem handleUserDisconnected_discards (id : string) (n : Negotiator) :
  let n' := handleUserDisconnected id n in
  match JMap.get id (peers (hook n)) with
  | Some _ =>
      JMap.get id (peers (hook n')) = None
      /\ JMap.get id (peerNames (hook n')) = None
      /\ JMap.get id (peerScreenShares (hook n')) = None
      /\ JMap.get id (prevStatsRef n') = None
      /\ (forall k, k <> id ->
            JMap.get k (peers (hook n')) = JMap.get k (peers (hook n))
            /\ JMap.get k (peerNames (hook n')) = JMap.get k (peerNames (hook n))
            /\ JMap.get k (peerScreenShares (hook n'))
               = JMap.get k (peerScreenShares (hook n))
            /\ JMap.get k (prevStatsRef n') = JMap.get k (prevStatsRef n))
      /\ (forall implicitRollback userName share callerName remoteShare offer,
            JMap.get id
              (peers (handleOffer implicitRollback userName share id callerName
                                  remoteShare offer (hook n')))
            = Some (mkPeerConnection (Some (Received offer)) (Some CreatedAnswer) []
                                     false))
      /\ (forall l r,
            fst (sampleLoss id l r (prevStatsRef n'))
            = lossPercentage (mkPacketCounts 0 0) l r)
  | None => n' = n
  end
  /\ sent (hook n') = sent (hook n).
Proof.
  cbn zeta. unfold handleUserDisconnected.
  destruct (JMap.get id (peers (hook n))) as [pc|] eqn:E; [|split; reflexivity].
  simpl_hook. rewrite !JMapFacts.get_del_same.
  split; [|reflexivity].
  do 4 (split; [reflexivity|]).
  split.
  { intros k Hk. rewrite !JMapFacts.get_del_other by assumption. repeat split. }
  split.
  - intros implicitRollback userName share callerName remoteShare offer.
    unfold handleOffer, createPeerConnection. simpl_hook.
    rewrite JMapFacts.get_del_same. simpl_hook.
    apply JMapFacts.get_set_same.
  - intros l r. unfold sampleLoss. cbn [fst].
    rewrite JMapFacts.get_del_same. reflexivity.
Qed.

(** ** Switching the local stream *)

Lemma reoffer_fold userName share l : forall h,
  (forall p, In p l -> JMap.get p (peers h) <> None) ->
  let h' := fold_left (reoffer userName share) l h in
  sent h' = sent h ++ map (fun p => SendOffer p userName share CreatedOffer) l
  /\ JMap.keys (peers h') = JMap.keys (peers h)
  /\ errors h' = errors h
  /\ forall p pc,
       JMap.get p (peers h) = Some pc ->
       JMap.get p (peers h')
       = Some (if JSet.has p l then
                 mkPeerConnection (remoteDescription pc) (Some CreatedOffer)
                                  (appliedCandidates pc) true
               else pc).
Proof.
  induction l as [|q l IH]; intros h Hall; cbn zeta.
  - cbn. rewrite app_nil_r. repeat split. auto.
  - cbn [fold_left map].
    destruct (JMap.get q (peers h)) as [pcq|] eqn:Eq;
      [|exfalso; apply (Hall q); [now left|assumption]].
    set (h1 := reoffer userName share h q).
    assert (E1 : peers h1 = JMap.set q (setLocalDescription CreatedOffer pcq) (peers h)
                 /\ sent h1 = sent h ++ [SendOffer q userName share CreatedOffer]
                 /\ errors h1 = errors h)
      by (subst h1; unfold reoffer; rewrite Eq; repeat split).
    destruct E1 as (Ep & Es & Ee). clearbody h1.
    destruct (IH h1) as (HS & HK & HE & HP).
    { intros p Hp. rewrite Ep, JMapFacts.get_set.
      destruct (p =? q); [discriminate|]. apply Hall. now right. }
    split; [rewrite HS, Es, <- app_assoc; reflexivity|].
    split; [rewrite HK, Ep; apply (keys_set_present _ _ pcq); assumption|].
    split; [congruence|].
    intros p pc E. unfold JSet.has. cbn [existsb].
    destruct (p =? q) eqn:Epq.
    + apply String.eqb_eq in Epq. subst p. rewrite Eq in E. injection E as ->.
      rewrite (HP q (setLocalDescription CreatedOffer pc));
        [|rewrite Ep; apply JMapFacts.get_set_same].
      cbn [orb]. unfold JSet.has. destruct (existsb (String.eqb q) l); reflexivity.
    + cbn [orb]. apply HP. rewrite Ep, JMapFacts.get_set, Epq. exact E.
Qed.

Lemma offers_to_map userName share p l :
  NoDup l ->
  List.length (offers_to p (map (fun q => SendOffer q userName share CreatedOffer) l))
  = if JSet.has p l then 1 else 0.
Proof.
  unfold offers_to, JSet.has. induction l as [|q l IH]; intros Hnd; [reflexivity|].
  inversion Hnd as [|? ? Hnot Hnd']; subst. cbn [map filter existsb].
  rewrite (String.eqb_sym q p).
  destruct (p =? q) eqn:E; cbn [orb List.length].
  - apply String.eqb_eq in E. subst q. rewrite (IH Hnd').
    destruct (existsb (String.eqb p) l) eqn:Ex; [|reflexivity].
    exfalso. apply Hnot. apply JSetFacts.has_In. exact Ex.
  - apply IH. assumption.
Qed.

Lemma has_keys {V} p (m : JMap.t V) : JSet.has p (JMap.keys m) = JMap.has p m.
Proof.
  unfold JSet.has, JMap.has, JMap.keys.
  induction m as [|[k v] m IH]; cbn; [reflexivity|].
  destruct (p =? k); [reflexivity|exact IH].
Qed.

Lemma has_Permutation p l l' : Permutation l l' -> JSet.has p l = JSet.has p l'.
Proof.
  intros HP. destruct (JSet.has p l') eqn:E.
  - apply JSetFacts.has_In. apply JSetFacts.has_In in E.
    apply Permutation_in with (l := l'); [apply Permutation_sym|]; assumption.
  - destruct (JSet.has p l) eqn:E'; [|reflexivity].
    apply JSetFacts.has_In in E'.
    apply (Permutation_in _ HP), JSetFacts.has_In in E'. congruence.
Qed.

(** X20: when the local stream is replaced by one with a different id, one
    callback per connection makes a fresh offer the connection's local
    description, keeping its remote description and applied candidates,
    and sends it. The offers go out in the order in which the callbacks
    complete, which the code does not fix; whatever that order is, with
    each peer held once, exactly one offer is sent per peer and none to
    anyone else, and the connections end up the same. No connection is
    opened or closed. *)
Theorem stream_switch_offers_each_peer_once (userName : string) (isScreenShare : bool)
    (new old : string) (completion : list string) (n : Negotiator) :
  localStreamRef n = Some old ->
  new <> old ->
  NoDup (JMap.keys (peers (hook n))) ->
  Permutation completion (JMap.keys (peers (hook n))) ->
  let n' := onLocalStream userName isScreenShare completion (Some new) n in
  let offer := fun p => SendOffer p userName isScreenShare CreatedOffer in
  sent (hook n') = sent (hook n) ++ map offer completion
  /\ Permutation (map offer completion) (map offer (JMap.keys (peers (hook n))))
  /\ (forall p, List.length (offers_to p (map offer completion))
                = if JMap.has p (peers (hook n)) then 1 else 0)
  /\ JMap.keys (peers (hook n')) = JMap.keys (peers (hook n))
  /\ (forall p pc,
        JMap.get p (peers (hook n)) = Some pc ->
        JMap.get p (peers (hook n'))
        = Some (mkPeerConnection (remoteDescription pc) (Some CreatedOffer)
                                 (appliedCandidates pc) true))
  /\ localStreamRef n' = Some new
  /\ prevStatsRef n' = prevStatsRef n.
Proof.
  intros Eold Hne Hnd Hperm. cbn zeta. unfold onLocalStream. rewrite Eold.
  apply String.eqb_neq in Hne. rewrite Hne. cbn [negb]. simpl_hook.
  destruct (reoffer_fold userName isScreenShare completion (hook n))
    as (HS & HK & _ & HP).
  { intros p Hp E. apply (Permutation_in _ Hperm) in Hp.
    apply get_none_keys in E. contradiction. }
  split; [exact HS|].
  split; [apply Permutation_map; exact Hperm|].
  split.
  { intros p. rewrite offers_to_map.
    - rewrite (has_Permutation p _ _ Hperm), has_keys. reflexivity.
    - apply (Permutation_NoDup (Permutation_sym Hperm)). exact Hnd. }
  split; [exact HK|].
  split; [|split; reflexivity].
  intros p pc E. rewrite (HP p pc E), (has_Permutation p _ _ Hperm), has_keys.
  unfold JMap.has. rewrite E. reflexivity.
Qed.

Lemma stream_switch_offers_each_peer_once_witness :
  let n := mkNegotiator
             (handleUserConnected "Ann" false "u3"
                (handleUserConnected "Ann" false "u2" emptyHook))
             [] (Some "camera") in
  localStreamRef n = Some "camera"
  /\ "screen" <> "camera"
  /\ NoDup (JMap.keys (peers (hook n)))
  /\ Permutation ["u3"; "u2"] (JMap.keys (peers (hook n)))
  /\ sent (hook (onLocalStream "Ann" true ["u3"; "u2"] (Some "screen") n))
     = sent (hook n)
       ++ [SendOffer "u3" "Ann" true CreatedOffer; SendOffer "u2" "Ann" true CreatedOffer].
Proof.
  cbn zeta. split; [reflexivity|]. split; [discriminate|].
  assert (Hnd : NoDup (JMap.keys (peers (hook (mkNegotiator
             (handleUserConnected "Ann" false "u3"
                (handleUserConnected "Ann" false "u2" emptyHook))
             [] (Some "camera")))))).
  { cbn. repeat constructor; cbn; intuition discriminate. }
  assert (Hperm : Permutation ["u3"; "u2"] (JMap.keys (peers (hook (mkNegotiator
             (handleUserConnected "Ann" false "u3"
                (handleUserConnected "Ann" false "u2" emptyHook))
             [] (Some "camera")))))).
  { cbn. apply perm_swap. }
  split; [exact Hnd|]. split; [exact Hperm|].
  destruct (stream_switch_offers_each_peer_once "Ann" true "screen" "camera" ["u3"; "u2"]
              (mkNegotiator
                 (handleUserConnected "Ann" false "u3"
                    (handleUserConnected "Ann" false "u2" emptyHook))
                 [] (Some "camera")) eq_refl) as (HS & _);
    [discriminate | exact Hnd | exact Hperm |].
  exact HS.
Defined.

(** X21: the stream-switch effect renegotiates nothing when there is no new
    stream, when no stream was recorded before (the first stream of the
    call), or when the new stream has the id of the recorded one: the
    connections and the sent messages stay as they are and only the
    recorded stream is updated. *)
Theorem stream_kept_no_offer (userName : string) (isScreenShare : bool)
    (completion : list string) (localStream : option string) (n : Negotiator) :
  localStream = None \/ localStreamRef n = None \/ localStream = localStreamRef n ->
  let n' := onLocalStream userName isScreenShare completion localStream n in
  hook n' = hook n /\ localStreamRef n' = localStream /\ prevStatsRef n' = prevStatsRef n.
Proof.
  intros H. cbn zeta. unfold onLocalStream. simpl_hook.
  repeat split.
  destruct H as [-> | [H | H]].
  - reflexivity.
  - rewrite H. destruct localStream; reflexivity.
  - rewrite <- H. destruct localStream as [new|]; [|reflexivity].
    rewrite String.eqb_refl. reflexivity.
Qed.

Lemma stream_kept_no_offer_witness :
  let n := mkNegotiator (handleUserConnected "Ann" false "u2" emptyHook) [] None in
  (Some "camera" = None \/ localStreamRef n = None \/ Some "camera" = localStreamRef n)
  /\ hook (onLocalStream "Ann" false ["u2"] (Some "camera") n) = hook n
  /\ localStreamRef (onLocalStream "Ann" false ["u2"] (Some "camera") n) = Some "camera".
Proof.
  cbn zeta. split; [right; left; reflexivity|].
  destruct (stream_kept_no_offer "Ann" false ["u2"] (Some "camera")
              (mkNegotiator (handleUserConnected "Ann" false "u2" emptyHook) [] None))
    as (H1 & H2 & _); [right; left; reflexivity|].
  split; assumption.
Defined.

(** ** Statistics *)

(** X22: for a window that holds packets (the two differences add up to
    more than zero), the reported loss percentage lies in [0, 100] exactly
    when neither cumulative counter went down: a lost count that decreased
    gives a negative percentage, a received count that decreased gives more
    than 100. *)
Theorem loss_percentage_range_iff (prev : PacketCounts) (l r : Z) :
  let deltaLost := (l - packetsLost prev)%Z in
  let deltaReceived := (r - packetsReceived prev)%Z in
  (0 < deltaLost + deltaReceived)%Z ->
  ((0 <= lossPercentage prev l r)%Q /\ (lossPercentage prev l r <= 100)%Q
   <-> (0 <= deltaLost)%Z /\ (0 <= deltaReceived)%Z).
Proof.
  intros dl dr Htot.
  destruct (lossPercentage_deltas prev l r) as (_ & Hval & Hrange).
  fold dl dr in Hval, Hrange. rewrite (Hval Htot).
  split; [|intros [H1 H2]; rewrite <- (Hval Htot); apply Hrange; assumption].
  assert (Ht : (0 < inject_Z (dl + dr))%Q)
    by (change 0%Q with (inject_Z 0); rewrite <- Zlt_Qlt; exact Htot).
  set (q := (inject_Z dl / inject_Z (dl + dr))%Q).
  assert (Eq : (q * inject_Z (dl + dr) == inject_Z dl)%Q).
  { subst q. field. intros E. rewrite E in Ht. apply (Qlt_irrefl 0). exact Ht. }
  change (inject_Z 100) with 100%Q.
  intros [H0 H100].
  assert (Hd : (0 <= inject_Z dl)%Q) by (rewrite <- Eq; nra).
  assert (Hr : (inject_Z dl <= inject_Z (dl + dr))%Q) by (rewrite <- Eq at 1; nra).
  change 0%Q with (inject_Z 0) in Hd. rewrite <- Zle_Qle in Hd, Hr. lia.
Qed.

Lemma loss_percentage_range_iff_witness :
  (0 < (5 - 10) + (100 - 0))%Z
  /\ ~ ((0 <= lossPercentage (mkPacketCounts 10 0) 5 100)%Q
        /\ (lossPercentage (mkPacketCounts 10 0) 5 100 <= 100)%Q).
Proof.
  split; [reflexivity|].
  intros H.
  apply (loss_percentage_range_iff (mkPacketCounts 10 0) 5 100) in H; [|reflexivity].
  cbn in H. destruct H as [H _]. apply H. reflexivity.
Defined.

Lemma sampleOne_spec reports nx pv q :
  sampleOne reports (nx, pv) q =
  match reports q with
  | Some (lo, re) =>
      (JMap.set q (lossPercentage
                     (match JMap.get q pv with Some p => p | None => mkPacketCounts 0 0 end)
                     lo re, lo) nx,
       JMap.set q (mkPacketCounts lo re) pv)
  | None => (nx, pv)
  end.
Proof. unfold sampleOne, sampleLoss. destruct (reports q) as [[lo re]|]; reflexivity. Qed.

Lemma sample_fold reports l : forall nx pv,
  NoDup l ->
  let acc := fold_left (sampleOne reports) l (nx, pv) in
  forall p,
    if JSet.has p l then
      match reports p with
      | Some (lo, re) =>
          JMap.get p (fst acc)
          = Some (lossPercentage
                    (match JMap.get p pv with Some c => c | None => mkPacketCounts 0 0 end)
                    lo re, lo)
          /\ JMap.get p (snd acc) = Some (mkPacketCounts lo re)
      | None => JMap.get p (fst acc) = JMap.get p nx /\ JMap.get p (snd acc) = JMap.get p pv
      end
    else JMap.get p (fst acc) = JMap.get p nx /\ JMap.get p (snd acc) = JMap.get p pv.
Proof.
  induction l as [|q l IH]; intros nx pv Hnd; cbn zeta; intros p.
  - cbn. auto.
  - inversion Hnd as [|? ? Hnot Hnd']; subst. cbn [fold_left].
    rewrite sampleOne_spec. unfold JSet.has. cbn [existsb].
    destruct (p =? q) eqn:Epq; cbn [orb].
    + apply String.eqb_eq in Epq. subst p.
      assert (Hq : JSet.has q l = false).
      { destruct (JSet.has q l) eqn:E; [|reflexivity].
        apply JSetFacts.has_In in E. contradiction. }
      destruct (reports q) as [[lo re]|].
      * specialize (IH (JMap.set q (lossPercentage
                          (match JMap.get q pv with
                           | Some c => c | None => mkPacketCounts 0 0 end) lo re, lo) nx)
                       (JMap.set q (mkPacketCounts lo re) pv) Hnd' q).
        cbn zeta in IH. rewrite Hq in IH. rewrite !JMapFacts.get_set_same in IH. exact IH.
      * specialize (IH nx pv Hnd' q). cbn zeta in IH. rewrite Hq in IH. exact IH.
    + fold (JSet.has p l).
      destruct (reports q) as [[lo re]|].
      * specialize (IH (JMap.set q (lossPercentage
                          (match JMap.get q pv with
                           | Some c => c | None => mkPacketCounts 0 0 end) lo re, lo) nx)
                       (JMap.set q (mkPacketCounts lo re) pv) Hnd' p).
        cbn zeta in IH. rewrite !JMapFacts.get_set, Epq in IH. exact IH.
      * exact (IH nx pv Hnd' p).
Qed.

(** X23: one tick of the statistics interval. With no peer nothing is
    reported and nothing changes. Otherwise (each peer held once) a peer
    whose statistics were read gets an entry with the loss percentage of the
    window since its stored counters (zero counters when it has none) and
    its counters are stored for the next tick; a peer whose read failed, and
    anyone who is not a peer, gets no entry and keeps the counters it had.
    The connections are not touched. *)
Theorem sampleStats_per_peer (reports : string -> option (Z * Z)) (n : Negotiator) :
  (JMap.size (peers (hook n)) = 0 -> sampleStats reports n = (None, n))
  /\ (JMap.size (peers (hook n)) <> 0 ->
      NoDup (JMap.keys (peers (hook n))) ->
      exists nextStats n',
        sampleStats reports n = (Some nextStats, n')
        /\ hook n' = hook n
        /\ localStreamRef n' = localStreamRef n
        /\ forall p,
             match (if JMap.has p (peers (hook n)) then reports p else None) with
             | Some (lo, re) =>
                 JMap.get p nextStats
                 = Some (lossPercentage
                           (match JMap.get p (prevStatsRef n) with
                            | Some c => c
                            | None => mkPacketCounts 0 0
                            end) lo re, lo)
                 /\ JMap.get p (prevStatsRef n') = Some (mkPacketCounts lo re)
             | None =>
                 JMap.get p nextStats = None
                 /\ JMap.get p (prevStatsRef n') = JMap.get p (prevStatsRef n)
             end).
Proof.
  unfold sampleStats. split.
  - intros ->. reflexivity.
  - intros Hsz Hnd. apply Nat.eqb_neq in Hsz. rewrite Hsz.
    pose proof (sample_fold reports (JMap.keys (peers (hook n))) [] (prevStatsRef n) Hnd)
      as H. cbn zeta in H.
    match goal with
    | |- context [fold_left ?f ?l ?a] => set (acc := fold_left f l a)
    end.
    change (fold_left (sampleOne reports) (JMap.keys (peers (hook n)))
              ([], prevStatsRef n)) with acc in H.
    destruct acc as [nx pv].
    exists nx, (mkNegotiator (hook n) pv (localStreamRef n)).
    split; [reflexivity|]. split; [reflexivity|]. split; [reflexivity|].
    intros p. specialize (H p). rewrite has_keys in H. cbn [fst snd] in H.
    simpl_hook. destruct (JMap.has p (peers (hook n))); [|exact H].
    destruct (reports p) as [[lo re]|]; exact H.
Qed.

Lemma sampleStats_per_peer_witness :
  let n := mkNegotiator
             (handleUserConnected "Ann" false "u3"
                (handleUserConnected "Ann" false "u2" emptyHook))
             [("u2", mkPacketCounts 10 90)] None in
  let reports := fun p => if p =? "u2" then Some (30, 170)%Z else None in
  JMap.size (peers (hook n)) <> 0
  /\ NoDup (JMap.keys (peers (hook n)))
  /\ exists nextStats n',
       sampleStats reports n = (Some nextStats, n')
       /\ JMap.get "u2" nextStats
          = Some (lossPercentage (mkPacketCounts 10 90) 30 170, 30%Z)
       /\ JMap.get "u3" nextStats = None
       /\ JMap.get "u2" (prevStatsRef n') = Some (mkPacketCounts 30 170).
Proof.
  cbn zeta.
  set (n := mkNegotiator
             (handleUserConnected "Ann" false "u3"
                (handleUserConnected "Ann" false "u2" emptyHook))
             [("u2", mkPacketCounts 10 90)] None).
  set (reports := fun p => if p =? "u2" then Some (30, 170)%Z else None).
  assert (Hsz : JMap.size (peers (hook n)) <> 0) by discriminate.
  assert (Hnd : NoDup (JMap.keys (peers (hook n))))
    by (cbn; repeat constructor; cbn; intuition discriminate).
  split; [exact Hsz|]. split; [exact Hnd|].
  destruct (sampleStats_per_peer reports n) as [_ H].
  destruct (H Hsz Hnd) as (nx & n' & E & _ & _ & Hp).
  exists nx, n'. split; [exact E|].
  pose proof (Hp "u2") as H2. pose proof (Hp "u3") as H3.
  cbn in H2, H3. destruct H2 as [H2a H2b]. destruct H3 as [H3a _].
  repeat split; assumption.
Defined.

(** ** Joining as the host, joining again *)

Lemma add_present x m : In x m -> JSet.add x m = m.
Proof.
  intros H. unfold JSet.add. apply JSetFacts.has_In in H. rewrite H. reflexivity.
Qed.

Lemma join_room_direct sid r u config userName s meta members :
  JMap.get r (roomMetadata s) = Some meta ->
  JMap.get r (rooms s) = Some members ->
  isLocked meta = false ->
  waitingRoom meta = false \/ hostId meta = Some u ->
  let s' := on_join_room sid r u config userName s in
  outbox s' =
    outbox s
    ++ [mkEmission (ToRoomExcept r sid) (UserConnected u)
                   (room_sockets_except r sid (socket_join sid r s));
        mkEmission (ToSocket sid)
                   (RoomJoined r (opt_eqb (hostId meta) (Some u))
                      (mkRoomSettings false (waitingRoom meta) (hostId meta)))
                   [sid];
        mkEmission ToAll (RoomsUpdate (getPublicRooms s')) (JMap.keys (sio s'))]
  /\ JMap.get r (rooms s') = Some (JSet.add u members)
  /\ JMap.get sid (socketToUser s') = Some u
  /\ JMap.get u (userToRoom s') = Some r
  /\ roomMetadata s' = roomMetadata s
  /\ waitingRooms s' = waitingRooms s
  /\ sio s' = sio (socket_join sid r s).
Proof.
  intros EM ER EL Hgate. cbn zeta. unfold on_join_room.
  set (s1 := if truthy_opt userName then _ else _).
  destruct (names_roomMetadata_frame userName u s)
    as (ER1 & EM1 & EW1 & _ & _ & EI1 & EO1).
  fold s1 in ER1, EM1, EW1, EI1, EO1. clearbody s1.
  rewrite EM1, EM. cbn [opt_flag meta_hostId isSome negb]. rewrite EL.
  assert (Eg : waitingRoom meta && negb (opt_eqb (hostId meta) (Some u)) = false).
  { destruct Hgate as [-> | ->]; [reflexivity|].
    rewrite opt_eqb_refl. apply andb_false_r. }
  rewrite Eg.
  destruct (join_direct_existing sid r u config s1 meta members)
    as (HO & HR & HS & HU & HM); [congruence | congruence |].
  rewrite EL, EO1, (except_join_sio r sid sid s s1 EI1) in HO.
  assert (HW : waitingRooms (join_direct sid r u config false s1) = waitingRooms s1).
  { unfold join_direct. rewrite socket_join_eq. unfold_emit. simpl_fields.
    rewrite ER1, ER. reflexivity. }
  assert (HI : sio (join_direct sid r u config false s1) = sio (socket_join sid r s)).
  { rewrite join_direct_sio, !socket_join_eq. simpl_fields. rewrite EI1. reflexivity. }
  repeat split; congruence.
Qed.

(** X24: a join that gives the host's identifier as user identifier is let
    straight into an unlocked room even when the waiting room is on,
    whichever socket sends it: the socket is bound to the host's
    identifier, [room-joined] says [isHost] true, and no waiting entry is
    made. [user-connected] goes through the socket's [to(room)]: it is
    handed to the sockets that are in the room once the socket has joined
    it and are not in the socket.io room named by the socket's id, so not to
    the joining socket while it is in the room of its own id. *)
Theorem join_as_host_skips_waiting_room (s : State) (sid r u : string)
    (config : option RoomConfig) (userName : option string) (meta : RoomMeta) :
  reachable s ->
  JMap.get r (roomMetadata s) = Some meta ->
  isLocked meta = false ->
  waitingRoom meta = true ->
  hostId meta = Some u ->
  exists s',
    step s (sid, JoinRoom r u config userName) = Done s'
    /\ JMap.get sid (socketToUser s') = Some u
    /\ JMap.get u (userToRoom s') = Some r
    /\ waitingRooms s' = waitingRooms s
    /\ members_of r s' = members_of r s
    /\ outbox s' =
       [mkEmission (ToRoomExcept r sid) (UserConnected u)
                   (room_sockets_except r sid (socket_join sid r s));
        mkEmission (ToSocket sid)
                   (RoomJoined r true (mkRoomSettings false true (Some u))) [sid];
        mkEmission ToAll (RoomsUpdate (getPublicRooms s')) (JMap.keys (sio s'))]
    /\ (forall x,
          In x (room_sockets_except r sid (socket_join sid r s)) <->
          JSet.has r (socket_rooms x (socket_join sid r s)) = true
          /\ JSet.has sid (socket_rooms x (socket_join sid r s)) = false)
    /\ (JSet.has sid (socket_rooms sid s) = true ->
        room_sockets_except r sid (socket_join sid r s) = room_sockets_except r sid s
        /\ ~ In sid (room_sockets_except r sid s)).
Proof.
  intros Hreach EM EL EW Eh.
  destruct (Inv3_meta_exists _ _ _ _ _ (Inv_reachable s Hreach) EM)
    as (h & members & Eh' & ER & Hin).
  assert (h = u) by congruence. subst h.
  pose proof (reachable_sio_keys s Hreach) as Hnd.
  destruct (join_room_direct sid r u config userName (with_outbox [] s) meta members
              EM ER EL (or_intror Eh)) as (HO & HR & HS & HU & _ & HW & _).
  rewrite (except_join_sio r sid sid s (with_outbox [] s) eq_refl) in HO.
  eexists. split; [reflexivity|]. cbn [fst snd].
  split; [exact HS|]. split; [exact HU|]. split; [exact HW|].
  split; [|split; [|split]].
  - unfold members_of. rewrite HR, ER. rewrite add_present by assumption. reflexivity.
  - rewrite HO, Eh, EW, opt_eqb_refl. reflexivity.
  - intros x. apply room_sockets_except_In.
    apply (sockets_closed_join (fun m => NoDup (JMap.keys m))
             (fun k v m => NoDup_keys_set k v m)). exact Hnd.
  - intros Hown. split; [apply except_after_join; assumption|].
    apply sender_left_out; assumption.
Qed.

Lemma join_as_host_skips_waiting_room_witness :
  reachable demo_gated
  /\ JMap.get "R1" (roomMetadata demo_gated)
     = Some (mkRoomMeta true (Some "Standup") (Some "u1") false true)
  /\ exists s',
       step demo_gated ("s2", JoinRoom "R1" "u1" None None) = Done s'
       /\ JMap.get "s2" (socketToUser s') = Some "u1"
       /\ waitingRooms s' = waitingRooms demo_gated
       /\ In (mkEmission (ToSocket "s2")
                (RoomJoined "R1" true (mkRoomSettings false true (Some "u1"))) ["s2"])
             (outbox s').
Proof.
  split; [exact demo_gated_reachable|]. split; [reflexivity|].
  destruct (join_as_host_skips_waiting_room demo_gated "s2" "R1" "u1" None None
              (mkRoomMeta true (Some "Standup") (Some "u1") false true)
              demo_gated_reachable)
    as (s' & Hstep & HS & _ & HW & _ & HO & _); try reflexivity.
  exists s'. split; [exact Hstep|]. split; [exact HS|]. split; [exact HW|].
  rewrite HO. right. left. reflexivity.
Defined.

(** X25: a user who is already a member and joins the same room again
    (unlocked, waiting room off or the user being the host) is not added a
    second time: the member set and the member count stay as they are,
    while [user-connected] is emitted once more through the socket's
    [to(room)], to the sockets that are in the room after the socket's join
    and not in the socket.io room named by the socket's id. *)
Theorem join_again_keeps_members (s : State) (sid r u : string)
    (config : option RoomConfig) (userName : option string) (meta : RoomMeta) :
  JMap.get r (roomMetadata s) = Some meta ->
  isLocked meta = false ->
  waitingRoom meta = false \/ hostId meta = Some u ->
  In u (members_of r s) ->
  exists s',
    step s (sid, JoinRoom r u config userName) = Done s'
    /\ members_of r s' = members_of r s
    /\ member_count r s' = member_count r s
    /\ In (mkEmission (ToRoomExcept r sid) (UserConnected u)
                      (room_sockets_except r sid (socket_join sid r s)))
          (outbox s')
    /\ (forall x,
          In x (room_sockets_except r sid (socket_join sid r s)) <->
          exists joined,
            In (x, joined) (sio s')
            /\ JSet.has r joined = true /\ JSet.has sid joined = false).
Proof.
  intros EM EL Hgate Hin.
  unfold members_of in Hin.
  destruct (JMap.get r (rooms s)) as [members|] eqn:ER; [|destruct Hin].
  destruct (join_room_direct sid r u config userName (with_outbox [] s) meta members
              EM ER EL Hgate) as (HO & HR & _ & _ & _ & _ & HI).
  rewrite (except_join_sio r sid sid s (with_outbox [] s) eq_refl) in HO.
  eexists. split; [reflexivity|]. cbn [fst snd].
  unfold members_of, member_count. rewrite HR, ER, add_present by assumption.
  split; [reflexivity|]. split; [reflexivity|].
  split; [rewrite HO; left; reflexivity|].
  intros x. rewrite HI.
  replace (sio (socket_join sid r (with_outbox [] s))) with (sio (socket_join sid r s))
    by (rewrite !socket_join_eq; reflexivity).
  apply room_sockets_except_entries.
Qed.

Lemma join_again_keeps_members_witness :
  JMap.get "R1" (roomMetadata demo_three)
  = Some (mkRoomMeta false (Some "Room R1") (Some "u1") false false)
  /\ In "u2" (members_of "R1" demo_three)
  /\ exists s',
       step demo_three ("s2", JoinRoom "R1" "u2" None None) = Done s'
       /\ members_of "R1" s' = ["u1"; "u2"; "u3"]
       /\ member_count "R1" s' = 3.
Proof.
  split; [reflexivity|]. split; [right; left; reflexivity|].
  destruct (join_again_keeps_members demo_three "s2" "R1" "u2" None None
              (mkRoomMeta false (Some "Room R1") (Some "u1") false false))
    as (s' & Hstep & Hm & Hc & _);
    [reflexivity | reflexivity | left; reflexivity | right; left; reflexivity |].
  exists s'. repeat split; assumption.
Defined.

(** ** Waiting lists *)

Lemma In_set {V} k k0 (x v : V) m :
  In (k, x) (JMap.set k0 v m) -> (k = k0 /\ x = v) \/ In (k, x) m.
Proof.
  induction m as [|[k1 v1] m IH]; cbn.
  - intros [[= <- <-]|[]]. auto.
  - destruct (k0 =? k1); cbn.
    + intros [[= <- <-]|H]; auto.
    + intros [H|H]; [auto|]. destruct (IH H); auto.
Qed.

Lemma In_del_inv {V} k k0 (x : V) m : In (k, x) (JMap.del k0 m) -> In (k, x) m.
Proof. unfold JMap.del. intros H. apply filter_In in H. tauto. Qed.

Lemma waiting_ok_nil : waiting_ok [].
Proof. split; [constructor|]. intros k e []. Qed.

Lemma waiting_ok_set u sid nm w :
  waiting_ok w -> waiting_ok (JMap.set u (mkWaitingUser u sid nm) w).
Proof.
  intros [Hnd Hk]. split; [apply NoDup_keys_set; assumption|].
  intros k e H. apply In_set in H. destruct H as [[-> ->]|H]; [reflexivity|auto].
Qed.

Lemma waiting_ok_del u w : waiting_ok w -> waiting_ok (JMap.del u w).
Proof.
  intros [Hnd Hk]. split; [apply NoDup_keys_del; assumption|].
  intros k e H. apply In_del_inv in H. auto.
Qed.

Lemma Waiting_set r w (W : JMap.t (JMap.t WaitingUser)) :
  (forall r' w', In (r', w') W -> waiting_ok w') -> waiting_ok w ->
  forall r' w', In (r', w') (JMap.set r w W) -> waiting_ok w'.
Proof.
  intros HW Hw r' w' H. apply In_set in H. destruct H as [[_ ->]|H]; eauto.
Qed.

Lemma Waiting_get r w (W : JMap.t (JMap.t WaitingUser)) :
  (forall r' w', In (r', w') W -> waiting_ok w') ->
  JMap.get r W = Some w -> waiting_ok w.
Proof. intros HW E. apply (HW r). apply JMapFacts.get_In. exact E. Qed.

Lemma Waiting_drop u (W : JMap.t (JMap.t WaitingUser)) :
  (forall r' w', In (r', w') W -> waiting_ok w') ->
  forall r' w', In (r', w') (drop_waiting u W) -> waiting_ok w'.
Proof.
  induction W as [|[r w] W IH]; intros HW r' w'; cbn; [tauto|].
  destruct (JMap.has u w).
  - intros [[= <- <-]|H].
    + apply waiting_ok_del. apply (HW r w). now left.
    + apply (HW r' w'). now right.
  - intros [[= <- <-]|H].
    + apply (HW r w). now left.
    + refine (IH _ r' w' H). intros r0 w0 H0. apply (HW r0 w0). now right.
Qed.

Lemma join_waiting_waitingRooms sid r u userName host s :
  waitingRooms (join_waiting sid r u userName host s) =
  JMap.set r (JMap.set u (mkWaitingUser u sid (shown_name userName u)) (waiting_of r s))
           (if JMap.has r (waitingRooms s) then waitingRooms s
            else JMap.set r [] (waitingRooms s)).
Proof.
  unfold join_waiting, waiting_of, JMap.has. unfold_emit.
  destruct (JMap.get r (waitingRooms s)) as [w|] eqn:E; cbn [isSome]; simpl_fields.
  - rewrite E. repeat break_match; reflexivity.
  - rewrite JMapFacts.get_set_same. repeat break_match; reflexivity.
Qed.

Lemma Waiting_remove_member r u s : Waiting s -> Waiting (remove_member r u s).
Proof.
  intros HW. unfold remove_member.
  destruct (JMap.get r (rooms s)) as [m|]; [|assumption].
  set (s1 := with_rooms _ s).
  set (s2 := if _ && _ then transfer_host r (JSet.del u m) s1 else s1).
  assert (H2 : Waiting s2).
  { subst s2. destruct (_ && _); [|exact HW].
    unfold Waiting. rewrite transfer_host_waitingRooms. exact HW. }
  clearbody s2. destruct (Nat.eqb _ 0); [|assumption].
  unfold Waiting. rewrite close_room_waitingRooms.
  destruct (JMap.get r (waitingRooms s2)); [|exact H2].
  intros r' w' H. apply In_del_inv in H. apply (H2 r'). exact H.
Qed.

Lemma Waiting_handle sid ev s s' :
  Waiting s -> handle sid ev s = Done s' -> Waiting s'.
Proof.
  intros HW Hh.
  destruct ev as [ | | cb | rid uid cfg un | rid uid | rid uid | rid | rid
                 | a b c d | a b c d | a b | a b | a b | a b | a b | a | rid uid | ];
    cbn [handle] in Hh; try (injection Hh as <-);
    try (unfold_emit; exact HW).
  - destruct cb; exact HW.
  - unfold on_join_room.
    set (s1 := if truthy_opt un then _ else _).
    assert (H1 : Waiting s1).
    { subst s1. destruct (truthy_opt un); [destruct un|]; exact HW. }
    clearbody s1. destruct (opt_flag isLocked _); [exact H1|].
    destruct (_ && _).
    + unfold Waiting. rewrite join_waiting_waitingRooms.
      assert (H0 : forall r' w',
                 In (r', w') (if JMap.has rid (waitingRooms s1) then waitingRooms s1
                              else JMap.set rid [] (waitingRooms s1)) -> waiting_ok w').
      { destruct (JMap.has rid (waitingRooms s1)); [exact H1|].
        apply (Waiting_set rid []); [exact H1 | apply waiting_ok_nil]. }
      apply (Waiting_set rid _); [exact H0|].
      apply waiting_ok_set. unfold waiting_of.
      destruct (JMap.get rid (waitingRooms s1)) eqn:E; [|apply waiting_ok_nil].
      apply (Waiting_get rid _ (waitingRooms s1)); assumption.
    + unfold join_direct. rewrite socket_join_eq. unfold_emit.
      destruct (negb _); unfold create_room; simpl_fields.
      * repeat break_match; unfold Waiting; simpl_fields;
          apply (Waiting_set rid []); auto using waiting_ok_nil.
      * repeat break_match; exact H1.
  - unfold on_admit_user.
    destruct (negb _); [exact HW|].
    destruct (JMap.get rid (waitingRooms s)) as [w|] eqn:EW; [|exact HW].
    destruct (JMap.get uid w) as [wu|]; [|exact HW].
    assert (H1 : Waiting (with_waitingRooms
                            (JMap.set rid (JMap.del uid w) (waitingRooms s)) s)).
    { unfold Waiting. simpl_fields. apply (Waiting_set rid _); [exact HW|].
      apply waiting_ok_del. apply (Waiting_get rid _ (waitingRooms s)); assumption. }
    unfold_emit. unfold Waiting. simpl_fields.
    destruct (connected _ _); simpl_fields; [|exact H1].
    rewrite socket_join_eq. simpl_fields.
    destruct (JMap.get rid (rooms s)); simpl_fields; exact H1.
  - unfold on_deny_user.
    destruct (negb _); [exact HW|].
    destruct (JMap.get rid (waitingRooms s)) as [w|] eqn:EW; [|exact HW].
    destruct (JMap.get uid w) as [wu|]; [|exact HW].
    assert (H1 : Waiting (with_waitingRooms
                            (JMap.set rid (JMap.del uid w) (waitingRooms s)) s)).
    { unfold Waiting. simpl_fields. apply (Waiting_set rid _); [exact HW|].
      apply waiting_ok_del. apply (Waiting_get rid _ (waitingRooms s)); assumption. }
    unfold_emit. unfold Waiting. simpl_fields.
    destruct (connected _ _); simpl_fields; exact H1.
  - revert Hh. unfold on_toggle_lock. destruct (negb _); [intros [= <-]; exact HW|].
    destruct (JMap.get rid (roomMetadata s)); [|discriminate].
    intros [= <-]. exact HW.
  - revert Hh. unfold on_toggle_waiting_room. destruct (negb _); [intros [= <-]; exact HW|].
    destruct (JMap.get rid (roomMetadata s)); [|discriminate].
    intros [= <-]. exact HW.
  - destruct (relay_frame sid (OfferMsg (JMap.get sid (socketToUser s)) b c d a) s)
      as (_ & _ & E & _). unfold Waiting. rewrite E. exact HW.
  - destruct (relay_frame sid (AnswerMsg (JMap.get sid (socketToUser s)) b c d a) s)
      as (_ & _ & E & _). unfold Waiting. rewrite E. exact HW.
  - destruct (relay_frame sid (IceCandidateMsg (JMap.get sid (socketToUser s)) b a) s)
      as (_ & _ & E & _). unfold Waiting. rewrite E. exact HW.
  - unfold on_leave_room. unfold_emit. unfold Waiting. simpl_fields.
    apply Waiting_remove_member. rewrite socket_leave_eq. exact HW.
  - unfold on_disconnect.
    set (s0 := with_sio _ s). assert (H0 : Waiting s0) by exact HW. clearbody s0.
    destruct (JMap.get sid (socketToUser s0)) as [u|]; [|exact H0].
    destruct (truthy u); [|exact H0].
    assert (H1 : Waiting (leave_waiting u s0)).
    { unfold Waiting. rewrite leave_waiting_waitingRooms. apply Waiting_drop. exact H0. }
    unfold Waiting. simpl_fields.
    destruct (JMap.get u (userToRoom s0)) as [r|]; [|exact H1].
    destruct (truthy r); [|exact H1].
    unfold disconnect_room. unfold_emit. simpl_fields.
    apply Waiting_remove_member. exact H1.
Qed.

Lemma Waiting_run events : forall s s', Waiting s -> run s events = Done s' -> Waiting s'.
Proof.
  induction events as [|e rest IH]; intros s s' HW; cbn.
  - intros [= <-]. exact HW.
  - destruct (step s e) as [s1|] eqn:E; [|discriminate].
    apply IH. unfold step in E. eapply Waiting_handle; [|exact E]. exact HW.
Qed.

Lemma Waiting_reachable s : reachable s -> Waiting s.
Proof.
  intros [events H]. eapply Waiting_run; [|exact H]. intros r w [].
Qed.

(** X26: in every state the authority can reach, every waiting list holds
    each user once, each entry under the user's own identifier and carrying
    it, so the list sent to the host as [waiting-room-update] names no user
    twice; and the room of every waiting list exists. *)
Theorem waiting_lists_name_users_once (s : State) :
  reachable s ->
  forall r w,
    JMap.get r (waitingRooms s) = Some w ->
    NoDup (map fst (waiting_list w))
    /\ (forall k e, JMap.get k w = Some e -> odId e = k)
    /\ JMap.get r (roomMetadata s) <> None.
Proof.
  intros Hreach r w E.
  destruct (Waiting_get r w (waitingRooms s) (Waiting_reachable s Hreach) E) as [Hnd Hk].
  split; [|split].
  - assert (Em : map fst (waiting_list w) = JMap.keys w).
    { unfold waiting_list, JMap.values, JMap.keys. rewrite !map_map.
      apply map_ext_in. intros [k e] Hin. cbn. apply Hk. exact Hin. }
    rewrite Em. exact Hnd.
  - intros k e Eg. apply Hk. apply JMapFacts.get_In. exact Eg.
  - destruct (Inv_waiting_room r s w (Inv_reachable s Hreach) E) as (members & ER).
    destruct (Inv3_room_exists _ _ _ _ _ (Inv_reachable s Hreach) ER)
      as (meta & h & EM & _). congruence.
Qed.

Lemma waiting_lists_name_users_once_witness :
  reachable demo_queued
  /\ JMap.get "R1" (waitingRooms demo_queued) = Some [("u2", mkWaitingUser "u2" "s2" "u2")]
  /\ NoDup (map fst (waiting_list [("u2", mkWaitingUser "u2" "s2" "u2")])).
Proof.
  split; [exact demo_queued_reachable|]. split; [reflexivity|].
  destruct (waiting_lists_name_users_once demo_queued demo_queued_reachable "R1"
              [("u2", mkWaitingUser "u2" "s2" "u2")] eq_refl) as (H & _).
  exact H.
Defined.
